(** * Window tiling of a 3D volume: a model of
      [scripts/virus_factory/generate_windows_3d_data.py]

    The development embeds the body of [main] (from the resolution of the
    slice bounds to the manifest flush) as Rocq functions and proves the
    properties of the windowing engine: the padding step, the enumeration
    of clamped windows, the slice selection and the manifest flush.

    Conventions.
    - Python integers are [Z]; array extents ([data.shape]) are [nat].
    - A raised exception is a value of [exn]; fallible expressions live in
      [res], statements that also touch the file system live in [M].
    - Arrays are a shape together with an indexing function, so they are
      rectangular by construction, as numpy arrays are.
    - The model starts after the volume is loaded and transposed.  The
      file system holds regular files only, and writing to it does not
      fail. *)

From Stdlib Require Import ZArith QArith Qround Lia List Sorted Ascii String.
From stdpp Require Import base tactics option list strings pretty gmap.

Local Open Scope Z_scope.

(** ** Exceptions and fallible values *)

Inductive exn : Type :=
  | ValueError
  | IndexError.

Inductive res (A : Type) : Type :=
  | Ok (a : A)
  | Raise (e : exn).
Arguments Ok {A} a.
Arguments Raise {A} e.

Definition res_bind {A B} (r : res A) (k : A -> res B) : res B :=
  match r with
  | Ok a => k a
  | Raise e => Raise e
  end.

Definition is_ok {A} (r : res A) : bool :=
  match r with Ok _ => true | Raise _ => false end.

(** ** The builtin [range(start, stop, step)]

    [range] raises [ValueError] for a zero step.  Otherwise its length is
    the one CPython computes and its [i]-th element is [start + i * step]. *)

Definition range_len (start stop step : Z) : nat :=
  if 0 <? step
  then Z.to_nat ((stop - start + step - 1) / step)
  else Z.to_nat ((start - stop - step - 1) / (- step)).

Definition range_items (start step : Z) (n : nat) : list Z :=
  map (fun i : nat => start + Z.of_nat i * step) (seq 0 n).

Definition py_range (start stop step : Z) : res (list Z) :=
  if step =? 0 then Raise ValueError
  else Ok (range_items start step (range_len start stop step)).

(** ** Indexing and slicing of one axis of extent [n] *)

(** [a[i]]: negative indices count from the end, out of range raises. *)
Definition py_index (n : nat) (i : Z) : res nat :=
  if (0 <=? i) && (i <? Z.of_nat n) then Ok (Z.to_nat i)
  else if (- Z.of_nat n <=? i) && (i <? 0) then Ok (Z.to_nat (i + Z.of_nat n))
  else Raise IndexError.

(** A bound of [a[lo:hi]]: negative bounds count from the end, and the
    result is clipped to [0..n]. *)
Definition slice_bound (n : nat) (b : Z) : nat :=
  if b <? 0 then Z.to_nat (Z.max 0 (b + Z.of_nat n))
  else Z.to_nat (Z.min b (Z.of_nat n)).

(** [a[lo:hi]] selects [slice_count] positions from [slice_first] on. *)
Definition slice_first (n : nat) (lo : Z) : nat := slice_bound n lo.
Definition slice_count (n : nat) (lo hi : Z) : nat :=
  (slice_bound n hi - slice_bound n lo)%nat.

(** ** Arrays *)

Record arr3 (V : Type) : Type := Arr3 {
  dim0 : nat;                       (* data.shape[0], slices *)
  dim1 : nat;                       (* data.shape[1], rows *)
  dim2 : nat;                       (* data.shape[2], columns *)
  get3 : nat -> nat -> nat -> V
}.
Arguments Arr3 {V} _ _ _ _.
Arguments dim0 {V} _.
Arguments dim1 {V} _.
Arguments dim2 {V} _.
Arguments get3 {V} _ _ _ _.

Record arr2 (V : Type) : Type := Arr2 {
  rows : nat;
  cols : nat;
  get2 : nat -> nat -> V
}.
Arguments Arr2 {V} _ _ _.
Arguments rows {V} _.
Arguments cols {V} _.
Arguments get2 {V} _ _ _.

(** [a[i, :, :]] for an index already in range. *)
Definition plane {V} (a : arr3 V) (i : nat) : arr2 V :=
  Arr2 (dim1 a) (dim2 a) (get3 a i).

(** [a[i, ylo:yhi, xlo:xhi]] for an index already in range. *)
Definition window_of {V} (a : arr3 V) (i : nat) (ylo yhi xlo xhi : Z) : arr2 V :=
  Arr2 (slice_count (dim1 a) ylo yhi) (slice_count (dim2 a) xlo xhi)
       (fun r c => get3 a i (slice_first (dim1 a) ylo + r)%nat
                              (slice_first (dim2 a) xlo + c)%nat).

(** [numpy.pad(a, ((t, t), (l, l)), 'constant', constant_values=fill)]
    on a 2D array, for non-negative widths. *)
Definition np_pad {V} (a : arr2 V) (t l : nat) (fill : V) : arr2 V :=
  Arr2 (rows a + 2 * t) (cols a + 2 * l)
       (fun r c =>
          if (t <=? r)%nat && (r <? t + rows a)%nat
             && (l <=? c)%nat && (c <? l + cols a)%nat
          then get2 a (r - t)%nat (c - l)%nat
          else fill).

Definition map2d {V W} (f : V -> W) (a : arr2 V) : arr2 W :=
  Arr2 (rows a) (cols a) (fun r c => f (get2 a r c)).

(** ** Strings: [os.path.join] and the tile file name *)

Definition starts_with_slash (s : string) : bool :=
  match s with
  | String c _ => Ascii.eqb c "/"%char
  | EmptyString => false
  end.

Fixpoint ends_with_slash (s : string) : bool :=
  match s with
  | EmptyString => false
  | String c EmptyString => Ascii.eqb c "/"%char
  | String _ s' => ends_with_slash s'
  end.

(** [os.path.join(a, b)] of [posixpath], for two components. *)
Definition path_join (a b : string) : string :=
  if starts_with_slash b then b
  else if String.eqb a "" || ends_with_slash a then a +:+ b
  else a +:+ "/" +:+ b.

(** ['{}_{}_{}x{}x{}x{}.png'.format(prefix, z, xS, xE, yS, yE)] *)
Definition tile_name (prefix : string) (z xS xE yS yE : Z) : string :=
  prefix +:+ "_" +:+ pretty z +:+ "_" +:+ pretty xS +:+ "x" +:+ pretty xE
         +:+ "x" +:+ pretty yS +:+ "x" +:+ pretty yE +:+ ".png".

(** ** Command line arguments

    The record holds the parsed arguments as [main] uses them: [window]
    and [overlap] after [tuple(map(int, s.split('x')))] as the pair
    (index 0, index 1), that is (X, Y); [zrange] after [split('-')] as its
    two tokens. *)

Record args : Type := Args {
  input_file_path : string;
  output_dir : string;
  pad : bool;
  window : Z * Z;
  overlap : Z * Z;
  zrange : string * string;
  zskip : Z;
  prefix : string;
  fillcsv : bool;
  csv_filename : string;
  transpose : option string
}.

(** ** Manifest rows *)

Inductive cell : Type :=
  | CStr (s : string)
  | CInt (z : Z)
  | CNone.

Definition columns : list string :=
  ["filename"; "prefix"; "slice"; "xstart"; "xend"; "ystart"; "yend";
   "#source"; "#transpose"].

(** The header that [DataFrame.to_csv] writes: the index name, then the
    column names. *)
Definition header_row : list cell := map CStr ("id" :: columns).

(** The body rows of [DataFrame.to_csv]: the default index 0, 1, 2, ...
    in front of each record. *)
Definition body_rows (recs : list (list cell)) : list (list cell) :=
  imap (fun i r => CInt (Z.of_nat i) :: r) recs.

Definition to_csv (header : bool) (recs : list (list cell)) : list (list cell) :=
  if header then header_row :: body_rows recs else body_rows recs.

(** A tile descriptor: the values of [z, xS, xE, yS, yE] in one iteration
    of the innermost loop. *)
Record descr : Type := Descr {
  d_z : Z;
  d_xS : Z;
  d_xE : Z;
  d_yS : Z;
  d_yE : Z
}.

(** [min(s, extent - w)] and the end that follows it (lines 125 and 127). *)
Definition clamp_start (extent : nat) (w s : Z) : Z := Z.min s (Z.of_nat extent - w).
Definition clamp_end (extent : nat) (w s : Z) : Z := clamp_start extent w s + w.

(** ** The planner: the loop headers of lines 122-127 without the body

    [axis_windows] lists the clamped windows of one axis in the order the
    loop over that axis produces them; [plan] nests the three loops as
    [main] does and lists the descriptors in the order of the iterations.
    A loop header that raises does so when control reaches it, hence
    [collect]. *)

Definition axis_windows (extent : nat) (w o : Z) : res (list (Z * Z)) :=
  res_bind (py_range 0 (Z.of_nat extent) (w - o)) (fun ss =>
  Ok (map (fun s => (clamp_start extent w s, clamp_end extent w s)) ss)).

Fixpoint collect {A B} (xs : list A) (f : A -> res (list B)) : res (list B) :=
  match xs with
  | [] => Ok []
  | x :: xs' =>
      res_bind (f x) (fun l => res_bind (collect xs' f) (fun r => Ok (l ++ r)))
  end.

Definition plan (n1 n2 : nat) (win ov : Z * Z) (zS zE zstep : Z) : res (list descr) :=
  res_bind (py_range zS zE zstep) (fun zs =>
  collect zs (fun z =>
    res_bind (axis_windows n1 win.2 ov.2) (fun yw =>
    collect yw (fun ywin =>
      res_bind (axis_windows n2 win.1 ov.1) (fun xw =>
      Ok (map (fun xwin => Descr z xwin.1 xwin.2 ywin.1 ywin.2) xw)))))).

(** The descriptors of a run whose loop headers do not raise: the product
    of the visited slices, the Y windows and the X windows, X innermost. *)
Definition plan_list (zs : list Z) (yw xw : list (Z * Z)) : list descr :=
  flat_map (fun z =>
    flat_map (fun ywin =>
      map (fun xwin => Descr z xwin.1 xwin.2 ywin.1 ywin.2) xw) yw) zs.

(** The half-open interval of a window contains [p]. *)
Definition covers (win : Z * Z) (p : Z) : Prop := win.1 <= p < win.2.

(** A numpy array with its element type: an integer type, or float64 with
    values in [F]. *)
Inductive ndarray3 (F : Type) : Type :=
  | IntArr3 (a : arr3 Z)
  | FloatArr3 (a : arr3 F).
Arguments IntArr3 {F} a.
Arguments FloatArr3 {F} a.

Inductive ndarray2 (F : Type) : Type :=
  | IntArr2 (a : arr2 Z)
  | FloatArr2 (a : arr2 F).
Arguments IntArr2 {F} a.
Arguments FloatArr2 {F} a.

(** ** A reference instance of the numeric world

    Float values are the exact rationals they denote, which is what
    float64 computes on the small integers and halves of the examples
    below.  The instance serves to run the model on concrete volumes. *)

Module Ref.

Definition of_Z (z : Z) : Q := inject_Z z.

(** The cast of a float to an integer truncates toward zero. *)
Definition to_int (q : Q) : Z := Z.quot (Qnum q) (Zpos (Qden q)).

Definition flatten {V} (a : arr2 V) : list V :=
  flat_map (fun r => map (get2 a r) (seq 0 (cols a))) (seq 0 (rows a)).

Fixpoint insert_sorted (x : Q) (l : list Q) : list Q :=
  match l with
  | [] => [x]
  | y :: l' => if Qle_bool x y then x :: l else y :: insert_sorted x l'
  end.

Definition sort (l : list Q) : list Q := fold_right insert_sorted [] l.

(** The middle element, or the mean of the two middle elements. *)
Definition median_of (l : list Q) : Q :=
  let s := sort l in
  let n := length s in
  if Nat.even n
  then Qred (Qdiv (Qplus (nth (n / 2 - 1) s 0%Q) (nth (n / 2) s 0%Q)) (2 # 1))
  else nth (n / 2) s 0%Q.

Definition np_median (p : ndarray2 Q) : Q :=
  match p with
  | IntArr2 a => median_of (map inject_Z (flatten a))
  | FloatArr2 a => median_of (flatten a)
  end.

(** Intensities scaled to 0..255 and rounded, negative ones clipped to 0;
    an intensity outside [-1, 1] is refused. *)
Definition img_as_ubyte (a : arr2 Q) : res (arr2 Z) :=
  if forallb (fun q => Qle_bool (-1 # 1) q && Qle_bool q (1 # 1)) (flatten a)
  then Ok (map2d (fun q => Z.max 0 (Z.min 255
                    (Qfloor (Qplus (Qmult q (255 # 1)) (1 # 2))))) a)
  else Raise ValueError.

Definition digit (c : ascii) : option Z :=
  let n := Z.of_nat (nat_of_ascii c) in
  if (48 <=? n) && (n <=? 57) then Some (n - 48) else None.

Fixpoint digits (s : string) (acc : Z) : res Z :=
  match s with
  | EmptyString => Ok acc
  | String c s' =>
      match digit c with
      | Some d => digits s' (10 * acc + d)
      | None => Raise ValueError
      end
  end.

(** [int] on a non-empty string of decimal digits. *)
Definition py_int (s : string) : res Z :=
  match s with
  | EmptyString => Raise ValueError
  | _ => digits s 0
  end.

(** An integer volume whose pixel at row [r], column [c] is [r * w + c]. *)
Definition ramp (n h w : nat) : ndarray3 Q :=
  IntArr3 (Arr3 n h w (fun _ r c => Z.of_nat (r * w + c))).

(** An integer volume of the pixels 0 and 1, as a checkerboard. *)
Definition checker (n h w : nat) : ndarray3 Q :=
  IntArr3 (Arr3 n h w (fun _ r c => Z.of_nat ((r + c) mod 2))).

(** A float volume with the same pixels divided by [h * w]. *)
Definition framp (n h w : nat) : ndarray3 Q :=
  FloatArr3 (Arr3 n h w (fun _ r c =>
    Qmake (Z.of_nat (r * w + c)) (Pos.of_nat (h * w)))).

Definition example_args (p : bool) (win ov : Z * Z) (zr : string * string)
    (skip : Z) : args :=
  Args "vol.h5" "out" p win ov zr skip "data" true "manifest.csv" None.

End Ref.

(** ** A reference instance of [numpy.transpose] on three axes

    The axes must be a permutation of 0, 1, 2, negative values counting
    from the end; axis [k] of the result is axis [axes[k]] of the input. *)

Module RefAxes.

Definition norm_axis (x : Z) : res nat :=
  if (0 <=? x) && (x <? 3) then Ok (Z.to_nat x)
  else if (-3 <=? x) && (x <? 0) then Ok (Z.to_nat (x + 3))
  else Raise ValueError.

Definition dim_of {V} (d : arr3 V) (p : nat) : nat :=
  match p with
  | O => dim0 d
  | S O => dim1 d
  | _ => dim2 d
  end.

(** The index along input axis [m], from the indices of the result. *)
Definition pick (p0 p1 p2 m i0 i1 i2 : nat) : nat :=
  if Nat.eqb p0 m then i0 else if Nat.eqb p1 m then i1 else i2.

Definition transpose3 {V} (d : arr3 V) (axes : list Z) : res (arr3 V) :=
  match axes with
  | [x0; x1; x2] =>
      res_bind (norm_axis x0) (fun p0 =>
      res_bind (norm_axis x1) (fun p1 =>
      res_bind (norm_axis x2) (fun p2 =>
      if Nat.eqb p0 p1 || Nat.eqb p0 p2 || Nat.eqb p1 p2 then Raise ValueError
      else Ok (Arr3 (dim_of d p0) (dim_of d p1) (dim_of d p2)
                 (fun i0 i1 i2 =>
                    get3 d (pick p0 p1 p2 0 i0 i1 i2) (pick p0 p1 p2 1 i0 i1 i2)
                           (pick p0 p1 p2 2 i0 i1 i2))))))
  | _ => Raise ValueError
  end.

Definition np_transpose (d : ndarray3 Q) (axes : list Z) : res (ndarray3 Q) :=
  match d with
  | IntArr3 a => res_bind (transpose3 a axes) (fun x => Ok (IntArr3 x))
  | FloatArr3 a => res_bind (transpose3 a axes) (fun x => Ok (FloatArr3 x))
  end.

End RefAxes.

Section Model.

(** The numeric world outside the script. *)

(** The float64 values. *)
Variable F : Type.
(** The conversion numpy applies when an integer is stored into a float64
    array. *)
Variable of_Z : Z -> F.
(** The conversion numpy applies when a float64 is stored into an integer
    array. *)
Variable to_int : F -> Z.
(** [numpy.median] of a 2D array; the result is a float64. *)
Variable np_median : ndarray2 F -> F.
(** [skimage.util.img_as_ubyte] on a float image; the result is uint8.
    It raises [ValueError] on an image with a value outside [-1, 1]. *)
Variable img_as_ubyte : arr2 F -> res (arr2 Z).
(** The builtin [int] on a string; it raises [ValueError] on a string that
    is not a literal. *)
Variable py_int : string -> res Z.

Definition shape0 (d : ndarray3 F) : nat :=
  match d with IntArr3 a => dim0 a | FloatArr3 a => dim0 a end.
Definition shape1 (d : ndarray3 F) : nat :=
  match d with IntArr3 a => dim1 a | FloatArr3 a => dim1 a end.
Definition shape2 (d : ndarray3 F) : nat :=
  match d with IntArr3 a => dim2 a | FloatArr3 a => dim2 a end.

Definition nd_plane (d : ndarray3 F) (i : nat) : ndarray2 F :=
  match d with
  | IntArr3 a => IntArr2 (plane a i)
  | FloatArr3 a => FloatArr2 (plane a i)
  end.

Definition nd_window (d : ndarray3 F) (i : nat) (ylo yhi xlo xhi : Z) : ndarray2 F :=
  match d with
  | IntArr3 a => IntArr2 (window_of a i ylo yhi xlo xhi)
  | FloatArr3 a => FloatArr2 (window_of a i ylo yhi xlo xhi)
  end.

Definition nd_rows (r : ndarray2 F) : nat :=
  match r with IntArr2 a => rows a | FloatArr2 a => rows a end.
Definition nd_cols (r : ndarray2 F) : nat :=
  match r with IntArr2 a => cols a | FloatArr2 a => cols a end.

(** [np.issubdtype(a.dtype, np.float)] *)
Definition is_float3 (d : ndarray3 F) : bool :=
  match d with IntArr3 _ => false | FloatArr3 _ => true end.
Definition is_float2 (r : ndarray2 F) : bool :=
  match r with IntArr2 _ => false | FloatArr2 _ => true end.

(** *** Lines 97-99: the slice bounds *)

Definition resolve_start (tok : string) : res Z :=
  if String.eqb tok "start" then Ok 0 else py_int tok.

Definition resolve_end (data : ndarray3 F) (tok : string) : res Z :=
  if String.eqb tok "end" then Ok (Z.of_nat (shape0 data)) else py_int tok.

(** *** Lines 102-116: padding

    [numpy.pad] keeps the element type of its input, so the fill value is
    stored with the input's element type; the result is then stored into
    the float64 buffer [padded]. *)

Definition padded_plane (data : ndarray3 F) (oy ox : nat) (median : F) (i : nat) : arr2 F :=
  match data with
  | IntArr3 a => map2d of_Z (np_pad (plane a i) oy ox (to_int median))
  | FloatArr3 a => np_pad (plane a i) oy ox median
  end.

Definition pad_data (data : ndarray3 F) (ov : Z * Z) : res (ndarray3 F) :=
  res_bind (py_index (shape0 data) 0) (fun first =>
  let median := np_median (nd_plane data first) in
  let slices := shape0 data in
  let height := Z.of_nat (shape1 data) + 2 * ov.2 in
  let width := Z.of_nat (shape2 data) + 2 * ov.1 in
  (* np.zeros refuses a negative extent *)
  if (height <? 0) || (width <? 0) then Raise ValueError
  (* np.pad refuses a negative pad width *)
  else if (ov.2 <? 0) || (ov.1 <? 0) then Raise ValueError
  else Ok (FloatArr3 (Arr3 slices (Z.to_nat height) (Z.to_nat width)
             (fun i => get2 (padded_plane data (Z.to_nat ov.2) (Z.to_nat ov.1) median i))))).

(** *** The world the loops act on *)

Inductive line : Type :=
  | PngData (img : ndarray2 F)
  | CsvRow (r : list cell).

(** One call of [imsave]: the descriptor, the file name, the region read
    from the volume and the image handed to the sink. *)
Record tile : Type := Tile {
  t_descr : descr;
  t_name : string;
  t_roi : ndarray2 F;
  t_img : ndarray2 F
}.

Record world : Type := World {
  fs : gmap string (list line);      (* regular files by path *)
  csv_list : list (list cell);       (* the buffered manifest records *)
  sink_log : list tile               (* the calls of imsave, oldest first *)
}.

Definition M (A : Type) : Type := world -> world * res A.

Definition ret {A} (a : A) : M A := fun w => (w, Ok a).
Definition bind {A B} (m : M A) (k : A -> M B) : M B :=
  fun w => match m w with
           | (w', Ok a) => k a w'
           | (w', Raise e) => (w', Raise e)
           end.
Definition lift {A} (r : res A) : M A := fun w => (w, r).

Fixpoint for_ {A} (xs : list A) (body : A -> M unit) : M unit :=
  match xs with
  | [] => ret tt
  | x :: xs' => bind (body x) (fun _ => for_ xs' body)
  end.

(** *** Lines 128-134: the body of the innermost loop *)

(** [img_as_ubyte(roi)]; [main] calls it on float regions only. *)
Definition to_ubyte (roi : ndarray2 F) : res (ndarray2 F) :=
  match roi with
  | FloatArr2 r => res_bind (img_as_ubyte r) (fun u => Ok (IntArr2 u))
  | IntArr2 _ => Ok roi
  end.

(** Lines 130-131: the image handed to the sink. *)
Definition sink_image (roi : ndarray2 F) : res (ndarray2 F) :=
  if is_float2 roi then to_ubyte roi else Ok roi.

Definition imsave (path : string) (t : tile) : M unit :=
  fun w => (World (<[path := [PngData (t_img t)]]> (fs w)) (csv_list w)
                  (sink_log w ++ [t]), Ok tt).

Definition csv_append (r : list cell) : M unit :=
  fun w => (World (fs w) (csv_list w ++ [r]) (sink_log w), Ok tt).

Definition transpose_cell (t : option string) : cell :=
  match t with Some s => CStr s | None => CNone end.

Definition render (a : args) (data : ndarray3 F) (d : descr) : M unit :=
  bind (lift (py_index (shape0 data) (d_z d))) (fun i =>
  let roi := nd_window data i (d_yS d) (d_yE d) (d_xS d) (d_xE d) in
  let fname := tile_name (prefix a) (d_z d) (d_xS d) (d_xE d) (d_yS d) (d_yE d) in
  bind (lift (sink_image roi)) (fun img =>
  bind (imsave (path_join (output_dir a) fname) (Tile d fname roi img)) (fun _ =>
  if fillcsv a
  then csv_append [CStr fname; CStr (prefix a); CInt (d_z d); CInt (d_xS d);
                   CInt (d_xE d); CInt (d_yS d); CInt (d_yE d);
                   CStr (input_file_path a); transpose_cell (transpose a)]
  else ret tt))).

(** *** Lines 122-127: the three nested loops *)

Definition tile_loop (a : args) (data : ndarray3 F) (zS zE : Z) : M unit :=
  bind (lift (py_range zS zE (zskip a))) (fun zs =>
  for_ zs (fun z =>
    bind (lift (py_range 0 (Z.of_nat (shape1 data)) ((window a).2 - (overlap a).2))) (fun ys =>
    for_ ys (fun y =>
      let yS := clamp_start (shape1 data) (window a).2 y in
      let yE := yS + (window a).2 in
      bind (lift (py_range 0 (Z.of_nat (shape2 data)) ((window a).1 - (overlap a).1))) (fun xs =>
      for_ xs (fun x =>
        let xS := clamp_start (shape2 data) (window a).1 x in
        let xE := xS + (window a).1 in
        render a data (Descr z xS xE yS yE))))))).

(** *** Lines 136-146: the manifest flush *)

Definition flush (a : args) : M unit :=
  fun w =>
    let csvfile := path_join (output_dir a) (csv_filename a) in
    match fs w !! csvfile with
    | Some old =>
        (World (<[csvfile := old ++ map CsvRow (to_csv false (csv_list w))]> (fs w))
               (csv_list w) (sink_log w), Ok tt)
    | None =>
        (World (<[csvfile := map CsvRow (to_csv true (csv_list w))]> (fs w))
               (csv_list w) (sink_log w), Ok tt)
    end.

(** *** [main], from line 92 on; [data] is the array after the optional
    transposition, [w] the world with an empty record buffer. *)

Definition main (a : args) (data : ndarray3 F) : M unit :=
  bind (lift (resolve_start (zrange a).1)) (fun zS =>
  bind (lift (resolve_end data (zrange a).2)) (fun zE =>
  bind (lift (if pad a then pad_data data (overlap a) else Ok data)) (fun data' =>
  bind (tile_loop a data' zS zE) (fun _ =>
  if fillcsv a then flush a else ret tt)))).

Definition start_world (files : gmap string (list line)) : world :=
  World files [] [].


(** [plan] for the arguments and the (possibly padded) volume of a run. *)
Definition plan_of (a : args) (data : ndarray3 F) (zS zE : Z) : res (list descr) :=
  plan (shape1 data) (shape2 data) (window a) (overlap a) zS zE (zskip a).

(** Rendering a planned list: a planning error stops the run before any
    tile is rendered. *)
Definition exec (a : args) (data : ndarray3 F) (r : res (list descr)) : M unit :=
  bind (lift r) (fun ds => for_ ds (render a data)).

(** What one call of [render] hands to the sink for its descriptor. *)
Definition rendered (a : args) (data : ndarray3 F) (t : tile) : Prop :=
  let d := t_descr t in
  t_name t = tile_name (prefix a) (d_z d) (d_xS d) (d_xE d) (d_yS d) (d_yE d) /\
  exists i,
    py_index (shape0 data) (d_z d) = Ok i /\
    t_roi t = nd_window data i (d_yS d) (d_yE d) (d_xS d) (d_xE d) /\
    sink_image (t_roi t) = Ok (t_img t).

(** The pixel of the input volume as the float64 buffer stores it. *)
Definition as_float (data : ndarray3 F) (i r c : nat) : F :=
  match data with
  | IntArr3 a => of_Z (get3 a i r c)
  | FloatArr3 a => get3 a i r c
  end.

(** Row [r], column [c] of a padded plane lies in the copy of the input
    plane, of [h] rows and [w] columns, behind [oy] rows and [ox] columns
    of border. *)
Definition in_core (oy ox h w r c : nat) : bool :=
  (oy <=? r)%nat && (r <? oy + h)%nat && (ox <=? c)%nat && (c <? ox + w)%nat.

(** The slice indices the outer loop iterates over (lines 97-99, 122). *)
Definition visited_slices (a : args) (data : ndarray3 F) : res (list Z) :=
  res_bind (resolve_start (zrange a).1) (fun zS =>
  res_bind (resolve_end data (zrange a).2) (fun zE =>
  py_range zS zE (zskip a))).

(** Two worlds with the same log and the same record buffer; runs started
    on such worlds end alike in both and in the result. *)
Definition same_obs (w1 w2 : world) : Prop :=
  sink_log w1 = sink_log w2 /\ csv_list w1 = csv_list w2.

(** *** What a run leaves behind *)

(** The path a tile is written to, and the path of the manifest. *)
Definition tile_path (a : args) (t : tile) : string :=
  path_join (output_dir a) (t_name t).
Definition csv_path (a : args) : string :=
  path_join (output_dir a) (csv_filename a).

(** The record line 134 buffers for a tile. *)
Definition record_of (a : args) (t : tile) : list cell :=
  [CStr (t_name t); CStr (prefix a); CInt (d_z (t_descr t));
   CInt (d_xS (t_descr t)); CInt (d_xE (t_descr t));
   CInt (d_yS (t_descr t)); CInt (d_yE (t_descr t));
   CStr (input_file_path a); transpose_cell (transpose a)].

(** The records a list of tiles leaves in the buffer. *)
Definition records_of (a : args) (ts : list tile) : list (list cell) :=
  if fillcsv a then map (record_of a) ts else [].

(** The files after the tiles [ts] were written, oldest first. *)
Definition save_all (a : args) (m : gmap string (list line)) (ts : list tile)
    : gmap string (list line) :=
  fold_left (fun m t => <[tile_path a t := [PngData (t_img t)]]> m) ts m.

(** The last tile of [ts] written to the path [p]. *)
Fixpoint last_saved (a : args) (ts : list tile) (p : string) : option tile :=
  match ts with
  | [] => None
  | t :: ts' =>
      match last_saved a ts' p with
      | Some t' => Some t'
      | None => if String.eqb (tile_path a t) p then Some t else None
      end
  end.

(** The manifest rows of a list of tiles: the row id, then the record. *)
Definition manifest_rows (a : args) (ts : list tile) : list line :=
  map CsvRow (body_rows (map (record_of a) ts)).

(** A pixel of an array with the element type it has. *)
Definition pixel3 (d : ndarray3 F) (i r c : nat) : Z + F :=
  match d with
  | IntArr3 a => inl (get3 a i r c)
  | FloatArr3 a => inr (get3 a i r c)
  end.
Definition pixel2 (x : ndarray2 F) (r c : nat) : Z + F :=
  match x with
  | IntArr2 a => inl (get2 a r c)
  | FloatArr2 a => inr (get2 a r c)
  end.

(** The border value of the padded volume: the median of slice 0 after
    [numpy.pad] stored it with the input's element type and line 112
    stored the result into the float64 buffer. *)
Definition border_value (data : ndarray3 F) : F :=
  match data with
  | IntArr3 _ => of_Z (to_int (np_median (nd_plane data 0)))
  | FloatArr3 _ => np_median (nd_plane data 0)
  end.

(** *** Characters of strings *)

(** The string [s] contains the character [c]. *)
Fixpoint has_char (c : ascii) (s : string) : bool :=
  match s with
  | EmptyString => false
  | String x s' => Ascii.eqb x c || has_char c s'
  end.

(** A character of a decimal integer: a digit or the minus sign. *)
Definition num_char (c : ascii) : bool :=
  Ascii.eqb c "-"%char ||
  ((48 <=? nat_of_ascii c)%nat && (nat_of_ascii c <=? 57)%nat).

Fixpoint all_num (s : string) : bool :=
  match s with
  | EmptyString => true
  | String x s' => num_char x && all_num s'
  end.

(** *** Lines 73-97: from the argument dictionary to the parsed values *)

(** [s.split(c)] for a separator of one character. *)
Fixpoint split_on (c : ascii) (s : string) : list string :=
  match s with
  | EmptyString => [EmptyString]
  | String x s' =>
      if Ascii.eqb x c then EmptyString :: split_on c s'
      else match split_on c s' with
           | h :: t => String x h :: t
           | [] => [String x EmptyString]
           end
  end.

(** [c.join(parts)] *)
Fixpoint join_with (c : ascii) (parts : list string) : string :=
  match parts with
  | [] => EmptyString
  | [h] => h
  | h :: t => h +:+ String c (join_with c t)
  end.

(** The number of occurrences of [c] in [s]. *)
Fixpoint count_char (c : ascii) (s : string) : nat :=
  match s with
  | EmptyString => 0
  | String x s' => (if Ascii.eqb x c then 1 else 0) + count_char c s'
  end.

(** [map(f, l)] consumed from the left; the first exception ends it. *)
Fixpoint map_res {A B} (f : A -> res B) (l : list A) : res (list B) :=
  match l with
  | [] => Ok []
  | x :: l' => res_bind (f x) (fun y => res_bind (map_res f l') (fun ys => Ok (y :: ys)))
  end.

(** [tuple(map(int, s.split(c)))] *)
Definition parse_ints (c : ascii) (s : string) : res (list Z) :=
  map_res py_int (split_on c s).

(** [t[i]] on a tuple, for [i >= 0]. *)
Definition tuple_get (t : list Z) (i : nat) : res Z :=
  match nth_error t i with
  | Some x => Ok x
  | None => Raise IndexError
  end.

(** [zS, zE = l]: unpacking needs exactly two values. *)
Definition unpack2 (l : list string) : res (string * string) :=
  match l with
  | [x; y] => Ok (x, y)
  | _ => Raise ValueError
  end.

(** The dictionary [args] of line 73; [raw_pad] and [raw_fillcsv] hold the
    truth value of the entry. *)
Record raw_args : Type := RawArgs {
  raw_input_file_path : string;
  raw_output_dir : string;
  raw_pad : bool;
  raw_window : string;
  raw_overlap : string;
  raw_zrange : string;
  raw_zskip : Z;
  raw_prefix : string;
  raw_fillcsv : bool;
  raw_csv_filename : string;
  raw_transpose : option string
}.

(** The defaults of [init_argparse] around the two positional arguments. *)
Definition default_args (input output : string) : raw_args :=
  RawArgs input output true "240x264" "120x132" "start-end" 1 "data" true
          "manifest.csv" None.

(** The parsed arguments, from the dictionary and the parsed values. *)
Definition args_of (r : raw_args) (win ov : Z * Z) (zr : string * string) : args :=
  Args (raw_input_file_path r) (raw_output_dir r) (raw_pad r) win ov zr
       (raw_zskip r) (raw_prefix r) (raw_fillcsv r) (raw_csv_filename r)
       (raw_transpose r).

(** The entries the loop body and the flush read; the parsed values are
    not among them. *)
Definition plain_args (r : raw_args) : args :=
  args_of r (0, 0) (0, 0) (EmptyString, EmptyString).

(** [numpy.transpose(data, axes)] *)
Variable np_transpose : ndarray3 F -> list Z -> res (ndarray3 F).

(** Lines 81-85. *)
Definition transpose_step (r : raw_args) (data : ndarray3 F) : res (ndarray3 F) :=
  match raw_transpose r with
  | None => Ok data
  | Some s => res_bind (parse_ints "," s) (fun axes => np_transpose data axes)
  end.

(** Lines 103-115 on the tuple [overlap]. *)
Definition pad_step (data : ndarray3 F) (ov : list Z) : res (ndarray3 F) :=
  res_bind (py_index (shape0 data) 0) (fun _ =>
  res_bind (tuple_get ov 1) (fun o1 =>
  res_bind (tuple_get ov 0) (fun o0 =>
  pad_data data (o0, o1)))).

(** Lines 122-134 on the tuples [window] and [overlap]: every [window[i]]
    and [overlap[i]] is looked up where the line is evaluated. *)
Definition tile_loop_raw (r : raw_args) (win ov : list Z) (data : ndarray3 F)
    (zS zE : Z) : M unit :=
  bind (lift (py_range zS zE (raw_zskip r))) (fun zs =>
  for_ zs (fun z =>
    bind (lift (tuple_get win 1)) (fun w1 =>
    bind (lift (tuple_get ov 1)) (fun o1 =>
    bind (lift (py_range 0 (Z.of_nat (shape1 data)) (w1 - o1))) (fun ys =>
    for_ ys (fun y =>
      bind (lift (tuple_get win 1)) (fun w1a =>
      let yS := Z.min y (Z.of_nat (shape1 data) - w1a) in
      bind (lift (tuple_get win 1)) (fun w1b =>
      let yE := yS + w1b in
      bind (lift (tuple_get win 0)) (fun w0 =>
      bind (lift (tuple_get ov 0)) (fun o0 =>
      bind (lift (py_range 0 (Z.of_nat (shape2 data)) (w0 - o0))) (fun xs =>
      for_ xs (fun x =>
        bind (lift (tuple_get win 0)) (fun w0a =>
        let xS := Z.min x (Z.of_nat (shape2 data) - w0a) in
        bind (lift (tuple_get win 0)) (fun w0b =>
        let xE := xS + w0b in
        render (plain_args r) data (Descr z xS xE yS yE))))))))))))))).

(** [main] from line 80 on; [data] is the array read from the file. *)
Definition main_raw (r : raw_args) (data : ndarray3 F) : M unit :=
  bind (lift (transpose_step r data)) (fun data1 =>
  bind (lift (parse_ints "x" (raw_window r))) (fun win =>
  bind (lift (parse_ints "x" (raw_overlap r))) (fun ov =>
  bind (lift (unpack2 (split_on "-" (raw_zrange r)))) (fun toks =>
  bind (lift (resolve_start toks.1)) (fun zS =>
  bind (lift (resolve_end data1 toks.2)) (fun zE =>
  bind (lift (if raw_pad r then pad_step data1 ov else Ok data1)) (fun data2 =>
  bind (tile_loop_raw r win ov data2 zS zE) (fun _ =>
  if raw_fillcsv r then flush (plain_args r) else ret tt)))))))).

(** [s.endswith(suf)] *)
Fixpoint ends_with (suf s : string) : bool :=
  String.eqb s suf ||
  match s with
  | EmptyString => false
  | String _ s' => ends_with suf s'
  end.

(** No tile of [ts] is written to the manifest's path. *)
Definition no_collision (a : args) (ts : list tile) : bool :=
  forallb (fun t => negb (String.eqb (tile_path a t) (csv_path a))) ts.

(** ** The builtins on small inputs *)

Example range_up : py_range 0 100 30 = Ok [0; 30; 60; 90].
Proof. reflexivity. Qed.

Example range_down : py_range 5 0 (-2) = Ok [5; 3; 1].
Proof. reflexivity. Qed.

Example range_empty : py_range 0 10 (-3) = Ok [].
Proof. reflexivity. Qed.

Example index_from_end : py_index 10 (-1) = Ok 9%nat /\ py_index 10 10 = Raise IndexError.
Proof. split; reflexivity. Qed.

Example slice_negative_start :
  (slice_first 10 (-30), slice_count 10 (-30) 10) = (0%nat, 10%nat) /\
  (slice_first 10 (-5), slice_count 10 (-5) 10) = (5%nat, 5%nat).
Proof. split; reflexivity. Qed.

Example path_join_cases :
  path_join "out" "manifest.csv" = "out/manifest.csv" /\
  path_join "out/" "manifest.csv" = "out/manifest.csv" /\
  path_join "out" "/tmp/manifest.csv" = "/tmp/manifest.csv".
Proof. repeat split; reflexivity. Qed.

Example tile_name_negative :
  tile_name "data" 0 (-30) 10 0 40 = "data_0_-30x10x0x40.png".
Proof. vm_compute. reflexivity. Qed.

(** ** Loops and lists *)

Lemma for_app {A} (xs ys : list A) (body : A -> M unit) (w : world) :
  for_ (xs ++ ys) body w = bind (for_ xs body) (fun _ => for_ ys body) w.
Proof.
  revert w. induction xs as [|x xs IH]; intros w; simpl.
  - reflexivity.
  - unfold bind in *. destruct (body x w) as [w1 [[]|e]]; simpl.
    + apply IH.
    + reflexivity.
Qed.

Lemma for_map {A B} (h : A -> B) (xs : list A) (body : B -> M unit) (w : world) :
  for_ (map h xs) body w = for_ xs (fun x => body (h x)) w.
Proof.
  revert w. induction xs as [|x xs IH]; intros w; simpl; [reflexivity|].
  unfold bind. destruct (body (h x) w) as [w1 [[]|e]]; auto.
Qed.

Lemma collect_map {A B C} (h : A -> B) (xs : list A) (f : B -> res (list C)) :
  collect (map h xs) f = collect xs (fun x => f (h x)).
Proof.
  induction xs as [|x xs IH]; simpl; [reflexivity|]. now rewrite IH.
Qed.

Lemma collect_all_ok {A B} (xs : list A) (f : A -> res (list B)) :
  (forall x, is_ok (f x) = true) -> is_ok (collect xs f) = true.
Proof.
  intros H. induction xs as [|x xs IH]; simpl; [reflexivity|].
  specialize (H x). destruct (f x); [|discriminate]. simpl.
  destruct (collect xs f); [reflexivity|discriminate].
Qed.

Lemma collect_status {A B} (xs : list A) (f : A -> res (list B)) :
  (forall x y, is_ok (f x) = is_ok (f y)) ->
  is_ok (collect xs f) = match xs with [] => true | x :: _ => is_ok (f x) end.
Proof.
  intros U. destruct xs as [|x xs]; [reflexivity|].
  destruct (is_ok (f x)) eqn:E.
  - apply collect_all_ok. intros y. now rewrite (U y x).
  - simpl. destruct (f x); [discriminate|reflexivity].
Qed.

Lemma exec_Ok (a : args) (data : ndarray3 F) (ds : list descr) (w : world) :
  exec a data (Ok ds) w = for_ ds (render a data) w.
Proof. reflexivity. Qed.

Lemma exec_Raise (a : args) (data : ndarray3 F) (e : exn) (w : world) :
  exec a data (Raise e) w = (w, Raise e).
Proof. reflexivity. Qed.

(** A loop whose body renders the list [f x] is the rendering of the
    collected list, provided [f] raises for all [x] or for none. *)
Lemma for_collect {A} (a : args) (data : ndarray3 F) (xs : list A)
    (f : A -> res (list descr)) (body : A -> M unit) (w : world) :
  (forall x y, is_ok (f x) = is_ok (f y)) ->
  (forall x w', body x w' = exec a data (f x) w') ->
  for_ xs body w = exec a data (collect xs f) w.
Proof.
  intros U Hb. revert w. induction xs as [|x xs IH]; intros w; [reflexivity|].
  pose proof (collect_status xs f U) as St.
  cbn [for_ collect]. unfold bind. rewrite Hb.
  destruct (f x) as [l|e] eqn:E; cbn [res_bind].
  - destruct (collect xs f) as [r|e] eqn:E'; cbn [res_bind].
    + rewrite !exec_Ok, for_app. unfold bind.
      destruct (for_ l (render a data) w) as [w1 [[]|e]]; [|reflexivity].
      rewrite IH. apply exec_Ok.
    + exfalso. destruct xs as [|y ys]; simpl in St; [discriminate|].
      rewrite <- (U x y), E in St. discriminate.
  - rewrite !exec_Raise. reflexivity.
Qed.

(** The loops of [main] render exactly the planned descriptors, in the
    planned order; when a loop header raises, nothing has been rendered. *)
Lemma tile_loop_plan (a : args) (data : ndarray3 F) (zS zE : Z) (w : world) :
  tile_loop a data zS zE w = exec a data (plan_of a data zS zE) w.
Proof.
  unfold tile_loop, plan_of, plan.
  unfold bind at 1, lift at 1.
  destruct (py_range zS zE (zskip a)) as [zs|e]; cbn [res_bind]; [|reflexivity].
  apply for_collect.
  { intros z z'. unfold axis_windows.
    destruct (py_range 0 (Z.of_nat (shape1 data)) _) as [ys|e];
      cbn [res_bind]; [|reflexivity].
    rewrite !collect_status.
    - destruct (map _ ys); [reflexivity|].
      destruct (py_range 0 (Z.of_nat (shape2 data)) _); reflexivity.
    - intros; destruct (py_range 0 (Z.of_nat (shape2 data)) _); reflexivity.
    - intros; destruct (py_range 0 (Z.of_nat (shape2 data)) _); reflexivity. }
  intros z w1. unfold axis_windows at 1.
  unfold bind at 1, lift at 1.
  destruct (py_range 0 (Z.of_nat (shape1 data)) _) as [ys|e];
    cbn [res_bind]; [|reflexivity].
  rewrite collect_map. apply for_collect.
  { intros; destruct (axis_windows (shape2 data) _ _); reflexivity. }
  intros y w2. unfold axis_windows.
  unfold bind at 1, lift at 1.
  destruct (py_range 0 (Z.of_nat (shape2 data)) _) as [xs|e];
    cbn [res_bind]; [|reflexivity].
  rewrite exec_Ok, map_map, for_map. reflexivity.
Qed.

(** ** The contents of a range *)

Lemma range_items_In (start step : Z) (n : nat) (x : Z) :
  In x (range_items start step n) <->
  exists i : nat, (i < n)%nat /\ x = start + Z.of_nat i * step.
Proof.
  unfold range_items. rewrite in_map_iff. split.
  - intros (i & <- & Hi). apply in_seq in Hi. exists i. split; [lia|reflexivity].
  - intros (i & Hi & ->). exists i. split; [reflexivity|]. apply in_seq. lia.
Qed.

Lemma range_len_pos (start stop step : Z) (i : nat) :
  0 < step ->
  (i < range_len start stop step)%nat <-> start + Z.of_nat i * step < stop.
Proof.
  intros Hs. unfold range_len.
  destruct (Z.ltb_spec 0 step) as [_|]; [|lia].
  set (q := (stop - start + step - 1) / step).
  assert (Hq : Z.of_nat i < q <-> start + Z.of_nat i * step < stop).
  { unfold q. split; intros H.
    - assert (step * q <= stop - start + step - 1)
        by (apply Z.mul_div_le; lia). nia.
    - assert (Z.of_nat i + 1 <= q); [|lia].
      apply Z.div_le_lower_bound; [lia|]. nia. }
  rewrite <- Hq. lia.
Qed.

Lemma range_len_neg (stop step : Z) :
  step < 0 -> 0 <= stop -> range_len 0 stop step = 0%nat.
Proof.
  intros Hs Hn. unfold range_len.
  destruct (Z.ltb_spec 0 step) as [|_]; [lia|].
  assert ((0 - stop - step - 1) / (- step) <= 0); [|lia].
  assert ((0 - stop - step - 1) / (- step) < 1); [|lia].
  apply Z.div_lt_upper_bound; lia.
Qed.

Lemma py_range_zero (start stop : Z) : py_range start stop 0 = Raise ValueError.
Proof. reflexivity. Qed.

Lemma py_range_nonzero (start stop step : Z) :
  step <> 0 ->
  py_range start stop step = Ok (range_items start step (range_len start stop step)).
Proof.
  intros H. unfold py_range. destruct (Z.eqb_spec step 0); [contradiction|reflexivity].
Qed.

(** The documented contents of [range] for a positive step. *)
Lemma py_range_pos_In (start stop step : Z) (l : list Z) (x : Z) :
  0 < step -> py_range start stop step = Ok l ->
  In x l <-> exists i : Z, 0 <= i /\ x = start + i * step /\ x < stop.
Proof.
  intros Hs. rewrite py_range_nonzero by lia. intros [= <-].
  rewrite range_items_In. split.
  - intros (i & Hi & ->). exists (Z.of_nat i). split; [lia|]. split; [reflexivity|].
    now apply range_len_pos.
  - intros (i & Hi & -> & Hlt). exists (Z.to_nat i).
    rewrite range_len_pos by assumption. rewrite Z2Nat.id by assumption. auto.
Qed.

Lemma range_items_length (start step : Z) (n : nat) :
  length (range_items start step n) = n.
Proof. unfold range_items. now rewrite length_map, length_seq. Qed.

Lemma range_items_0 (step : Z) (n : nat) :
  range_items 0 step (S n) = 0 :: range_items step step n.
Proof.
  unfold range_items. simpl. f_equal.
  rewrite <- seq_shift, map_map. apply map_ext. intros i. lia.
Qed.

Lemma range_items_snoc (start step : Z) (n : nat) :
  range_items start step (S n) =
  range_items start step n ++ [start + Z.of_nat n * step].
Proof. unfold range_items. rewrite seq_S, map_app. reflexivity. Qed.

(** With a positive step the items increase. *)
Lemma range_items_sorted (start step : Z) (n : nat) :
  0 < step -> StronglySorted Z.lt (range_items start step n).
Proof.
  intros Hs. unfold range_items. revert start.
  induction n as [|n IH]; intros start; simpl; constructor.
  - rewrite <- seq_shift, map_map.
    erewrite map_ext; [apply (IH (start + step))|]. intros i; simpl. lia.
  - apply List.Forall_forall. intros x Hx. apply in_map_iff in Hx.
    destruct Hx as (i & <- & Hi). apply in_seq in Hi. nia.
Qed.

(** ** What the planner returns *)

Lemma collect_flat_map {A B} (xs : list A) (f : A -> res (list B)) (g : A -> list B) :
  (forall x, In x xs -> f x = Ok (g x)) -> collect xs f = Ok (flat_map g xs).
Proof.
  induction xs as [|x xs IH]; intros H; simpl; [reflexivity|].
  rewrite (H x) by (left; reflexivity). simpl.
  rewrite IH by (intros y Hy; apply H; right; exact Hy). reflexivity.
Qed.

Lemma collect_raise {A B} (x : A) (xs : list A) (f : A -> res (list B)) (e : exn) :
  f x = Raise e -> collect (x :: xs) f = Raise e.
Proof. intros H. simpl. now rewrite H. Qed.

(** A successful plan is the product list; the Y header is evaluated only
    when a slice is visited, the X header only when a Y window exists. *)
Lemma plan_ok_inv (n1 n2 : nat) (win ov : Z * Z) (zS zE zstep : Z) (ds : list descr) :
  plan n1 n2 win ov zS zE zstep = Ok ds ->
  exists zs yw xw,
    py_range zS zE zstep = Ok zs /\
    ds = plan_list zs yw xw /\
    (zs <> [] -> axis_windows n1 win.2 ov.2 = Ok yw) /\
    (zs <> [] -> yw <> [] -> axis_windows n2 win.1 ov.1 = Ok xw).
Proof.
  unfold plan. destruct (py_range zS zE zstep) as [zs|e]; simpl; [|discriminate].
  destruct zs as [|z zs].
  { simpl. intros [= <-]. exists [], [], []. repeat split; congruence. }
  destruct (axis_windows n1 win.2 ov.2) as [yw|e] eqn:EY.
  2:{ rewrite (collect_raise _ _ _ e); [discriminate|reflexivity]. }
  destruct yw as [|y yw].
  { rewrite (collect_flat_map _ _ (fun _ => [])) by reflexivity.
    intros [= <-]. exists (z :: zs), [], []. repeat split; congruence. }
  destruct (axis_windows n2 win.1 ov.1) as [xw|e] eqn:EX.
  2:{ rewrite (collect_raise _ _ _ e); [discriminate|].
      simpl. reflexivity. }
  rewrite (collect_flat_map _ _ (fun z =>
    flat_map (fun ywin => map (fun xwin => Descr z xwin.1 xwin.2 ywin.1 ywin.2) xw)
             (y :: yw))).
  - intros [= <-]. exists (z :: zs), (y :: yw), xw. repeat split; congruence.
  - intros z' _. simpl res_bind.
    rewrite (collect_flat_map _ _ (fun ywin =>
      map (fun xwin => Descr z' xwin.1 xwin.2 ywin.1 ywin.2) xw)); reflexivity.
Qed.

Lemma plan_list_In (zs : list Z) (yw xw : list (Z * Z)) (d : descr) :
  In d (plan_list zs yw xw) <->
  In (d_z d) zs /\ In (d_yS d, d_yE d) yw /\ In (d_xS d, d_xE d) xw.
Proof.
  unfold plan_list. rewrite in_flat_map. split.
  - intros (z & Hz & H). apply in_flat_map in H. destruct H as ([yS yE] & Hy & H).
    apply in_map_iff in H. destruct H as ([xS xE] & <- & Hx). simpl. auto.
  - intros (Hz & Hy & Hx). exists (d_z d). split; [exact Hz|].
    apply in_flat_map. exists (d_yS d, d_yE d). split; [exact Hy|].
    apply in_map_iff. exists (d_xS d, d_xE d). split; [|exact Hx].
    destruct d; reflexivity.
Qed.

(** The windows of an axis, when the header does not raise. *)
Lemma axis_windows_In (extent : nat) (w o : Z) (ws : list (Z * Z)) (win : Z * Z) :
  axis_windows extent w o = Ok ws -> In win ws ->
  0 < w - o /\
  exists i : nat,
    (i < range_len 0 (Z.of_nat extent) (w - o))%nat /\
    win.1 = Z.min (Z.of_nat i * (w - o)) (Z.of_nat extent - w) /\
    win.2 = win.1 + w.
Proof.
  unfold axis_windows, py_range.
  destruct (Z.eqb_spec (w - o) 0); simpl; [discriminate|]. intros [= <-] H.
  apply in_map_iff in H. destruct H as (s & <- & Hs).
  apply range_items_In in Hs. destruct Hs as (i & Hi & ->).
  assert (0 < w - o).
  { destruct (Z.lt_trichotomy (w - o) 0) as [Hn|[?|?]]; [|lia|assumption].
    rewrite range_len_neg in Hi by lia. lia. }
  split; [assumption|].
  exists i. simpl. unfold clamp_end, clamp_start. auto.
Qed.

(** ** The sink log of a run *)

Lemma render_log (a : args) (data : ndarray3 F) (d : descr) (w w' : world) (r : res unit) :
  render a data d w = (w', r) ->
  (is_ok r = false /\ w' = w) \/
  (r = Ok tt /\ exists t, sink_log w' = sink_log w ++ [t] /\
                          t_descr t = d /\ rendered a data t).
Proof.
  unfold render, bind, lift.
  destruct (py_index (shape0 data) (d_z d)) as [i|e] eqn:Ei.
  - destruct (sink_image _) as [img|e] eqn:Eimg.
    + unfold imsave. destruct (fillcsv a); unfold csv_append, ret;
        intros [= <- <-]; right; (split; [reflexivity|]);
        eexists; (split; [reflexivity|]); (split; [reflexivity|]);
        (split; [reflexivity|]); exists i; simpl; auto.
    + intros [= <- <-]. left. auto.
  - intros [= <- <-]. left. auto.
Qed.

(** The tiles a rendering loop adds to the log carry a prefix of the
    list, all of it when the loop ends without an exception. *)
Lemma for_render_log (a : args) (data : ndarray3 F) (ds : list descr)
    (w w' : world) (r : res unit) :
  for_ ds (render a data) w = (w', r) ->
  exists ts rest,
    sink_log w' = sink_log w ++ ts /\
    Forall (rendered a data) ts /\
    ds = map t_descr ts ++ rest /\
    (is_ok r = true -> rest = []).
Proof.
  revert w. induction ds as [|d ds IH]; intros w; simpl.
  - unfold ret. intros [= <- <-]. exists [], []. rewrite app_nil_r. auto.
  - unfold bind. destruct (render a data d w) as [w1 r1] eqn:E1.
    apply render_log in E1. destruct E1 as [[Hr1 ->]|(-> & t & Hlog & Hd & Ht)].
    + destruct r1 as [u|e]; [discriminate|].
      intros [= <- <-]. exists [], (d :: ds). rewrite app_nil_r.
      repeat split; auto. discriminate.
    + intros H. apply IH in H. destruct H as (ts & rest & Hlog' & Hts & Hds & Hr).
      exists (t :: ts), rest. rewrite Hlog', Hlog, <- app_assoc. simpl.
      repeat split; auto. now rewrite Hd, Hds.
Qed.

(** The same for the loops of [main]: the log grows by tiles that carry a
    prefix of the plan; a plan that raises leaves the world as it was. *)
Lemma tile_loop_log (a : args) (data : ndarray3 F) (zS zE : Z)
    (w w' : world) (r : res unit) :
  tile_loop a data zS zE w = (w', r) ->
  match plan_of a data zS zE with
  | Raise e => w' = w /\ r = Raise e
  | Ok ds =>
      exists ts rest,
        sink_log w' = sink_log w ++ ts /\
        Forall (rendered a data) ts /\
        ds = map t_descr ts ++ rest /\
        (is_ok r = true -> rest = [])
  end.
Proof.
  rewrite tile_loop_plan. destruct (plan_of a data zS zE) as [ds|e].
  - rewrite exec_Ok. apply for_render_log.
  - rewrite exec_Raise. intros [= <- <-]. auto.
Qed.

Lemma plan_In_axes (n1 n2 : nat) (win ov : Z * Z) (zS zE zstep : Z)
    (ds : list descr) (d : descr) :
  plan n1 n2 win ov zS zE zstep = Ok ds -> In d ds ->
  exists zs yw xw,
    py_range zS zE zstep = Ok zs /\ In (d_z d) zs /\
    axis_windows n1 win.2 ov.2 = Ok yw /\ In (d_yS d, d_yE d) yw /\
    axis_windows n2 win.1 ov.1 = Ok xw /\ In (d_xS d, d_xE d) xw.
Proof.
  intros Hp Hd. apply plan_ok_inv in Hp.
  destruct Hp as (zs & yw & xw & Hz & -> & Hy & Hx).
  apply plan_list_In in Hd. destruct Hd as (Hdz & Hdy & Hdx).
  assert (zs <> []) by (intros ->; contradiction).
  assert (yw <> []) by (intros ->; contradiction).
  exists zs, yw, xw. auto 10.
Qed.

(** Every tile in the log of the loops, started on an empty log, carries
    a planned descriptor and is what [render] makes of it. *)
Lemma tile_loop_tiles (a : args) (data : ndarray3 F) (zS zE : Z)
    (files : gmap string (list line)) (t : tile) :
  In t (sink_log (tile_loop a data zS zE (start_world files)).1) ->
  exists ds, plan_of a data zS zE = Ok ds /\ In (t_descr t) ds /\ rendered a data t.
Proof.
  destruct (tile_loop a data zS zE (start_world files)) as [w' r] eqn:E.
  apply tile_loop_log in E. simpl.
  destruct (plan_of a data zS zE) as [ds|e].
  - destruct E as (ts & rest & -> & Hts & -> & _). simpl. intros Ht.
    exists (map t_descr ts ++ rest). split; [reflexivity|]. split.
    + apply in_or_app. left. now apply in_map.
    + rewrite List.Forall_forall in Hts. now apply Hts.
  - destruct E as [-> _]. simpl. contradiction.
Qed.

(** ** C1: every tile has the configured size *)

Lemma slice_count_inside (n : nat) (lo w : Z) :
  0 <= lo -> 0 <= w -> lo + w <= Z.of_nat n ->
  Z.of_nat (slice_count n lo (lo + w)) = w.
Proof.
  intros Hlo Hw Hn. unfold slice_count, slice_bound.
  destruct (Z.ltb_spec (lo + w) 0); [lia|]. destruct (Z.ltb_spec lo 0); lia.
Qed.

Lemma nd_window_rows (data : ndarray3 F) (i : nat) (ylo yhi xlo xhi : Z) :
  nd_rows (nd_window data i ylo yhi xlo xhi) = slice_count (shape1 data) ylo yhi.
Proof. destruct data; reflexivity. Qed.

Lemma nd_window_cols (data : ndarray3 F) (i : nat) (ylo yhi xlo xhi : Z) :
  nd_cols (nd_window data i ylo yhi xlo xhi) = slice_count (shape2 data) xlo xhi.
Proof. destruct data; reflexivity. Qed.

(** C1.  When the window fits the extent on both axes, every tile
    descriptor the loops produce has the configured size: [xE - xS] is the
    window width and [yE - yS] the window height, each start being
    [min(s, extent - window)] for a candidate start [s] of its axis and
    each end the start plus the window; the window lies inside the axis,
    and the region read from the volume has that many columns and rows. *)
Theorem C1_tile_has_window_size (a : args) (data : ndarray3 F) (zS zE : Z)
    (files : gmap string (list line)) :
  (window a).1 <= Z.of_nat (shape2 data) ->
  (window a).2 <= Z.of_nat (shape1 data) ->
  Forall (fun t =>
    let d := t_descr t in
    d_xE d - d_xS d = (window a).1 /\
    d_yE d - d_yS d = (window a).2 /\
    (exists s, 0 <= s < Z.of_nat (shape2 data) /\
       d_xS d = Z.min s (Z.of_nat (shape2 data) - (window a).1) /\
       d_xE d = d_xS d + (window a).1) /\
    (exists s, 0 <= s < Z.of_nat (shape1 data) /\
       d_yS d = Z.min s (Z.of_nat (shape1 data) - (window a).2) /\
       d_yE d = d_yS d + (window a).2) /\
    0 <= d_xS d /\ d_xE d <= Z.of_nat (shape2 data) /\
    0 <= d_yS d /\ d_yE d <= Z.of_nat (shape1 data) /\
    (0 <= (window a).1 -> Z.of_nat (nd_cols (t_roi t)) = (window a).1) /\
    (0 <= (window a).2 -> Z.of_nat (nd_rows (t_roi t)) = (window a).2))
  (sink_log (tile_loop a data zS zE (start_world files)).1).
Proof.
  intros HX HY. apply List.Forall_forall. intros t Ht.
  apply tile_loop_tiles in Ht. destruct Ht as (ds & Hp & Hd & Hr).
  apply (plan_In_axes _ _ _ _ _ _ _ _ _ Hp) in Hd.
  destruct Hd as (zs & yw & xw & _ & _ & Hyw & Hy & Hxw & Hx).
  apply (axis_windows_In _ _ _ _ _ Hyw) in Hy.
  apply (axis_windows_In _ _ _ _ _ Hxw) in Hx.
  simpl in Hx, Hy.
  destruct Hx as (Hsx & i & Hi & Hx1 & Hx2).
  destruct Hy as (Hsy & j & Hj & Hy1 & Hy2).
  apply range_len_pos in Hi; [|assumption].
  apply range_len_pos in Hj; [|assumption].
  destruct Hr as (_ & k & _ & Hroi & _).
  cbv zeta. rewrite Hroi, nd_window_rows, nd_window_cols, Hx2, Hy2.
  split; [lia|]. split; [lia|]. split.
  { exists (Z.of_nat i * ((window a).1 - (overlap a).1)). repeat split; try lia; nia. }
  split.
  { exists (Z.of_nat j * ((window a).2 - (overlap a).2)). repeat split; try lia; nia. }
  assert (0 <= d_xS (t_descr t)) by nia.
  assert (0 <= d_yS (t_descr t)) by nia.
  repeat split; try lia.
  - intros Hw. apply slice_count_inside; lia.
  - intros Hw. apply slice_count_inside; lia.
Qed.

(** ** C2: the clamped windows cover the axis *)

Lemma axis_windows_pos (extent : nat) (w o : Z) :
  w - o <> 0 ->
  axis_windows extent w o =
  Ok (map (fun s => (clamp_start extent w s, clamp_end extent w s))
          (range_items 0 (w - o) (range_len 0 (Z.of_nat extent) (w - o)))).
Proof. intros H. unfold axis_windows. now rewrite py_range_nonzero. Qed.

(** C2 (amended).  For [0 <= overlap < window <= extent] the windows of
    an axis lie in the axis, their union covers [0, extent) without a
    gap, and there is a last window, whose end is the extent. *)
Theorem C2_axis_covered (extent : nat) (w o : Z) :
  0 <= o -> o < w -> w <= Z.of_nat extent ->
  exists init lastw,
    axis_windows extent w o = Ok (init ++ [lastw]) /\
    lastw.2 = Z.of_nat extent /\
    (forall win, In win (init ++ [lastw]) ->
       0 <= win.1 /\ win.2 <= Z.of_nat extent) /\
    (forall p, 0 <= p < Z.of_nat extent ->
       exists win, In win (init ++ [lastw]) /\ covers win p).
Proof.
  intros Ho Hw He.
  set (s := w - o). assert (Hs : 0 < s) by (unfold s; lia).
  assert (Hsw : s <= w) by (unfold s; lia).
  pose proof (axis_windows_pos extent w o ltac:(lia)) as Hax. fold s in Hax.
  set (n := range_len 0 (Z.of_nat extent) s) in *.
  assert (Hlen : forall i : nat, (i < n)%nat <-> Z.of_nat i * s < Z.of_nat extent).
  { intros i. unfold n. rewrite range_len_pos by assumption. lia. }
  destruct n as [|m] eqn:En.
  { exfalso. assert (0 < 0)%nat; [|lia]. apply Hlen. lia. }
  rewrite range_items_snoc, map_app in Hax. cbn [map] in Hax.
  eexists _, _. split; [exact Hax|].
  assert (Hm : Z.of_nat m * s < Z.of_nat extent) by (apply Hlen; lia).
  assert (Hm' : Z.of_nat extent <= Z.of_nat (S m) * s).
  { destruct (Z.lt_ge_cases (Z.of_nat (S m) * s) (Z.of_nat extent)) as [H|H];
      [|exact H]. apply Hlen in H. lia. }
  assert (Hall : forall win,
    In win (map (fun c => (clamp_start extent w c, clamp_end extent w c))
                (range_items 0 s m)
            ++ [(clamp_start extent w (0 + Z.of_nat m * s),
                 clamp_end extent w (0 + Z.of_nat m * s))]) <->
    exists i : nat, (i < S m)%nat /\
      win = (clamp_start extent w (0 + Z.of_nat i * s),
             clamp_end extent w (0 + Z.of_nat i * s))).
  { intros win.
    change [(clamp_start extent w (0 + Z.of_nat m * s),
             clamp_end extent w (0 + Z.of_nat m * s))]
      with (map (fun c => (clamp_start extent w c, clamp_end extent w c))
                [0 + Z.of_nat m * s]).
    rewrite <- map_app, <- range_items_snoc, in_map_iff. split.
    - intros (c & <- & Hc). apply range_items_In in Hc.
      destruct Hc as (i & Hi & ->). eauto.
    - intros (i & Hi & ->). eexists. split; [reflexivity|].
      apply range_items_In. eauto. }
  split; [|split].
  - cbn [snd]. unfold clamp_end, clamp_start. nia.
  - intros win Hin. apply Hall in Hin. destruct Hin as (i & Hi & ->).
    cbn [fst snd]. unfold clamp_end, clamp_start. nia.
  - intros p Hp.
    assert (Hi : (Z.to_nat (p / s) < S m)%nat).
    { apply Hlen. rewrite Z2Nat.id by (apply Z.div_pos; lia).
      pose proof (Z.mul_div_le p s Hs). lia. }
    eexists. split; [apply Hall; eauto|].
    unfold covers, clamp_end, clamp_start. cbn [fst snd].
    rewrite Z2Nat.id by (apply Z.div_pos; lia).
    pose proof (Z.mul_div_le p s Hs).
    pose proof (Z.mul_succ_div_gt p s Hs). lia.
Qed.


(** ** C3 and C4: what planning does outside the intended domain *)

Lemma flat_map_nil {A B} (xs : list A) : flat_map (fun _ : A => @nil B) xs = [].
Proof. induction xs; simpl; auto. Qed.

Lemma map_const_repeat {A B} (f : A -> B) (c : B) (l : list A) :
  (forall x, In x l -> f x = c) -> map f l = repeat c (length l).
Proof.
  induction l as [|x l IH]; intros H; simpl; [reflexivity|].
  rewrite (H x) by (left; reflexivity).
  rewrite IH by (intros y Hy; apply H; right; exact Hy). reflexivity.
Qed.

Lemma flat_map_length_const {A B} (g : A -> list B) (n : nat) (l : list A) :
  (forall x, length (g x) = n) -> length (flat_map g l) = (length l * n)%nat.
Proof.
  intros H. induction l as [|x l IH]; simpl; [reflexivity|].
  now rewrite length_app, H, IH.
Qed.

Lemma plan_list_length (zs : list Z) (yw xw : list (Z * Z)) :
  length (plan_list zs yw xw) = (length zs * (length yw * length xw))%nat.
Proof.
  unfold plan_list. apply flat_map_length_const. intros z.
  apply flat_map_length_const. intros y. apply length_map.
Qed.

(** With a non-zero slice step and non-zero strides no loop header
    raises, and the plan is the full product. *)
Lemma plan_no_raise (n1 n2 : nat) (win ov : Z * Z) (zS zE zstep : Z) :
  zstep <> 0 -> win.2 - ov.2 <> 0 -> win.1 - ov.1 <> 0 ->
  exists yw xw,
    axis_windows n1 win.2 ov.2 = Ok yw /\
    axis_windows n2 win.1 ov.1 = Ok xw /\
    plan n1 n2 win ov zS zE zstep =
    Ok (plan_list (range_items zS zstep (range_len zS zE zstep)) yw xw).
Proof.
  intros Hz Hy Hx. eexists _, _.
  split; [apply axis_windows_pos; assumption|].
  split; [apply axis_windows_pos; assumption|].
  unfold plan. rewrite py_range_nonzero by assumption. simpl res_bind.
  apply collect_flat_map. intros z _.
  rewrite axis_windows_pos by assumption. simpl res_bind.
  apply collect_flat_map. intros y _.
  rewrite axis_windows_pos by assumption. reflexivity.
Qed.

(** A window larger than the axis: every candidate start clamps to the
    negative start [extent - w], and the end is the extent. *)
Lemma axis_windows_oversized (extent : nat) (w o : Z) :
  Z.of_nat extent < w -> 0 < w - o ->
  axis_windows extent w o =
  Ok (repeat (Z.of_nat extent - w, Z.of_nat extent)
             (range_len 0 (Z.of_nat extent) (w - o))).
Proof.
  intros Hw Hs. rewrite axis_windows_pos by lia. f_equal.
  rewrite <- (range_items_length 0 (w - o)
                (range_len 0 (Z.of_nat extent) (w - o))) at 2.
  apply map_const_repeat. intros s Hin.
  apply range_items_In in Hin. destruct Hin as (i & _ & ->).
  unfold clamp_end, clamp_start. f_equal; nia.
Qed.

(** C3 (amended).  With a non-zero slice step and positive strides,
    planning raises nothing whatever the window and the extents are, and
    the loops render the planned list, one descriptor per slice and pair
    of candidate starts.  On an axis whose window exceeds the extent every
    descriptor has the negative start [extent - window] and the end
    [extent]. *)
Theorem C3_oversized_window_is_planned (a : args) (data : ndarray3 F) (zS zE : Z) :
  zskip a <> 0 ->
  0 < (window a).1 - (overlap a).1 ->
  0 < (window a).2 - (overlap a).2 ->
  exists ds,
    plan_of a data zS zE = Ok ds /\
    (forall w, tile_loop a data zS zE w = for_ ds (render a data) w) /\
    length ds =
      (range_len zS zE (zskip a) *
       (range_len 0 (Z.of_nat (shape1 data)) ((window a).2 - (overlap a).2) *
        range_len 0 (Z.of_nat (shape2 data)) ((window a).1 - (overlap a).1)))%nat /\
    forall d, In d ds ->
      (Z.of_nat (shape2 data) < (window a).1 ->
         d_xS d = Z.of_nat (shape2 data) - (window a).1 /\
         d_xE d = Z.of_nat (shape2 data)) /\
      (Z.of_nat (shape1 data) < (window a).2 ->
         d_yS d = Z.of_nat (shape1 data) - (window a).2 /\
         d_yE d = Z.of_nat (shape1 data)).
Proof.
  intros Hz Hx Hy.
  destruct (plan_no_raise (shape1 data) (shape2 data) (window a) (overlap a)
              zS zE (zskip a)) as (yw & xw & Hyw & Hxw & Hp); [lia..|].
  eexists. split; [exact Hp|]. split; [|split].
  - intros w. rewrite tile_loop_plan. unfold plan_of. rewrite Hp. apply exec_Ok.
  - rewrite plan_list_length, range_items_length.
    rewrite axis_windows_pos in Hyw, Hxw by lia.
    injection Hyw as <-. injection Hxw as <-.
    now rewrite !length_map, !range_items_length.
  - intros d Hd. apply plan_list_In in Hd. destruct Hd as (_ & Hdy & Hdx).
    split; intros Hbig.
    + rewrite axis_windows_oversized in Hxw by assumption.
      injection Hxw as <-. apply repeat_spec in Hdx.
      injection Hdx as -> ->. auto.
    + rewrite axis_windows_oversized in Hyw by assumption.
      injection Hyw as <-. apply repeat_spec in Hdy.
      injection Hdy as -> ->. auto.
Qed.

Lemma axis_windows_neg (extent : nat) (w o : Z) :
  w - o < 0 -> axis_windows extent w o = Ok [].
Proof.
  intros H. rewrite axis_windows_pos by lia.
  now rewrite range_len_neg by lia.
Qed.

Lemma axis_windows_zero (extent : nat) (w o : Z) :
  w - o = 0 -> axis_windows extent w o = Raise ValueError.
Proof. intros H. unfold axis_windows. now rewrite H. Qed.

Lemma axis_windows_nonempty (extent : nat) (w o : Z) :
  0 < w - o -> (0 < extent)%nat ->
  exists win ws, axis_windows extent w o = Ok (win :: ws).
Proof.
  intros Hs He. rewrite axis_windows_pos by lia.
  destruct (range_len 0 (Z.of_nat extent) (w - o)) as [|n] eqn:E.
  - exfalso. assert (0 < range_len 0 (Z.of_nat extent) (w - o))%nat; [|lia].
    apply range_len_pos; lia.
  - rewrite range_items_0. simpl. eauto.
Qed.

(** C4 (amended).  Once a slice is visited, a zero stride makes the loop
    header of its axis raise [ValueError] before any tile is rendered
    (for X, when the Y axis has a candidate start).  A negative stride
    raises nothing: the axis has no candidate start, no tile is rendered
    and the loops end normally. *)
Theorem C4_nonpositive_stride (a : args) (data : ndarray3 F) (zS zE : Z)
    (w : world) (z : Z) (zs : list Z) :
  py_range zS zE (zskip a) = Ok (z :: zs) ->
  ((window a).2 - (overlap a).2 = 0 ->
     tile_loop a data zS zE w = (w, Raise ValueError)) /\
  (0 < (window a).2 - (overlap a).2 -> (0 < shape1 data)%nat ->
   (window a).1 - (overlap a).1 = 0 ->
     tile_loop a data zS zE w = (w, Raise ValueError)) /\
  ((window a).2 - (overlap a).2 < 0 ->
     tile_loop a data zS zE w = (w, Ok tt)) /\
  ((window a).2 - (overlap a).2 <> 0 -> (window a).1 - (overlap a).1 < 0 ->
     tile_loop a data zS zE w = (w, Ok tt)).
Proof.
  intros Hz. rewrite tile_loop_plan. unfold plan_of, plan. rewrite Hz.
  cbn [res_bind]. repeat split.
  - intros H0. rewrite (collect_raise _ _ _ ValueError); [reflexivity|].
    now rewrite axis_windows_zero.
  - intros Hy Hn H0. rewrite (collect_raise _ _ _ ValueError); [reflexivity|].
    destruct (axis_windows_nonempty (shape1 data) _ _ Hy Hn) as (y & yw & ->).
    cbn [res_bind]. apply collect_raise. now rewrite axis_windows_zero.
  - intros Hneg. rewrite (collect_flat_map _ _ (fun _ => [])).
    + now rewrite flat_map_nil.
    + intros z' _. now rewrite axis_windows_neg.
  - intros Hy Hneg. rewrite (collect_flat_map _ _ (fun _ => [])).
    + now rewrite flat_map_nil.
    + intros z' _. rewrite axis_windows_pos by assumption. cbn [res_bind].
      rewrite (collect_flat_map _ _ (fun _ => [])).
      * now rewrite flat_map_nil.
      * intros y _. now rewrite axis_windows_neg.
Qed.


(** ** C5: padding *)

Lemma py_index_0 (n : nat) : (0 < n)%nat -> py_index n 0 = Ok 0%nat.
Proof.
  intros H. unfold py_index.
  destruct (Z.ltb_spec 0 (Z.of_nat n)); [reflexivity|lia].
Qed.

Lemma pad_data_float (data d' : ndarray3 F) (ov : Z * Z) :
  pad_data data ov = Ok d' -> is_float3 d' = true.
Proof.
  unfold pad_data.
  destruct (py_index (shape0 data) 0); simpl; [|discriminate].
  destruct (_ || _); [discriminate|]. destruct (_ || _); [discriminate|].
  intros [= <-]. reflexivity.
Qed.

(** C5 (amended).  For a volume with at least one slice and non-negative
    overlaps, padding returns a float volume with the same number of
    slices, [2 * overlap_y] more rows and [2 * overlap_x] more columns;
    every padded slice is the input slice, stored as floats, centred in a
    border of one constant value; that value is the median of slice 0
    when the input is floating point or, more generally, when the median
    survives being stored with the input's element type. *)
Theorem C5_padding (data : ndarray3 F) (ov : Z * Z) :
  (0 < shape0 data)%nat -> 0 <= ov.1 -> 0 <= ov.2 ->
  exists (p : arr3 F) (fill : F),
    pad_data data ov = Ok (FloatArr3 p) /\
    dim0 p = shape0 data /\
    Z.of_nat (dim1 p) = Z.of_nat (shape1 data) + 2 * ov.2 /\
    Z.of_nat (dim2 p) = Z.of_nat (shape2 data) + 2 * ov.1 /\
    (forall i r c, (i < dim0 p)%nat -> (r < dim1 p)%nat -> (c < dim2 p)%nat ->
       get3 p i r c =
       if in_core (Z.to_nat ov.2) (Z.to_nat ov.1) (shape1 data) (shape2 data) r c
       then as_float data i (r - Z.to_nat ov.2) (c - Z.to_nat ov.1)
       else fill) /\
    (is_float3 data = true \/
     of_Z (to_int (np_median (nd_plane data 0))) = np_median (nd_plane data 0) ->
     fill = np_median (nd_plane data 0)).
Proof.
  intros Hn Hx Hy. unfold pad_data. rewrite py_index_0 by assumption.
  cbn [res_bind].
  destruct (Z.ltb_spec (Z.of_nat (shape1 data) + 2 * ov.2) 0); [lia|].
  destruct (Z.ltb_spec (Z.of_nat (shape2 data) + 2 * ov.1) 0); [lia|].
  destruct (Z.ltb_spec ov.2 0); [lia|]. destruct (Z.ltb_spec ov.1 0); [lia|].
  cbn [orb]. eexists.
  exists (match data with
          | IntArr3 _ => of_Z (to_int (np_median (nd_plane data 0)))
          | FloatArr3 _ => np_median (nd_plane data 0)
          end).
  split; [reflexivity|]. cbn [dim0 dim1 dim2 get3].
  split; [reflexivity|]. split; [lia|]. split; [lia|]. split.
  - intros i r c _ _ _. unfold in_core.
    destruct data as [d|d]; cbn [padded_plane np_pad map2d get2 rows cols plane
                                 shape1 shape2 as_float];
      destruct (_ && _); reflexivity.
  - intros [Hf|Hm]; destruct data; try reflexivity; try discriminate.
    exact Hm.
Qed.


(** ** The tiles of a whole run *)

Lemma flush_sink_log (a : args) (w : world) : sink_log (flush a w).1 = sink_log w.
Proof. unfold flush. destruct (fs w !! _); reflexivity. Qed.

(** A run of [main] either stops before the loops, with the world as it
    was, or runs the loops on the volume it tiles and then possibly the
    flush. *)
Lemma main_inv (a : args) (data : ndarray3 F) (w : world) :
  (exists e, main a data w = (w, Raise e)) \/
  (exists zS zE data',
     resolve_start (zrange a).1 = Ok zS /\
     resolve_end data (zrange a).2 = Ok zE /\
     (if pad a then pad_data data (overlap a) else Ok data) = Ok data' /\
     sink_log (main a data w).1 = sink_log (tile_loop a data' zS zE w).1 /\
     (is_ok (main a data w).2 = true ->
      is_ok (tile_loop a data' zS zE w).2 = true)).
Proof.
  unfold main, bind, lift.
  destruct (resolve_start (zrange a).1) as [zS|e]; [|left; eauto].
  destruct (resolve_end data (zrange a).2) as [zE|e]; [|left; eauto].
  destruct (if pad a then pad_data data (overlap a) else Ok data) as [data'|e];
    [|left; eauto].
  right. exists zS, zE, data'. repeat split.
  - destruct (tile_loop a data' zS zE w) as [w' [[]|e]]; [|reflexivity].
    destruct (fillcsv a); [apply flush_sink_log|reflexivity].
  - destruct (tile_loop a data' zS zE w) as [w' [[]|e]]; auto.
Qed.

Lemma main_tiles (a : args) (data : ndarray3 F) (files : gmap string (list line))
    (t : tile) :
  In t (sink_log (main a data (start_world files)).1) ->
  exists zS zE data' ds,
    resolve_start (zrange a).1 = Ok zS /\
    resolve_end data (zrange a).2 = Ok zE /\
    (if pad a then pad_data data (overlap a) else Ok data) = Ok data' /\
    plan_of a data' zS zE = Ok ds /\ In (t_descr t) ds /\ rendered a data' t.
Proof.
  destruct (main_inv a data (start_world files))
    as [(e & ->)|(zS & zE & data' & HS & HE & Hpad & -> & _)].
  - simpl. contradiction.
  - intros Ht. apply tile_loop_tiles in Ht. destruct Ht as (ds & ? & ? & ?).
    exists zS, zE, data', ds. auto 10.
Qed.

(** A run that ends normally has rendered the whole product over the
    visited slices. *)
Lemma main_complete (a : args) (data : ndarray3 F) (files : gmap string (list line))
    (zS zE : Z) (zs : list Z) :
  resolve_start (zrange a).1 = Ok zS ->
  resolve_end data (zrange a).2 = Ok zE ->
  py_range zS zE (zskip a) = Ok zs ->
  is_ok (main a data (start_world files)).2 = true ->
  exists yw xw,
    map t_descr (sink_log (main a data (start_world files)).1) = plan_list zs yw xw.
Proof.
  intros HS HE Hz Hok.
  destruct (main_inv a data (start_world files))
    as [(e & Hm)|(zS' & zE' & data' & HS' & HE' & _ & Hlog & Hr)].
  { rewrite Hm in Hok. discriminate. }
  rewrite HS in HS'. rewrite HE in HE'. injection HS' as <-. injection HE' as <-.
  specialize (Hr Hok). rewrite Hlog.
  destruct (tile_loop a data' zS zE (start_world files)) as [w' r] eqn:E.
  apply tile_loop_log in E. simpl in Hr |- *.
  destruct (plan_of a data' zS zE) as [ds|e] eqn:Ep.
  - destruct E as (ts & rest & -> & _ & Hds & Hrest).
    rewrite (Hrest Hr), app_nil_r in Hds. simpl. rewrite <- Hds.
    apply plan_ok_inv in Ep. destruct Ep as (zs' & yw & xw & Hz' & -> & _).
    rewrite Hz in Hz'. injection Hz' as <-. eauto.
  - destruct E as [_ ->]. discriminate.
Qed.

(** ** C10: tiles of a padded volume are converted *)

(** C10.  With padding enabled the volume the loops tile is floating
    point whatever the input's element type is, and every tile handed to
    the sink passed the floating-point test and is the result of
    [img_as_ubyte] on the float region read from the padded volume. *)
Theorem C10_padded_tiles_are_converted (a : args) (data : ndarray3 F)
    (files : gmap string (list line)) :
  pad a = true ->
  (forall d', pad_data data (overlap a) = Ok d' -> is_float3 d' = true) /\
  Forall (fun t =>
    is_float2 (t_roi t) = true /\
    exists r u, t_roi t = FloatArr2 r /\ img_as_ubyte r = Ok u /\
                t_img t = IntArr2 u)
  (sink_log (main a data (start_world files)).1).
Proof.
  intros Hpad. split; [intros d'; apply pad_data_float|].
  apply List.Forall_forall. intros t Ht. apply main_tiles in Ht.
  destruct Ht as (zS & zE & data' & ds & _ & _ & Hd & _ & _ & Hr).
  rewrite Hpad in Hd. apply pad_data_float in Hd.
  destruct data' as [d|d]; [discriminate|].
  destruct Hr as (_ & i & _ & Hroi & Himg).
  rewrite Hroi in Himg |- *. split; [reflexivity|].
  unfold sink_image in Himg. simpl in Himg.
  destruct (img_as_ubyte _) as [u|e] eqn:Eu; [|discriminate].
  injection Himg as <-. eauto.
Qed.

(** ** C6: the order of the enumeration *)

Lemma StronglySorted_map {A B} (R : A -> A -> Prop) (R' : B -> B -> Prop)
    (f : A -> B) (l : list A) :
  (forall x y, R x y -> R' (f x) (f y)) ->
  StronglySorted R l -> StronglySorted R' (map f l).
Proof.
  intros Hf. induction 1 as [|x l Hl IH Hx]; simpl; constructor; [exact IH|].
  rewrite List.Forall_forall in *. intros y Hy. apply in_map_iff in Hy.
  destruct Hy as (x' & <- & Hx'). auto.
Qed.

Lemma axis_windows_sorted (extent : nat) (w o : Z) (ws : list (Z * Z)) :
  axis_windows extent w o = Ok ws ->
  StronglySorted (fun p q : Z * Z => p.1 <= q.1) ws.
Proof.
  unfold axis_windows, py_range.
  destruct (Z.eqb_spec (w - o) 0) as [|Hne]; simpl; [discriminate|].
  intros [= <-].
  destruct (Z.lt_ge_cases 0 (w - o)) as [Hpos|Hneg].
  - apply (StronglySorted_map Z.lt); [|now apply range_items_sorted].
    intros x y Hxy. simpl. unfold clamp_start. lia.
  - rewrite range_len_neg by lia. constructor.
Qed.

Lemma py_range_sorted (start stop step : Z) (l : list Z) :
  0 < step -> py_range start stop step = Ok l -> StronglySorted Z.lt l.
Proof.
  intros Hs. rewrite py_range_nonzero by lia. intros [= <-].
  now apply range_items_sorted.
Qed.

Lemma plan_list_no_row (zs : list Z) (xw : list (Z * Z)) : plan_list zs [] xw = [].
Proof. unfold plan_list. simpl. apply flat_map_nil. Qed.

(** A successful plan is a product of ascending slices and of windows
    with ascending starts. *)
Lemma plan_ordered (n1 n2 : nat) (win ov : Z * Z) (zS zE zstep : Z) (ds : list descr) :
  0 < zstep -> plan n1 n2 win ov zS zE zstep = Ok ds ->
  exists zs yw xw,
    ds = plan_list zs yw xw /\
    StronglySorted Z.lt zs /\
    StronglySorted (fun p q : Z * Z => p.1 <= q.1) yw /\
    StronglySorted (fun p q : Z * Z => p.1 <= q.1) xw.
Proof.
  intros Hs Hp. apply plan_ok_inv in Hp.
  destruct Hp as (zs & yw & xw & Hz & -> & Hy & Hx).
  destruct zs as [|z zs].
  { exists [], [], []. repeat split; constructor. }
  specialize (Hy ltac:(discriminate)). specialize (Hx ltac:(discriminate)).
  destruct yw as [|y yw].
  { exists (z :: zs), [], []. rewrite !plan_list_no_row.
    split; [reflexivity|]. split; [eapply py_range_sorted; eassumption|].
    split; constructor. }
  specialize (Hx ltac:(discriminate)).
  exists (z :: zs), (y :: yw), xw. split; [reflexivity|]. split; [|split].
  - eapply py_range_sorted; eassumption.
  - eapply axis_windows_sorted; eassumption.
  - eapply axis_windows_sorted; eassumption.
Qed.

Lemma render_same_obs (a : args) (data : ndarray3 F) (d : descr) (w1 w2 : world) :
  same_obs w1 w2 ->
  same_obs (render a data d w1).1 (render a data d w2).1 /\
  (render a data d w1).2 = (render a data d w2).2.
Proof.
  intros [Hl Hc]. unfold render, bind, lift, imsave, csv_append, ret, same_obs.
  destruct (py_index (shape0 data) (d_z d)); simpl; [|auto].
  destruct (sink_image _); simpl; [|auto].
  destruct (fillcsv a); simpl; rewrite Hl, ?Hc; auto.
Qed.

Lemma for_render_same_obs (a : args) (data : ndarray3 F) (ds : list descr)
    (w1 w2 : world) :
  same_obs w1 w2 ->
  same_obs (for_ ds (render a data) w1).1 (for_ ds (render a data) w2).1 /\
  (for_ ds (render a data) w1).2 = (for_ ds (render a data) w2).2.
Proof.
  revert w1 w2. induction ds as [|d ds IH]; intros w1 w2 H; simpl; [auto|].
  unfold bind. destruct (render_same_obs a data d w1 w2 H) as [Ho Hr].
  destruct (render a data d w1) as [w1' r1], (render a data d w2) as [w2' r2].
  simpl in Ho, Hr. subst r2. destruct r1 as [[]|e]; [apply IH; exact Ho|auto].
Qed.

Lemma flush_same_obs (a : args) (w1 w2 : world) :
  same_obs w1 w2 ->
  same_obs (flush a w1).1 (flush a w2).1 /\ (flush a w1).2 = (flush a w2).2.
Proof.
  intros [Hl Hc]. unfold flush, same_obs.
  destruct (fs w1 !! _), (fs w2 !! _); simpl; auto.
Qed.

Lemma main_same_obs (a : args) (data : ndarray3 F) (w1 w2 : world) :
  same_obs w1 w2 ->
  same_obs (main a data w1).1 (main a data w2).1 /\
  (main a data w1).2 = (main a data w2).2.
Proof.
  intros H. unfold main, bind, lift.
  destruct (resolve_start (zrange a).1) as [zS|e]; [|auto].
  destruct (resolve_end data (zrange a).2) as [zE|e]; [|auto].
  destruct (if pad a then pad_data data (overlap a) else Ok data) as [data'|e];
    [|auto].
  rewrite !tile_loop_plan. destruct (plan_of a data' zS zE) as [ds|e].
  - rewrite !exec_Ok.
    destruct (for_render_same_obs a data' ds w1 w2 H) as [Ho Hr].
    destruct (for_ ds (render a data') w1) as [w1' r1],
             (for_ ds (render a data') w2) as [w2' r2].
    simpl in Ho, Hr. subst r2. destruct r1 as [[]|e]; [|auto].
    destruct (fillcsv a); [apply flush_same_obs; exact Ho|auto].
  - rewrite !exec_Raise. auto.
Qed.

(** C6.  With a slice step of at least 1 the descriptors of a run are
    emitted in the order of the product of the visited slices, ascending,
    the Y windows, by ascending start, and the X windows, by ascending
    start, with X innermost: the emitted sequence is that product, or its
    first part when the run stops on an exception.  The sequence is the
    same for every state of the file system the run starts from. *)
Theorem C6_enumeration_order (a : args) (data : ndarray3 F)
    (files : gmap string (list line)) :
  1 <= zskip a ->
  (exists zs yw xw rest,
     plan_list zs yw xw =
       map t_descr (sink_log (main a data (start_world files)).1) ++ rest /\
     (is_ok (main a data (start_world files)).2 = true -> rest = []) /\
     StronglySorted Z.lt zs /\
     StronglySorted (fun p q : Z * Z => p.1 <= q.1) yw /\
     StronglySorted (fun p q : Z * Z => p.1 <= q.1) xw) /\
  (forall files',
     sink_log (main a data (start_world files')).1 =
     sink_log (main a data (start_world files)).1).
Proof.
  intros Hk. split.
  2:{ intros files'. apply main_same_obs. split; reflexivity. }
  unfold main, bind, lift.
  destruct (resolve_start (zrange a).1) as [zS|e].
  2:{ exists [], [], [], []. simpl. repeat split; (discriminate || constructor). }
  destruct (resolve_end data (zrange a).2) as [zE|e].
  2:{ exists [], [], [], []. simpl. repeat split; (discriminate || constructor). }
  destruct (if pad a then pad_data data (overlap a) else Ok data) as [data'|e].
  2:{ exists [], [], [], []. simpl. repeat split; (discriminate || constructor). }
  destruct (tile_loop a data' zS zE (start_world files)) as [w' r] eqn:E.
  apply tile_loop_log in E.
  destruct (plan_of a data' zS zE) as [ds|e] eqn:Ep.
  - destruct E as (ts & rest & Hlog & _ & Hds & Hrest).
    apply plan_ordered in Ep; [|lia].
    destruct Ep as (zs & yw & xw & -> & Hzs & Hyw & Hxw).
    exists zs, yw, xw, rest. simpl in Hlog.
    destruct r as [[]|e].
    + assert (Hsl : sink_log ((if fillcsv a then flush a else ret tt) w').1 = ts).
      { destruct (fillcsv a); [rewrite flush_sink_log|simpl]; exact Hlog. }
      rewrite Hsl. split; [exact Hds|]. split; [|auto].
      intros _. apply Hrest. reflexivity.
    + simpl. rewrite Hlog. split; [exact Hds|]. split; [discriminate|auto].
  - destruct E as [-> ->]. exists [], [], [], []. simpl.
    repeat split; (discriminate || constructor).
Qed.


(** ** C7: the visited slices *)

Lemma tile_loop_zero_skip (a : args) (data : ndarray3 F) (zS zE : Z) (w : world) :
  zskip a = 0 -> tile_loop a data zS zE w = (w, Raise ValueError).
Proof. intros H. unfold tile_loop, bind, lift. now rewrite H, py_range_zero. Qed.

(** C7.  The sentinel ["start"] resolves to 0 and the sentinel ["end"] to
    the slice count.  For a skip [k >= 1] and resolved bounds [zS], [zE]
    the outer loop visits exactly the indices [zS + i * k], [i >= 0], that
    lie in [zS, zE); every rendered tile belongs to one of them, and a run
    that ends normally has rendered the same windows for each of them, in
    the order of the visit.  A skip of 0 makes the run fail, with nothing
    written. *)
Theorem C7_slice_selection (a : args) (data : ndarray3 F)
    (files : gmap string (list line)) :
  resolve_start "start" = Ok 0 /\
  resolve_end data "end" = Ok (Z.of_nat (shape0 data)) /\
  (forall zS zE,
     1 <= zskip a ->
     resolve_start (zrange a).1 = Ok zS ->
     resolve_end data (zrange a).2 = Ok zE ->
     exists zs,
       visited_slices a data = Ok zs /\
       (forall z, In z zs <->
          (exists i, 0 <= i /\ z = zS + i * zskip a) /\ zS <= z < zE) /\
       Forall (fun t => In (d_z (t_descr t)) zs)
              (sink_log (main a data (start_world files)).1) /\
       (is_ok (main a data (start_world files)).2 = true ->
        exists yw xw,
          map t_descr (sink_log (main a data (start_world files)).1)
          = plan_list zs yw xw)) /\
  (zskip a = 0 ->
     exists e, main a data (start_world files) = (start_world files, Raise e)).
Proof.
  split; [reflexivity|]. split; [reflexivity|]. split.
  - intros zS zE Hk HS HE. unfold visited_slices. rewrite HS, HE. cbn [res_bind].
    rewrite py_range_nonzero by lia. eexists. split; [reflexivity|].
    split; [|split].
    + intros z. rewrite (py_range_pos_In zS zE (zskip a) _ z);
        [|lia|apply py_range_nonzero; lia].
      split.
      * intros (i & Hi & -> & Hlt). split; [eauto|nia].
      * intros ((i & Hi & ->) & Hlo & Hhi). eauto.
    + apply List.Forall_forall. intros t Ht. apply main_tiles in Ht.
      destruct Ht as (zS' & zE' & data' & ds & HS' & HE' & _ & Hp & Hd & _).
      rewrite HS in HS'. rewrite HE in HE'.
      injection HS' as <-. injection HE' as <-.
      apply (plan_In_axes _ _ _ _ _ _ _ _ _ Hp) in Hd.
      destruct Hd as (zs & _ & _ & Hz & Hin & _).
      rewrite py_range_nonzero in Hz by lia. injection Hz as <-. exact Hin.
    + apply (main_complete a data files zS zE); auto.
      apply py_range_nonzero. lia.
  - intros H0. unfold main, bind, lift.
    destruct (resolve_start (zrange a).1) as [zS|e]; [|eauto].
    destruct (resolve_end data (zrange a).2) as [zE|e]; [|eauto].
    destruct (if pad a then pad_data data (overlap a) else Ok data) as [data'|e];
      [|eauto].
    rewrite tile_loop_zero_skip by assumption. eauto.
Qed.

(** ** C8: the manifest flush *)

Lemma body_rows_length (recs : list (list cell)) :
  length (body_rows recs) = length recs.
Proof. unfold body_rows. apply length_imap. Qed.

Lemma body_rows_lookup (recs : list (list cell)) (i : nat) (r : list cell) :
  recs !! i = Some r -> body_rows recs !! i = Some (CInt (Z.of_nat i) :: r).
Proof. intros H. unfold body_rows. rewrite list_lookup_imap, H. reflexivity. Qed.

Lemma body_rows_no_header (recs : list (list cell)) :
  ~ In (CsvRow header_row) (map CsvRow (body_rows recs)).
Proof.
  rewrite in_map_iff. intros (row & Heq & Hin). injection Heq as ->.
  apply list_elem_of_In, list_elem_of_lookup in Hin. destruct Hin as (i & Hi).
  unfold body_rows in Hi. rewrite list_lookup_imap in Hi.
  destruct (recs !! i); simplify_eq/=.
Qed.

(** C8.  When no file exists at the manifest path, the flush creates it
    with one header row followed by one body row per buffered record, the
    row ids being 0, 1, 2, ...; when a file exists, the flush appends the
    same body rows to its content and writes no header row.  No other
    file is touched. *)
Theorem C8_manifest_flush (a : args) (w : world) :
  let path := path_join (output_dir a) (csv_filename a) in
  let body := body_rows (csv_list w) in
  (fs w !! path = None ->
     fs (flush a w).1 !! path = Some (CsvRow header_row :: map CsvRow body)) /\
  (forall old, fs w !! path = Some old ->
     fs (flush a w).1 !! path = Some (old ++ map CsvRow body)) /\
  length body = length (csv_list w) /\
  (forall i r, csv_list w !! i = Some r ->
     body !! i = Some (CInt (Z.of_nat i) :: r)) /\
  ~ In (CsvRow header_row) (map CsvRow body) /\
  (forall p, p <> path -> fs (flush a w).1 !! p = fs w !! p) /\
  (flush a w).2 = Ok tt.
Proof.
  cbv zeta. unfold flush.
  split; [|split; [|split; [|split; [|split; [|split]]]]].
  - intros ->. simpl. apply lookup_insert_eq.
  - intros old ->. simpl. apply lookup_insert_eq.
  - apply body_rows_length.
  - apply body_rows_lookup.
  - apply body_rows_no_header.
  - intros p Hp. destruct (fs w !! _); simpl; now rewrite lookup_insert_ne.
  - destruct (fs w !! _); reflexivity.
Qed.


(** * Further properties of the run *)

(** ** The world after the loops *)

Lemma save_all_snoc (a : args) (m : gmap string (list line)) (ts : list tile) (t : tile) :
  save_all a m (ts ++ [t]) = <[tile_path a t := [PngData (t_img t)]]> (save_all a m ts).
Proof. unfold save_all. now rewrite fold_left_app. Qed.

Lemma save_all_app (a : args) (m : gmap string (list line)) (ts us : list tile) :
  save_all a m (ts ++ us) = save_all a (save_all a m ts) us.
Proof. unfold save_all. now rewrite fold_left_app. Qed.

Lemma lookup_save_all (a : args) (m : gmap string (list line)) (ts : list tile)
    (p : string) :
  save_all a m ts !! p =
  match last_saved a ts p with
  | Some t => Some [PngData (t_img t)]
  | None => m !! p
  end.
Proof.
  revert m. induction ts as [|t ts IH]; intros m; [reflexivity|].
  change (save_all a m (t :: ts))
    with (save_all a (<[tile_path a t := [PngData (t_img t)]]> m) ts).
  rewrite IH. simpl. destruct (last_saved a ts p); [reflexivity|].
  destruct (String.eqb_spec (tile_path a t) p) as [->|Hne].
  - apply lookup_insert_eq.
  - now apply lookup_insert_ne.
Qed.

Lemma last_saved_path (a : args) (ts : list tile) (p : string) (t : tile) :
  last_saved a ts p = Some t -> In t ts /\ tile_path a t = p.
Proof.
  induction ts as [|u ts IH]; simpl; [discriminate|].
  destruct (last_saved a ts p) as [t'|].
  - intros [= <-]. destruct (IH eq_refl). auto.
  - destruct (String.eqb_spec (tile_path a u) p); [|discriminate].
    intros [= <-]. auto.
Qed.

Lemma last_saved_None (a : args) (ts : list tile) (p : string) :
  last_saved a ts p = None <-> forall t, In t ts -> tile_path a t <> p.
Proof.
  induction ts as [|u ts IH]; simpl.
  - split; [intros _ t []|reflexivity].
  - destruct (last_saved a ts p) as [t'|] eqn:E.
    + split; [discriminate|]. intros H. exfalso.
      destruct (last_saved_path a ts p t' E) as [Hin Hp]. apply (H t'); auto.
    + destruct (String.eqb_spec (tile_path a u) p) as [Heq|Hne].
      * split; [discriminate|]. intros H. exfalso. apply (H u); auto.
      * split; [|reflexivity]. intros _ t [<-|Hin]; [exact Hne|].
        now apply IH.
Qed.

(** One successful call of [render] adds its tile to the log, writes its
    file and buffers its record. *)
Lemma render_world (a : args) (data : ndarray3 F) (d : descr) (w w' : world)
    (r : res unit) :
  render a data d w = (w', r) ->
  (is_ok r = false /\ w' = w) \/
  (r = Ok tt /\ exists t,
     t_descr t = d /\ rendered a data t /\
     sink_log w' = sink_log w ++ [t] /\
     csv_list w' = csv_list w ++ records_of a [t] /\
     fs w' = save_all a (fs w) [t]).
Proof.
  unfold render, bind, lift.
  destruct (py_index (shape0 data) (d_z d)) as [i|e] eqn:Ei.
  - destruct (sink_image _) as [img|e] eqn:Eimg.
    + intros H. right.
      set (t := Tile d (tile_name (prefix a) (d_z d) (d_xS d) (d_xE d) (d_yS d) (d_yE d))
                     (nd_window data i (d_yS d) (d_yE d) (d_xS d) (d_xE d)) img).
      assert (H' : (w', r) =
                   (World (save_all a (fs w) [t]) (csv_list w ++ records_of a [t])
                          (sink_log w ++ [t]), Ok tt)).
      { rewrite <- H. unfold imsave, records_of, record_of, csv_append, ret.
        destruct (fillcsv a); simpl; rewrite ?app_nil_r; reflexivity. }
      injection H' as -> ->. split; [reflexivity|]. exists t.
      split; [reflexivity|]. split; [|auto].
      split; [reflexivity|]. exists i. auto.
    + intros [= <- <-]. left. auto.
  - intros [= <- <-]. left. auto.
Qed.

(** A rendering loop, whether it ends normally or on an exception, leaves
    the tiles it rendered in the log, their files in the file system and
    their records in the buffer. *)
Lemma for_render_world (a : args) (data : ndarray3 F) (ds : list descr)
    (w w' : world) (r : res unit) :
  for_ ds (render a data) w = (w', r) ->
  exists ts rest,
    sink_log w' = sink_log w ++ ts /\
    csv_list w' = csv_list w ++ records_of a ts /\
    fs w' = save_all a (fs w) ts /\
    Forall (rendered a data) ts /\
    ds = map t_descr ts ++ rest /\
    (is_ok r = true -> rest = []).
Proof.
  revert w. induction ds as [|d ds IH]; intros w; simpl.
  - unfold ret. intros [= <- <-]. exists [], []. unfold records_of.
    destruct (fillcsv a); rewrite !app_nil_r; auto 10.
  - unfold bind. destruct (render a data d w) as [w1 r1] eqn:E1.
    apply render_world in E1.
    destruct E1 as [[Hr1 ->]|(-> & t & Hd & Ht & Hlog & Hcsv & Hfs)].
    + destruct r1 as [u|e]; [discriminate|].
      intros [= <- <-]. exists [], (d :: ds). unfold records_of.
      destruct (fillcsv a); rewrite !app_nil_r; repeat split; auto; discriminate.
    + intros H. apply IH in H.
      destruct H as (ts & rest & Hlog' & Hcsv' & Hfs' & Hts & Hds & Hr).
      exists (t :: ts), rest.
      rewrite Hlog', Hlog, Hcsv', Hcsv, Hfs', Hfs, <- !app_assoc.
      split; [reflexivity|]. split.
      { unfold records_of. destruct (fillcsv a); reflexivity. }
      split; [reflexivity|]. split; [constructor; assumption|].
      split; [simpl; now rewrite Hd, Hds|exact Hr].
Qed.

Lemma tile_loop_world (a : args) (data : ndarray3 F) (zS zE : Z)
    (w w' : world) (r : res unit) :
  tile_loop a data zS zE w = (w', r) ->
  exists ts,
    sink_log w' = sink_log w ++ ts /\
    csv_list w' = csv_list w ++ records_of a ts /\
    fs w' = save_all a (fs w) ts /\
    Forall (rendered a data) ts.
Proof.
  rewrite tile_loop_plan. destruct (plan_of a data zS zE) as [ds|e].
  - rewrite exec_Ok. intros H. apply for_render_world in H.
    destruct H as (ts & rest & ? & ? & ? & ? & _). eauto 10.
  - rewrite exec_Raise. intros [= <- <-]. exists []. unfold records_of.
    destruct (fillcsv a); rewrite !app_nil_r; auto.
Qed.


(** The world a whole run ends in, from the tiles it rendered. *)
Lemma main_world (a : args) (data : ndarray3 F) (files : gmap string (list line)) :
  let w' := (main a data (start_world files)).1 in
  let r := (main a data (start_world files)).2 in
  let ts := sink_log w' in
  let saved := save_all a files ts in
  csv_list w' = records_of a ts /\
  fs w' =
    (if is_ok r && fillcsv a
     then <[csv_path a :=
              match saved !! csv_path a with
              | Some old => old ++ manifest_rows a ts
              | None => CsvRow header_row :: manifest_rows a ts
              end]> saved
     else saved).
Proof.
  cbv zeta. unfold main, bind, lift.
  assert (Hnil : records_of a [] = []) by (unfold records_of; now destruct (fillcsv a)).
  destruct (resolve_start (zrange a).1) as [zS|e]; [|simpl; auto].
  destruct (resolve_end data (zrange a).2) as [zE|e]; [|simpl; auto].
  destruct (if pad a then pad_data data (overlap a) else Ok data) as [data'|e];
    [|simpl; auto].
  destruct (tile_loop a data' zS zE (start_world files)) as [w' r] eqn:E.
  apply tile_loop_world in E. destruct E as (ts & Hlog & Hcsv & Hfs & _).
  simpl in Hlog, Hcsv, Hfs.
  destruct r as [[]|e]; [|simpl; rewrite Hlog, Hcsv, Hfs; auto].
  destruct (fillcsv a) eqn:Ef; [|simpl; rewrite Hlog, Hcsv, Hfs; auto].
  unfold flush. fold (csv_path a).
  assert (Hrec : csv_list w' = map (record_of a) ts).
  { rewrite Hcsv. unfold records_of. now rewrite Ef. }
  rewrite Hfs, Hrec. unfold manifest_rows.
  destruct (save_all a files ts !! csv_path a) as [old|] eqn:El; simpl;
    rewrite ?Hlog, ?Hrec, ?El; unfold records_of; rewrite ?Ef; auto.
Qed.

(** ** X1: one record per rendered tile *)

(** X1.  Whether the run ends normally or on an exception, the record
    buffer holds one record per rendered tile, in the order of rendering;
    a record holds the tile's file name, the prefix, the slice, the four
    window bounds, the source path and the transpose option.  With the
    manifest disabled the buffer stays empty. *)
Theorem X1_one_record_per_tile (a : args) (data : ndarray3 F)
    (files : gmap string (list line)) :
  let w' := (main a data (start_world files)).1 in
  (fillcsv a = true ->
     length (csv_list w') = length (sink_log w') /\
     forall i t, sink_log w' !! i = Some t ->
       csv_list w' !! i =
       Some [CStr (t_name t); CStr (prefix a); CInt (d_z (t_descr t));
             CInt (d_xS (t_descr t)); CInt (d_xE (t_descr t));
             CInt (d_yS (t_descr t)); CInt (d_yE (t_descr t));
             CStr (input_file_path a); transpose_cell (transpose a)]) /\
  (fillcsv a = false -> csv_list w' = []).
Proof.
  cbv zeta. destruct (main_world a data files) as [Hcsv _].
  rewrite Hcsv. unfold records_of. split; intros ->; [|reflexivity].
  split; [apply length_map|].
  intros i t Ht. change (map (record_of a)) with (fmap (M:=list) (record_of a)).
  rewrite list_lookup_fmap, Ht. reflexivity.
Qed.

(** ** X2: the image files a run leaves *)

(** X2.  After a run, normal or not, every path other than the manifest's
    holds the image of the last tile rendered under that path, when there
    is one, and what it held before the run otherwise. *)
Theorem X2_tile_files (a : args) (data : ndarray3 F)
    (files : gmap string (list line)) (p : string) :
  p <> csv_path a ->
  let w' := (main a data (start_world files)).1 in
  (forall t, last_saved a (sink_log w') p = Some t ->
     In t (sink_log w') /\ tile_path a t = p /\
     fs w' !! p = Some [PngData (t_img t)]) /\
  ((forall t, In t (sink_log w') -> tile_path a t <> p) ->
     fs w' !! p = files !! p).
Proof.
  intros Hp. cbv zeta. destruct (main_world a data files) as [_ Hfs].
  assert (Hl : fs (main a data (start_world files)).1 !! p =
               save_all a files (sink_log (main a data (start_world files)).1) !! p).
  { rewrite Hfs. destruct (_ && _); [|reflexivity]. now apply lookup_insert_ne. }
  rewrite Hl, lookup_save_all. split.
  - intros t Ht. rewrite Ht. destruct (last_saved_path _ _ _ _ Ht). auto.
  - intros Hno. apply last_saved_None in Hno. now rewrite Hno.
Qed.

(** ** X3, X4: the manifest a run leaves *)

(** X3.  A run that ends normally with the manifest enabled, on a file
    system without a manifest, where no tile is written to the manifest's
    path, leaves a manifest of one header row and one row per rendered
    tile, in order: the row of the [i]-th tile starts with the id [i] and
    the tile's file name. *)
Theorem X3_fresh_manifest (a : args) (data : ndarray3 F)
    (files : gmap string (list line)) :
  let w' := (main a data (start_world files)).1 in
  (main a data (start_world files)).2 = Ok tt ->
  fillcsv a = true ->
  files !! csv_path a = None ->
  (forall t, In t (sink_log w') -> tile_path a t <> csv_path a) ->
  exists rows,
    fs w' !! csv_path a = Some (CsvRow header_row :: rows) /\
    length rows = length (sink_log w') /\
    forall i t, sink_log w' !! i = Some t ->
      rows !! i = Some (CsvRow (CInt (Z.of_nat i) :: record_of a t)).
Proof.
  cbv zeta. intros Hok Hf Hnone Hno.
  destruct (main_world a data files) as [_ Hfs]. cbv zeta in Hfs.
  rewrite Hok, Hf in Hfs. simpl in Hfs.
  apply last_saved_None in Hno.
  rewrite lookup_save_all, Hno, Hnone in Hfs.
  exists (manifest_rows a (sink_log (main a data (start_world files)).1)).
  split; [rewrite Hfs; apply lookup_insert_eq|].
  unfold manifest_rows. split.
  - now rewrite length_map, body_rows_length, length_map.
  - intros i t Ht.
    change (map CsvRow) with (fmap (M:=list) CsvRow).
    rewrite list_lookup_fmap.
    rewrite (body_rows_lookup _ i (record_of a t)); [reflexivity|].
    change (map (record_of a)) with (fmap (M:=list) (record_of a)).
    now rewrite list_lookup_fmap, Ht.
Qed.

(** X4.  A run that ends on an exception, or a run with the manifest
    disabled, does not write the manifest: its path holds what it held
    before, unless a tile was written to that very path. *)
Theorem X4_no_manifest (a : args) (data : ndarray3 F)
    (files : gmap string (list line)) :
  let w' := (main a data (start_world files)).1 in
  is_ok (main a data (start_world files)).2 = false \/ fillcsv a = false ->
  (forall t, In t (sink_log w') -> tile_path a t <> csv_path a) ->
  fs w' !! csv_path a = files !! csv_path a.
Proof.
  cbv zeta. intros Hcase Hno.
  destruct (main_world a data files) as [_ Hfs]. cbv zeta in Hfs.
  apply last_saved_None in Hno.
  assert (Hb : is_ok (main a data (start_world files)).2 && fillcsv a = false).
  { destruct Hcase as [-> | ->]; [reflexivity|apply andb_false_r]. }
  rewrite Hb in Hfs. now rewrite Hfs, lookup_save_all, Hno.
Qed.


(** ** X5: running twice *)



(** ** X6-X9: what the tiles hold *)

(** The geometry of a tile of the loops, when the window fits the extent
    on both axes. *)
Lemma tile_geometry (a : args) (data : ndarray3 F) (zS zE : Z)
    (files : gmap string (list line)) (t : tile) :
  (window a).1 <= Z.of_nat (shape2 data) ->
  (window a).2 <= Z.of_nat (shape1 data) ->
  In t (sink_log (tile_loop a data zS zE (start_world files)).1) ->
  let d := t_descr t in
  0 < (window a).1 - (overlap a).1 /\ 0 < (window a).2 - (overlap a).2 /\
  0 <= d_xS d /\ d_xS d < Z.of_nat (shape2 data) /\
  d_xS d <= Z.of_nat (shape2 data) - (window a).1 /\ d_xE d = d_xS d + (window a).1 /\
  0 <= d_yS d /\ d_yS d < Z.of_nat (shape1 data) /\
  d_yS d <= Z.of_nat (shape1 data) - (window a).2 /\ d_yE d = d_yS d + (window a).2 /\
  rendered a data t.
Proof.
  intros HX HY Ht. apply tile_loop_tiles in Ht. destruct Ht as (ds & Hp & Hd & Hr).
  apply (plan_In_axes _ _ _ _ _ _ _ _ _ Hp) in Hd.
  destruct Hd as (zs & yw & xw & _ & _ & Hyw & Hy & Hxw & Hx).
  apply (axis_windows_In _ _ _ _ _ Hyw) in Hy.
  apply (axis_windows_In _ _ _ _ _ Hxw) in Hx.
  simpl in Hx, Hy.
  destruct Hx as (Hsx & i & Hi & Hx1 & Hx2).
  destruct Hy as (Hsy & j & Hj & Hy1 & Hy2).
  apply range_len_pos in Hi; [|assumption].
  apply range_len_pos in Hj; [|assumption].
  cbv zeta. repeat (split; [first [assumption | nia]|]). exact Hr.
Qed.

Lemma slice_first_inside (n : nat) (lo : Z) :
  0 <= lo <= Z.of_nat n -> slice_first n lo = Z.to_nat lo.
Proof.
  intros H. unfold slice_first, slice_bound.
  destruct (Z.ltb_spec lo 0); [lia|]. f_equal. lia.
Qed.

Lemma pixel2_window (data : ndarray3 F) (i : nat) (ylo yhi xlo xhi : Z) (r c : nat) :
  pixel2 (nd_window data i ylo yhi xlo xhi) r c =
  pixel3 data i (slice_first (shape1 data) ylo + r) (slice_first (shape2 data) xlo + c).
Proof. destruct data; reflexivity. Qed.

(** X6.  When the window fits the extent on both axes, the region of a
    tile is the part of its slice that starts at row [yS] and column [xS]:
    its pixel at row [r] and column [c] is the pixel of the slice at row
    [yS + r] and column [xS + c].  A tile of an integer volume is handed
    to the sink as it was read. *)
Theorem X6_tile_region_verbatim (a : args) (data : ndarray3 F) (zS zE : Z)
    (files : gmap string (list line)) :
  (window a).1 <= Z.of_nat (shape2 data) ->
  (window a).2 <= Z.of_nat (shape1 data) ->
  Forall (fun t =>
    let d := t_descr t in
    (exists i, py_index (shape0 data) (d_z d) = Ok i /\
       forall r c,
         pixel2 (t_roi t) r c =
         pixel3 data i (Z.to_nat (d_yS d) + r) (Z.to_nat (d_xS d) + c)) /\
    (is_float3 data = false -> t_img t = t_roi t))
  (sink_log (tile_loop a data zS zE (start_world files)).1).
Proof.
  intros HX HY. apply List.Forall_forall. intros t Ht.
  destruct (tile_geometry a data zS zE files t HX HY Ht)
    as (Hsx & Hsy & Hx0 & Hx1 & Hx2 & HxE & Hy0 & Hy1 & Hy2 & HyE & Hr).
  destruct Hr as (_ & i & Hi & Hroi & Himg).
  cbv zeta. split.
  - exists i. split; [exact Hi|]. intros r c.
    rewrite Hroi, pixel2_window, !slice_first_inside by lia. reflexivity.
  - intros Hint. rewrite Hroi in Himg. destruct data; [|discriminate].
    simpl in Himg. injection Himg as <-. symmetry. exact Hroi.
Qed.

(** What padding returns, when it returns. *)
Lemma pad_data_inv (data d' : ndarray3 F) (ov : Z * Z) :
  pad_data data ov = Ok d' ->
  0 <= ov.1 /\ 0 <= ov.2 /\ (0 < shape0 data)%nat /\
  d' = FloatArr3 (Arr3 (shape0 data)
         (Z.to_nat (Z.of_nat (shape1 data) + 2 * ov.2))
         (Z.to_nat (Z.of_nat (shape2 data) + 2 * ov.1))
         (fun i => get2 (padded_plane data (Z.to_nat ov.2) (Z.to_nat ov.1)
                           (np_median (nd_plane data 0)) i))).
Proof.
  destruct (Nat.eq_dec (shape0 data) 0%nat) as [H0|H0]; unfold pad_data.
  - rewrite H0. discriminate.
  - rewrite py_index_0 by lia. cbn [res_bind].
    destruct (Z.ltb_spec (Z.of_nat (shape1 data) + 2 * ov.2) 0); [discriminate|].
    destruct (Z.ltb_spec (Z.of_nat (shape2 data) + 2 * ov.1) 0); [discriminate|].
    destruct (Z.ltb_spec ov.2 0); [discriminate|].
    destruct (Z.ltb_spec ov.1 0); [discriminate|].
    cbn [orb]. intros [= <-]. repeat split; lia.
Qed.

Lemma padded_plane_get (data : ndarray3 F) (oy ox : nat) (i r c : nat) :
  get2 (padded_plane data oy ox (np_median (nd_plane data 0)) i) r c =
  if in_core oy ox (shape1 data) (shape2 data) r c
  then as_float data i (r - oy) (c - ox)
  else border_value data.
Proof.
  unfold in_core.
  destruct data as [d|d]; cbn [padded_plane np_pad map2d get2 rows cols plane
                               shape1 shape2 as_float border_value];
    destruct (_ && _); reflexivity.
Qed.

(** X7.  With padding enabled and a window that fits the padded extent on
    both axes, every tile is a float region of the padded slice: its pixel
    at row [r] and column [c] is the input pixel at row [yS + r - oy] and
    column [xS + c - ox], stored as a float, where that position lies in
    the input slice, and the border value elsewhere.  The border value is
    the median of slice 0 for a float input; for an integer input it is
    the median after the cast to the integer type. *)
Theorem X7_padded_tile_pixels (a : args) (data : ndarray3 F)
    (files : gmap string (list line)) :
  pad a = true ->
  (window a).1 <= Z.of_nat (shape2 data) + 2 * (overlap a).1 ->
  (window a).2 <= Z.of_nat (shape1 data) + 2 * (overlap a).2 ->
  Forall (fun t =>
    let d := t_descr t in
    exists i x,
      py_index (shape0 data) (d_z d) = Ok i /\
      t_roi t = FloatArr2 x /\
      forall r c,
        get2 x r c =
        if in_core (Z.to_nat (overlap a).2) (Z.to_nat (overlap a).1)
                   (shape1 data) (shape2 data)
                   (Z.to_nat (d_yS d) + r) (Z.to_nat (d_xS d) + c)
        then as_float data i (Z.to_nat (d_yS d) + r - Z.to_nat (overlap a).2)
                             (Z.to_nat (d_xS d) + c - Z.to_nat (overlap a).1)
        else border_value data)
  (sink_log (main a data (start_world files)).1).
Proof.
  intros Hpad HX HY. apply List.Forall_forall. intros t Ht.
  destruct (main_inv a data (start_world files))
    as [(e & Hm)|(zS & zE & data' & _ & _ & Hd & Hlog & _)].
  { rewrite Hm in Ht. contradiction. }
  rewrite Hlog in Ht. rewrite Hpad in Hd.
  apply pad_data_inv in Hd. destruct Hd as (Ho1 & Ho2 & Hn & ->).
  apply tile_geometry in Ht; [|simpl; lia..].
  destruct Ht as (_ & _ & Hx0 & Hx1 & _ & _ & Hy0 & Hy1 & _ & _ & Hr).
  destruct Hr as (_ & i & Hi & Hroi & _). simpl in Hi, Hroi, Hx1, Hy1.
  cbv zeta. exists i. eexists. split; [exact Hi|]. split; [exact Hroi|].
  intros r c. cbn [window_of get2 get3 dim1 dim2].
  rewrite !slice_first_inside by lia. apply padded_plane_get.
Qed.


(** Every position of an axis lies in one of its windows. *)
Lemma axis_windows_cover (extent : nat) (w o : Z) (ws : list (Z * Z)) (p : Z) :
  0 <= o -> o < w -> w <= Z.of_nat extent ->
  axis_windows extent w o = Ok ws ->
  0 <= p < Z.of_nat extent ->
  exists win, In win ws /\ covers win p.
Proof.
  intros Ho Hw He Hax Hp. rewrite axis_windows_pos in Hax by lia.
  injection Hax as <-. set (s := w - o). assert (Hs : 0 < s) by (unfold s; lia).
  pose proof (Z.mul_div_le p s Hs) as Hlo.
  pose proof (Z.mul_succ_div_gt p s Hs) as Hhi.
  assert (Hq : 0 <= p / s) by (apply Z.div_pos; lia).
  exists (clamp_start extent w (0 + Z.of_nat (Z.to_nat (p / s)) * s),
          clamp_end extent w (0 + Z.of_nat (Z.to_nat (p / s)) * s)).
  split.
  - apply in_map_iff. eexists. split; [reflexivity|].
    apply range_items_In. exists (Z.to_nat (p / s)). split; [|reflexivity].
    apply range_len_pos; [exact Hs|]. rewrite Z2Nat.id by exact Hq. lia.
  - unfold covers, clamp_end, clamp_start. cbn [fst snd].
    rewrite Z2Nat.id by exact Hq. lia.
Qed.

(** Loops that end normally have rendered the whole product. *)
Lemma tile_loop_complete (a : args) (data : ndarray3 F) (zS zE : Z)
    (files : gmap string (list line)) (zs : list Z) :
  (tile_loop a data zS zE (start_world files)).2 = Ok tt ->
  py_range zS zE (zskip a) = Ok zs ->
  (window a).1 - (overlap a).1 <> 0 ->
  (window a).2 - (overlap a).2 <> 0 ->
  exists yw xw,
    axis_windows (shape1 data) (window a).2 (overlap a).2 = Ok yw /\
    axis_windows (shape2 data) (window a).1 (overlap a).1 = Ok xw /\
    map t_descr (sink_log (tile_loop a data zS zE (start_world files)).1)
    = plan_list zs yw xw /\
    Forall (rendered a data)
           (sink_log (tile_loop a data zS zE (start_world files)).1).
Proof.
  intros Hok Hz Hx Hy.
  assert (Hk : zskip a <> 0).
  { intros H0. rewrite H0, py_range_zero in Hz. discriminate. }
  destruct (plan_no_raise (shape1 data) (shape2 data) (window a) (overlap a)
              zS zE (zskip a) Hk Hy Hx) as (yw & xw & Hyw & Hxw & Hp).
  rewrite py_range_nonzero in Hz by exact Hk. injection Hz as <-.
  exists yw, xw. split; [exact Hyw|]. split; [exact Hxw|].
  destruct (tile_loop a data zS zE (start_world files)) as [w' r] eqn:E.
  apply tile_loop_log in E. unfold plan_of in E. rewrite Hp in E.
  destruct E as (ts & rest & Hlog & Hts & Hds & Hrest).
  simpl in Hok, Hlog |- *. subst r. rewrite Hlog.
  rewrite (Hrest eq_refl), app_nil_r in Hds. split; [now symmetry|exact Hts].
Qed.

(** X8.  When the loops end normally and [0 <= overlap < window <= extent]
    holds on both axes, every pixel of every visited slice lies in the
    region of a rendered tile, at the row and the column the tile's start
    puts it. *)
Theorem X8_every_pixel_in_a_tile (a : args) (data : ndarray3 F) (zS zE : Z)
    (files : gmap string (list line)) (zs : list Z) (z py px : Z) :
  (tile_loop a data zS zE (start_world files)).2 = Ok tt ->
  py_range zS zE (zskip a) = Ok zs ->
  0 <= (overlap a).1 < (window a).1 -> (window a).1 <= Z.of_nat (shape2 data) ->
  0 <= (overlap a).2 < (window a).2 -> (window a).2 <= Z.of_nat (shape1 data) ->
  In z zs -> 0 <= py < Z.of_nat (shape1 data) -> 0 <= px < Z.of_nat (shape2 data) ->
  exists t i,
    In t (sink_log (tile_loop a data zS zE (start_world files)).1) /\
    d_z (t_descr t) = z /\
    d_yS (t_descr t) <= py < d_yE (t_descr t) /\
    d_xS (t_descr t) <= px < d_xE (t_descr t) /\
    py_index (shape0 data) z = Ok i /\
    pixel2 (t_roi t) (Z.to_nat (py - d_yS (t_descr t)))
                     (Z.to_nat (px - d_xS (t_descr t)))
    = pixel3 data i (Z.to_nat py) (Z.to_nat px).
Proof.
  intros Hok Hz Hox HX Hoy HY Hin Hpy Hpx.
  destruct (tile_loop_complete a data zS zE files zs Hok Hz)
    as (yw & xw & Hyw & Hxw & Hlog & Hts); [lia..|].
  destruct (axis_windows_cover _ _ _ _ py (proj1 Hoy) (proj2 Hoy) HY Hyw Hpy)
    as ([yS yE] & Hyin & Hyc).
  destruct (axis_windows_cover _ _ _ _ px (proj1 Hox) (proj2 Hox) HX Hxw Hpx)
    as ([xS xE] & Hxin & Hxc).
  unfold covers in Hyc, Hxc. cbn [fst snd] in Hyc, Hxc.
  assert (Hd : In (Descr z xS xE yS yE)
                  (map t_descr (sink_log (tile_loop a data zS zE (start_world files)).1))).
  { rewrite Hlog. apply plan_list_In. simpl. auto. }
  apply in_map_iff in Hd. destruct Hd as (t & Hdt & Ht).
  rewrite List.Forall_forall in Hts. destruct (Hts t Ht) as (_ & i & Hi & Hroi & _).
  apply (axis_windows_In _ _ _ _ _ Hyw) in Hyin.
  apply (axis_windows_In _ _ _ _ _ Hxw) in Hxin.
  cbn [fst snd] in Hyin, Hxin.
  destruct Hyin as (_ & j & _ & Hy1 & _). destruct Hxin as (_ & k & _ & Hx1 & _).
  exists t, i. rewrite Hroi, Hdt in *. cbn [d_z d_xS d_xE d_yS d_yE] in *.
  assert (0 <= yS) by nia. assert (0 <= xS) by nia.
  repeat (split; [first [assumption | reflexivity | lia]|]).
  rewrite pixel2_window, !slice_first_inside by lia. f_equal; lia.
Qed.

(** The window fits a padded volume when it is at most twice the overlap. *)
Lemma padded_window_fits (a : args) (data : ndarray3 F)
    (files : gmap string (list line)) :
  pad a = true ->
  (window a).1 <= 2 * (overlap a).1 ->
  (window a).2 <= 2 * (overlap a).2 ->
  Forall (fun t =>
    let d := t_descr t in
    0 <= d_xS d /\ d_xE d = d_xS d + (window a).1 /\
    d_xE d <= Z.of_nat (shape2 data) + 2 * (overlap a).1 /\
    0 <= d_yS d /\ d_yE d = d_yS d + (window a).2 /\
    d_yE d <= Z.of_nat (shape1 data) + 2 * (overlap a).2 /\
    Z.of_nat (nd_rows (t_roi t)) = (window a).2 /\
    Z.of_nat (nd_cols (t_roi t)) = (window a).1)
  (sink_log (main a data (start_world files)).1).
Proof.
  intros Hpad HX HY. apply List.Forall_forall. intros t Ht.
  destruct (main_inv a data (start_world files))
    as [(e & Hm)|(zS & zE & data' & _ & _ & Hd & Hlog & _)].
  { rewrite Hm in Ht. contradiction. }
  rewrite Hlog in Ht. rewrite Hpad in Hd.
  apply pad_data_inv in Hd. destruct Hd as (Ho1 & Ho2 & Hn & ->).
  apply tile_geometry in Ht; [|simpl; lia..].
  destruct Ht as (Hsx & Hsy & Hx0 & Hx1 & Hx2 & HxE & Hy0 & Hy1 & Hy2 & HyE & Hr).
  destruct Hr as (_ & i & _ & Hroi & _). simpl in Hroi, Hx1, Hx2, Hy1, Hy2.
  cbv zeta. rewrite Hroi. cbn [nd_rows nd_cols window_of rows cols dim1 dim2].
  rewrite HxE, HyE.
  repeat (split; [first [assumption | reflexivity | lia]|]).
  split; apply slice_count_inside; lia.
Qed.

(** X9.  With padding enabled and a window of at most twice the overlap
    on both axes, as with the default sizes, the window fits the padded
    volume whatever the size of the input is: every tile lies inside the
    padded slice and has exactly the window's rows and columns. *)
Theorem X9_padding_makes_the_window_fit (a : args) (data : ndarray3 F)
    (files : gmap string (list line)) :
  pad a = true ->
  (window a).1 <= 2 * (overlap a).1 ->
  (window a).2 <= 2 * (overlap a).2 ->
  Forall (fun t =>
    let d := t_descr t in
    0 <= d_xS d /\ d_xE d = d_xS d + (window a).1 /\
    d_xE d <= Z.of_nat (shape2 data) + 2 * (overlap a).1 /\
    0 <= d_yS d /\ d_yE d = d_yS d + (window a).2 /\
    d_yE d <= Z.of_nat (shape1 data) + 2 * (overlap a).2 /\
    Z.of_nat (nd_rows (t_roi t)) = (window a).2 /\
    Z.of_nat (nd_cols (t_roi t)) = (window a).1)
  (sink_log (main a data (start_world files)).1).
Proof. apply padded_window_fits. Qed.


(** ** X10: the file name determines the tile *)

Lemma pretty_N_char_num (n : N) : num_char (pretty_N_char n) = true.
Proof. unfold pretty_N_char. repeat case_match; reflexivity. Qed.

Lemma pretty_N_go_num (x : N) (s : string) :
  all_num s = true -> all_num (pretty_N_go x s) = true.
Proof.
  revert s. induction (N.lt_wf_0 x) as [x _ IH]. intros s Hs.
  destruct (N.eq_dec x 0%N) as [->|Hx].
  - now rewrite pretty_N_go_0.
  - rewrite pretty_N_go_step by lia. apply IH.
    + apply N.div_lt; lia.
    + simpl. now rewrite pretty_N_char_num.
Qed.

Lemma pretty_Z_num (z : Z) : all_num (pretty z) = true.
Proof.
  destruct z as [|p|p]; [reflexivity| |].
  - change (pretty (Z.pos p)) with (pretty (N.pos p)).
    unfold pretty, pretty_N. case_decide; [reflexivity|].
    now apply pretty_N_go_num.
  - change (pretty (Z.neg p)) with ("-" +:+ pretty (N.pos p)).
    simpl. unfold pretty, pretty_N. case_decide; [reflexivity|].
    now apply pretty_N_go_num.
Qed.

Lemma all_num_no_char (c : ascii) (s : string) :
  num_char c = false -> all_num s = true -> has_char c s = false.
Proof.
  intros Hc. induction s as [|x s IH]; simpl; [reflexivity|].
  intros H. apply andb_prop in H. destruct H as [Hx Hs].
  rewrite (IH Hs), orb_false_r.
  destruct (Ascii.eqb_spec x c) as [->|]; [congruence|reflexivity].
Qed.

(** Two strings cut at the first occurrence of a separator. *)
Lemma split_at_sep (c : ascii) (s1 s2 r1 r2 : string) :
  has_char c s1 = false -> has_char c s2 = false ->
  s1 +:+ String c r1 = s2 +:+ String c r2 -> s1 = s2 /\ r1 = r2.
Proof.
  revert s2. induction s1 as [|x s1 IH]; intros [|y s2]; simpl; intros H1 H2 H.
  - injection H as <-. auto.
  - injection H as <- _. rewrite Ascii.eqb_refl in H2. discriminate.
  - injection H as -> _. rewrite Ascii.eqb_refl in H1. discriminate.
  - injection H as <- H. apply orb_false_elim in H1, H2.
    destruct (IH s2 (proj2 H1) (proj2 H2) H) as [-> ->]. auto.
Qed.

Lemma pretty_sep (c : ascii) (z1 z2 : Z) (r1 r2 : string) :
  num_char c = false ->
  pretty z1 +:+ String c r1 = pretty z2 +:+ String c r2 -> z1 = z2 /\ r1 = r2.
Proof.
  intros Hc H. apply split_at_sep in H.
  - destruct H as [H ->]. apply (inj pretty) in H. auto.
  - apply all_num_no_char; [exact Hc|apply pretty_Z_num].
  - apply all_num_no_char; [exact Hc|apply pretty_Z_num].
Qed.

(** For one prefix, the file name determines the slice and the window. *)
Lemma tile_name_inj (p : string) (z xS xE yS yE z' xS' xE' yS' yE' : Z) :
  tile_name p z xS xE yS yE = tile_name p z' xS' xE' yS' yE' ->
  Descr z xS xE yS yE = Descr z' xS' xE' yS' yE'.
Proof.
  unfold tile_name. intros H. apply (inj (String.app p)) in H.
  simpl in H. injection H as H.
  apply pretty_sep in H; [|reflexivity]. destruct H as [-> H].
  apply pretty_sep in H; [|reflexivity]. destruct H as [-> H].
  apply pretty_sep in H; [|reflexivity]. destruct H as [-> H].
  apply pretty_sep in H; [|reflexivity]. destruct H as [-> H].
  apply pretty_sep in H; [|reflexivity]. destruct H as [-> _].
  reflexivity.
Qed.

Lemma tile_name_slash (p : string) (z xS xE yS yE : Z) :
  starts_with_slash (tile_name p z xS xE yS yE) = starts_with_slash p.
Proof. destruct p; reflexivity. Qed.

Lemma path_join_inj (out n1 n2 : string) :
  starts_with_slash n1 = starts_with_slash n2 ->
  path_join out n1 = path_join out n2 -> n1 = n2.
Proof.
  unfold path_join. intros <-. destruct (starts_with_slash n1); [auto|].
  destruct (_ || _); intros H; apply (inj (String.app out)) in H; [exact H|].
  simpl in H. now injection H.
Qed.

(** Tiles of one volume that are written to the same path are the same
    tile. *)
Lemma rendered_same_path (a : args) (data : ndarray3 F) (t u : tile) :
  rendered a data t -> rendered a data u ->
  tile_path a t = tile_path a u -> t = u.
Proof.
  unfold rendered, tile_path.
  destruct t as [dt nt rt it], u as [du nu ru iu]. cbn [t_descr t_name t_roi t_img].
  intros (-> & i & Hi & -> & Hit) (-> & j & Hj & -> & Hiu) Hp.
  apply path_join_inj in Hp; [|now rewrite !tile_name_slash].
  apply tile_name_inj in Hp.
  assert (Hd : dt = du) by (destruct dt, du; exact Hp). subst du.
  rewrite Hi in Hj. injection Hj as <-.
  rewrite Hit in Hiu. injection Hiu as <-. reflexivity.
Qed.

(** X10.  In a run the file name determines the tile: two rendered tiles
    written to the same path have the same slice, the same window, the
    same region and the same image.  So a tile file is only ever
    overwritten by the same image, and after the run, normal or not, the
    file of every rendered tile holds that tile's image (the manifest
    path apart). *)
Theorem X10_file_name_determines_tile (a : args) (data : ndarray3 F)
    (files : gmap string (list line)) :
  let w' := (main a data (start_world files)).1 in
  (forall z xS xE yS yE z' xS' xE' yS' yE',
     tile_name (prefix a) z xS xE yS yE = tile_name (prefix a) z' xS' xE' yS' yE' ->
     z = z' /\ xS = xS' /\ xE = xE' /\ yS = yS' /\ yE = yE') /\
  (forall t u, In t (sink_log w') -> In u (sink_log w') ->
     tile_path a t = tile_path a u -> t = u) /\
  (forall t, In t (sink_log w') -> tile_path a t <> csv_path a ->
     fs w' !! tile_path a t = Some [PngData (t_img t)]).
Proof.
  cbv zeta.
  assert (Hsame : forall t u,
    In t (sink_log (main a data (start_world files)).1) ->
    In u (sink_log (main a data (start_world files)).1) ->
    tile_path a t = tile_path a u -> t = u).
  { intros t u Ht Hu. apply main_tiles in Ht, Hu.
    destruct Ht as (zS & zE & d1 & ds & _ & _ & Hd1 & _ & _ & Hrt).
    destruct Hu as (zS' & zE' & d2 & ds' & _ & _ & Hd2 & _ & _ & Hru).
    rewrite Hd1 in Hd2. injection Hd2 as <-.
    now apply (rendered_same_path a d1). }
  split; [|split; [exact Hsame|]].
  - intros z xS xE yS yE z' xS' xE' yS' yE' H.
    apply tile_name_inj in H. injection H as -> -> -> -> ->. auto.
  - intros t Ht Hp. destruct (main_world a data files) as [_ Hfs].
    cbv zeta in Hfs.
    assert (Hl : fs (main a data (start_world files)).1 !! tile_path a t =
                 save_all a files (sink_log (main a data (start_world files)).1)
                   !! tile_path a t).
    { rewrite Hfs. destruct (_ && _); [|reflexivity]. apply lookup_insert_ne. congruence. }
    rewrite Hl, lookup_save_all.
    destruct (last_saved a _ (tile_path a t)) as [u|] eqn:El.
    + destruct (last_saved_path _ _ _ _ El) as [Hu Hpu].
      now rewrite (Hsame u t Hu Ht Hpu).
    + exfalso. rewrite last_saved_None in El. now apply (El t Ht).
Qed.


(** ** X11-X13: slice bounds, negative skips and runs without exception *)

Lemma rendered_in_range (a : args) (data : ndarray3 F) (t : tile) :
  rendered a data t ->
  - Z.of_nat (shape0 data) <= d_z (t_descr t) < Z.of_nat (shape0 data).
Proof.
  intros (_ & i & Hi & _). unfold py_index in Hi.
  destruct (Z.leb_spec 0 (d_z (t_descr t))), (Z.ltb_spec (d_z (t_descr t)) (Z.of_nat (shape0 data)));
    simpl in Hi; try lia;
    destruct (Z.leb_spec (- Z.of_nat (shape0 data)) (d_z (t_descr t))),
             (Z.ltb_spec (d_z (t_descr t)) 0); simpl in Hi; try lia; discriminate.
Qed.

(** X11.  A visited slice index outside the volume makes the run fail,
    provided both axes have a candidate start: its first tile raises on
    reading the volume.  The tiles rendered before it stay written, all
    in slices of the volume, and the manifest is not written. *)
Theorem X11_slice_outside_volume (a : args) (data : ndarray3 F)
    (files : gmap string (list line)) (zS zE z : Z) (zs : list Z) :
  resolve_start (zrange a).1 = Ok zS ->
  resolve_end data (zrange a).2 = Ok zE ->
  py_range zS zE (zskip a) = Ok zs ->
  In z zs ->
  ~ (- Z.of_nat (shape0 data) <= z < Z.of_nat (shape0 data)) ->
  0 < (window a).1 - (overlap a).1 -> 0 < (window a).2 - (overlap a).2 ->
  (0 < shape1 data)%nat -> (0 < shape2 data)%nat ->
  let w' := (main a data (start_world files)).1 in
  is_ok (main a data (start_world files)).2 = false /\
  Forall (fun t => - Z.of_nat (shape0 data) <= d_z (t_descr t)
                   < Z.of_nat (shape0 data)) (sink_log w') /\
  ((forall t, In t (sink_log w') -> tile_path a t <> csv_path a) ->
   fs w' !! csv_path a = files !! csv_path a).
Proof.
  intros HS HE Hz Hin Hout Hsx Hsy H1 H2. cbv zeta.
  assert (Hfail : is_ok (main a data (start_world files)).2 = false).
  { destruct (is_ok (main a data (start_world files)).2) eqn:Hok; [|reflexivity].
    exfalso.
    destruct (main_inv a data (start_world files))
      as [(e & Hm)|(zS' & zE' & data' & HS' & HE' & Hd & Hlog & Hr)].
    { rewrite Hm in Hok. discriminate. }
    rewrite HS in HS'. rewrite HE in HE'. injection HS' as <-. injection HE' as <-.
    specialize (Hr Hok).
    assert (Hsh : shape0 data' = shape0 data /\
                  (0 < shape1 data')%nat /\ (0 < shape2 data')%nat).
    { destruct (pad a); [|injection Hd as <-; auto].
      apply pad_data_inv in Hd. destruct Hd as (? & ? & ? & ->). simpl. lia. }
    destruct Hsh as (Hn & H1' & H2').
    assert (Hr' : (tile_loop a data' zS zE (start_world files)).2 = Ok tt).
    { destruct ((tile_loop a data' zS zE (start_world files)).2) as [[]|]; [reflexivity|discriminate]. }
    destruct (tile_loop_complete a data' zS zE files zs Hr' Hz)
      as (yw & xw & Hyw & Hxw & Hl & Hts); [lia..|].
    destruct (axis_windows_nonempty (shape1 data') _ _ Hsy H1') as (y & yw' & Hy).
    destruct (axis_windows_nonempty (shape2 data') _ _ Hsx H2') as (x & xw' & Hx).
    rewrite Hyw in Hy. rewrite Hxw in Hx. injection Hy as ->. injection Hx as ->.
    assert (Hd' : In (Descr z x.1 x.2 y.1 y.2)
                     (map t_descr (sink_log (tile_loop a data' zS zE (start_world files)).1))).
    { rewrite Hl. apply plan_list_In. simpl. destruct x, y. simpl. auto. }
    apply in_map_iff in Hd'. destruct Hd' as (t & Hdt & Ht).
    rewrite List.Forall_forall in Hts. apply Hts, rendered_in_range in Ht.
    rewrite Hdt, Hn in Ht. simpl in Ht. contradiction. }
  split; [exact Hfail|]. split.
  - apply List.Forall_forall. intros t Ht. apply main_tiles in Ht.
    destruct Ht as (? & ? & data' & ? & _ & _ & Hd & _ & _ & Hr).
    apply rendered_in_range in Hr.
    assert (Hn : shape0 data' = shape0 data).
    { destruct (pad a); [|injection Hd as <-; auto].
      apply pad_data_inv in Hd. destruct Hd as (? & ? & ? & ->). reflexivity. }
    now rewrite Hn in Hr.
  - intros Hno. destruct (main_world a data files) as [_ Hfs]. cbv zeta in Hfs.
    rewrite Hfail in Hfs. simpl in Hfs. apply last_saved_None in Hno.
    now rewrite Hfs, lookup_save_all, Hno.
Qed.

Lemma range_len_down (start stop step : Z) (i : nat) :
  step < 0 ->
  (i < range_len start stop step)%nat <-> stop < start + Z.of_nat i * step.
Proof.
  intros Hs. unfold range_len.
  destruct (Z.ltb_spec 0 step) as [|_]; [lia|].
  set (q := (start - stop - step - 1) / (- step)).
  assert (Hq : Z.of_nat i < q <-> stop < start + Z.of_nat i * step).
  { unfold q. split; intros H.
    - assert (- step * q <= start - stop - step - 1)
        by (apply Z.mul_div_le; lia). nia.
    - assert (Z.of_nat i + 1 <= q); [|lia].
      apply Z.div_le_lower_bound; [lia|]. nia. }
  rewrite <- Hq. lia.
Qed.

Lemma range_items_sorted_down (start step : Z) (n : nat) :
  step < 0 -> StronglySorted Z.gt (range_items start step n).
Proof.
  intros Hs. unfold range_items. revert start.
  induction n as [|n IH]; intros start; simpl; constructor.
  - rewrite <- seq_shift, map_map.
    erewrite map_ext; [apply (IH (start + step))|]. intros i; simpl. lia.
  - apply List.Forall_forall. intros x Hx. apply in_map_iff in Hx.
    destruct Hx as (i & <- & Hi). apply in_seq in Hi. nia.
Qed.

(** X12.  A negative skip is accepted: the outer loop then walks the
    slices downwards, over exactly the indices [zS + i * k], [i >= 0], that
    are above [zE] and at most [zS].  When [zS <= zE], as with the default
    range, it visits nothing: once padding has passed, the run renders no
    tile and ends normally. *)
Theorem X12_negative_skip (a : args) (data : ndarray3 F)
    (files : gmap string (list line)) (zS zE : Z) :
  zskip a < 0 ->
  resolve_start (zrange a).1 = Ok zS ->
  resolve_end data (zrange a).2 = Ok zE ->
  exists zs,
    visited_slices a data = Ok zs /\
    StronglySorted Z.gt zs /\
    (forall z, In z zs <->
       (exists i, 0 <= i /\ z = zS + i * zskip a) /\ zE < z <= zS) /\
    Forall (fun t => In (d_z (t_descr t)) zs)
           (sink_log (main a data (start_world files)).1) /\
    (zS <= zE -> zs = [] /\
       (is_ok (if pad a then pad_data data (overlap a) else Ok data) = true ->
        (main a data (start_world files)).2 = Ok tt)).
Proof.
  intros Hk HS HE. unfold visited_slices. rewrite HS, HE. cbn [res_bind].
  rewrite py_range_nonzero by lia. eexists. split; [reflexivity|].
  split; [now apply range_items_sorted_down|]. split; [|split].
  - intros z. rewrite range_items_In. split.
    + intros (i & Hi & ->). apply range_len_down in Hi; [|exact Hk].
      split; [exists (Z.of_nat i); split; [lia|reflexivity]|nia].
    + intros ((i & Hi & ->) & Hlo & Hhi). exists (Z.to_nat i).
      rewrite range_len_down by exact Hk. rewrite Z2Nat.id by exact Hi. auto.
  - apply List.Forall_forall. intros t Ht. apply main_tiles in Ht.
    destruct Ht as (zS' & zE' & data' & ds & HS' & HE' & _ & Hp & Hd & _).
    rewrite HS in HS'. rewrite HE in HE'.
    injection HS' as <-. injection HE' as <-.
    apply (plan_In_axes _ _ _ _ _ _ _ _ _ Hp) in Hd.
    destruct Hd as (zs & _ & _ & Hz & Hin & _).
    rewrite py_range_nonzero in Hz by lia. injection Hz as <-. exact Hin.
  - intros Hle.
    assert (Hlen : range_len zS zE (zskip a) = 0%nat).
    { destruct (range_len zS zE (zskip a)) as [|m] eqn:E; [reflexivity|].
      assert (H0 : (0 < range_len zS zE (zskip a))%nat) by lia.
      apply range_len_down in H0; [lia|exact Hk]. }
    rewrite Hlen. split; [reflexivity|]. intros Hv.
    unfold main, bind, lift. rewrite HS, HE.
    destruct (if pad a then pad_data data (overlap a) else Ok data) as [data'|e];
      [|discriminate].
    unfold tile_loop, bind, lift. rewrite py_range_nonzero by lia.
    rewrite Hlen. simpl. destruct (fillcsv a); [|reflexivity].
    unfold flush. destruct (_ !! _); reflexivity.
Qed.






(** ** X14-X17: the argument strings *)

Lemma split_on_cons (c : ascii) (s : string) :
  exists h t, split_on c s = h :: t.
Proof.
  induction s as [|x s (h & t & IH)]; simpl; [eauto|].
  destruct (Ascii.eqb x c); [eauto|]. rewrite IH. eauto.
Qed.

Lemma join_split (c : ascii) (s : string) : join_with c (split_on c s) = s.
Proof.
  induction s as [|x s IH]; [reflexivity|]. simpl.
  destruct (split_on_cons c s) as (h & t & E). rewrite E in IH |- *.
  destruct (Ascii.eqb_spec x c) as [->|_].
  - change (join_with c (EmptyString :: h :: t))
      with (String c (join_with c (h :: t))). now rewrite IH.
  - destruct t as [|h' t].
    + simpl in IH |- *. now rewrite IH.
    + change (join_with c (String x h :: h' :: t))
        with (String x (join_with c (h :: h' :: t))). now rewrite IH.
Qed.

Lemma split_length (c : ascii) (s : string) :
  length (split_on c s) = S (count_char c s).
Proof.
  induction s as [|x s IH]; [reflexivity|]. simpl.
  destruct (split_on_cons c s) as (h & t & E). rewrite E in IH |- *.
  destruct (Ascii.eqb x c); simpl in *; lia.
Qed.

Lemma split_no_sep (c : ascii) (s : string) :
  Forall (fun p => has_char c p = false) (split_on c s).
Proof.
  induction s as [|x s IH]; simpl; [repeat constructor|].
  destruct (split_on_cons c s) as (h & t & E). rewrite E in IH |- *.
  destruct (Ascii.eqb x c) eqn:Ex.
  - constructor; [reflexivity|exact IH].
  - inversion IH as [|? ? Hh Ht]; subst. constructor; [|exact Ht].
    simpl. now rewrite Ex, Hh.
Qed.

(** What a run does before the loops: a failure there leaves the world
    as it was. *)
Lemma main_raw_inv (r : raw_args) (data : ndarray3 F) (w : world) :
  (exists e, main_raw r data w = (w, Raise e)) \/
  (exists data1 win ov toks zS zE data2,
     transpose_step r data = Ok data1 /\
     parse_ints "x" (raw_window r) = Ok win /\
     parse_ints "x" (raw_overlap r) = Ok ov /\
     unpack2 (split_on "-" (raw_zrange r)) = Ok toks /\
     resolve_start toks.1 = Ok zS /\
     resolve_end data1 toks.2 = Ok zE /\
     (if raw_pad r then pad_step data1 ov else Ok data1) = Ok data2 /\
     main_raw r data w =
     bind (tile_loop_raw r win ov data2 zS zE)
          (fun _ => if raw_fillcsv r then flush (plain_args r) else ret tt) w).
Proof.
  destruct (transpose_step r data) as [data1|e] eqn:E1;
    [|left; exists e; unfold main_raw, bind, lift; now rewrite E1].
  destruct (parse_ints "x" (raw_window r)) as [win|e] eqn:E2;
    [|left; exists e; unfold main_raw, bind, lift; now rewrite E1, E2].
  destruct (parse_ints "x" (raw_overlap r)) as [ov|e] eqn:E3;
    [|left; exists e; unfold main_raw, bind, lift; now rewrite E1, E2, E3].
  destruct (unpack2 (split_on "-" (raw_zrange r))) as [toks|e] eqn:E4;
    [|left; exists e; unfold main_raw, bind, lift; now rewrite E1, E2, E3, E4].
  destruct (resolve_start toks.1) as [zS|e] eqn:E5;
    [|left; exists e; unfold main_raw, bind, lift; rewrite E1, E2, E3, E4;
      cbn beta iota; now rewrite E5].
  destruct (resolve_end data1 toks.2) as [zE|e] eqn:E6;
    [|left; exists e; unfold main_raw, bind, lift; rewrite E1, E2, E3, E4;
      cbn beta iota; rewrite E5; cbn beta iota; now rewrite E6].
  destruct (if raw_pad r then pad_step data1 ov else Ok data1) as [data2|e] eqn:E7;
    [|left; exists e; unfold main_raw, bind, lift; rewrite E1, E2, E3, E4;
      cbn beta iota; rewrite E5; cbn beta iota; rewrite E6; cbn beta iota;
      now rewrite E7].
  right. exists data1, win, ov, toks, zS, zE, data2.
  repeat (split; [reflexivity|]).
  unfold main_raw. unfold bind at 1 2 3 4 5 6 7. unfold lift. rewrite E1, E2, E3, E4.
  cbn beta iota. rewrite E5. cbn beta iota. rewrite E6. cbn beta iota.
  now rewrite E7.
Qed.

(** X14.  The range string is cut at its dashes and must give exactly two
    tokens.  With exactly one dash the tokens are the text before and
    after it, and neither holds a dash, so no bound can carry a minus
    sign; with any other number of dashes the run fails before anything
    is written. *)
Theorem X14_zrange_needs_one_dash (r : raw_args) (data : ndarray3 F) (w : world) :
  (count_char "-" (raw_zrange r) = 1%nat ->
   exists tS tE,
     unpack2 (split_on "-" (raw_zrange r)) = Ok (tS, tE) /\
     raw_zrange r = tS +:+ String "-" tE /\
     has_char "-" tS = false /\ has_char "-" tE = false) /\
  (count_char "-" (raw_zrange r) <> 1%nat ->
   unpack2 (split_on "-" (raw_zrange r)) = Raise ValueError /\
   exists e, main_raw r data w = (w, Raise e)).
Proof.
  pose proof (split_length "-" (raw_zrange r)) as Hlen.
  pose proof (join_split "-" (raw_zrange r)) as Hjoin.
  pose proof (split_no_sep "-" (raw_zrange r)) as Hsep.
  split; intros Hc.
  - rewrite Hc in Hlen.
    destruct (split_on "-" (raw_zrange r)) as [|tS [|tE [|]]]; try discriminate.
    exists tS, tE. inversion Hsep as [|? ? H1 H2]; subst.
    inversion H2; subst. simpl in Hjoin. auto.
  - assert (Hu : unpack2 (split_on "-" (raw_zrange r)) = Raise ValueError).
    { destruct (split_on "-" (raw_zrange r)) as [|tS [|tE [|]]]; try reflexivity.
      simpl in Hlen. lia. }
    split; [exact Hu|].
    destruct (main_raw_inv r data w)
      as [H|(? & ? & ? & ? & ? & ? & ? & _ & _ & _ & Hu' & _)]; [exact H|].
    rewrite Hu in Hu'. discriminate.
Qed.


Lemma pad_step_pair (data : ndarray3 F) (o0 o1 : Z) (rest : list Z) :
  pad_step data (o0 :: o1 :: rest) = pad_data data (o0, o1).
Proof.
  unfold pad_step, pad_data. simpl.
  destruct (py_index (shape0 data) 0); reflexivity.
Qed.

Lemma tile_loop_raw_pair (r : raw_args) (w0 w1 o0 o1 : Z) (wr or : list Z)
    (zr : string * string) (data : ndarray3 F) (zS zE : Z) (w : world) :
  tile_loop_raw r (w0 :: w1 :: wr) (o0 :: o1 :: or) data zS zE w =
  tile_loop (args_of r (w0, w1) (o0, o1) zr) data zS zE w.
Proof. reflexivity. Qed.

(** The run on the dictionary and the run on the parsed values. *)
Lemma main_raw_parsed (r : raw_args) (data data1 : ndarray3 F)
    (w0 w1 o0 o1 : Z) (wr or : list Z) (toks : string * string) (w : world) :
  transpose_step r data = Ok data1 ->
  parse_ints "x" (raw_window r) = Ok (w0 :: w1 :: wr) ->
  parse_ints "x" (raw_overlap r) = Ok (o0 :: o1 :: or) ->
  unpack2 (split_on "-" (raw_zrange r)) = Ok toks ->
  main_raw r data w = main (args_of r (w0, w1) (o0, o1) toks) data1 w.
Proof.
  intros E1 E2 E3 E4. unfold main_raw, main.
  unfold bind at 1 2 3 4 5 6 7 9 10 11. unfold lift. rewrite E1, E2, E3, E4.
  cbn beta iota. cbn [zrange args_of pad overlap fillcsv].
  destruct (resolve_start toks.1) as [zS|e]; [|reflexivity].
  destruct (resolve_end data1 toks.2) as [zE|e]; [|reflexivity].
  rewrite pad_step_pair.
  destruct (if raw_pad r then pad_data data1 (o0, o1) else Ok data1) as [data2|e];
    reflexivity.
Qed.

(** X15.  When the transposition, if any, succeeds, the window and the
    overlap strings give at least two integers each and the range string
    two tokens, the run on the argument dictionary is the run of [main] on
    the parsed values and the transposed volume: index 0 of a size is its
    X value, index 1 its Y value, and further integers are ignored. *)
Theorem X15_dictionary_run_is_parsed_run (r : raw_args) (data data1 : ndarray3 F)
    (w0 w1 o0 o1 : Z) (wr or : list Z) (toks : string * string) (w : world) :
  transpose_step r data = Ok data1 ->
  parse_ints "x" (raw_window r) = Ok (w0 :: w1 :: wr) ->
  parse_ints "x" (raw_overlap r) = Ok (o0 :: o1 :: or) ->
  unpack2 (split_on "-" (raw_zrange r)) = Ok toks ->
  main_raw r data w = main (args_of r (w0, w1) (o0, o1) toks) data1 w.
Proof. apply main_raw_parsed. Qed.

(** X16.  A window or an overlap that gives fewer than two integers is
    not refused when it is parsed.  The run fails once the missing entry
    is looked up: at the latest at the first visited slice, and before
    any file is written. *)
Theorem X16_short_size_fails_at_first_use (r : raw_args) (data data1 : ndarray3 F)
    (win ov : list Z) (toks : string * string) (zS zE : Z) (w : world) :
  transpose_step r data = Ok data1 ->
  parse_ints "x" (raw_window r) = Ok win ->
  parse_ints "x" (raw_overlap r) = Ok ov ->
  unpack2 (split_on "-" (raw_zrange r)) = Ok toks ->
  resolve_start toks.1 = Ok zS ->
  resolve_end data1 toks.2 = Ok zE ->
  (length win < 2)%nat \/ (length ov < 2)%nat ->
  py_range zS zE (raw_zskip r) <> Ok [] ->
  exists e, main_raw r data w = (w, Raise e).
Proof.
  intros E1 E2 E3 E4 E5 E6 Hshort Hvis.
  destruct (main_raw_inv r data w)
    as [H|(d1 & win' & ov' & toks' & zS' & zE' & data2
            & E1' & E2' & E3' & E4' & E5' & E6' & _ & ->)]; [exact H|].
  rewrite E1 in E1'. injection E1' as <-. rewrite E2 in E2'. injection E2' as <-.
  rewrite E3 in E3'. injection E3' as <-. rewrite E4 in E4'. injection E4' as <-.
  rewrite E5 in E5'. injection E5' as <-. rewrite E6 in E6'. injection E6' as <-.
  unfold tile_loop_raw. unfold bind at 1 2. unfold lift.
  destruct (py_range zS zE (raw_zskip r)) as [[|z zs]|e]; [contradiction| |eauto].
  cbn [for_]. unfold bind at 1 2. unfold lift, tuple_get.
  destruct Hshort as [Hw|Ho].
  - destruct win as [|? [|? ?]]; simpl in Hw; [eauto|eauto|lia].
  - destruct (nth_error win 1) as [w1|]; [|eauto].
    unfold bind at 1.
    destruct ov as [|? [|? ?]]; simpl in Ho; [eauto|eauto|lia].
Qed.

(** X17.  With the defaults of [init_argparse], and [int] reading the
    four default numbers as written, the run is the run of [main] with
    padding, the window 240 by 264, the overlap 120 by 132, the whole
    slice range with skip 1, the prefix ["data"] and the manifest
    ["manifest.csv"]; whatever the volume is, every rendered tile has 264
    rows and 240 columns. *)
Theorem X17_default_run (input output : string) (data : ndarray3 F)
    (files : gmap string (list line)) :
  py_int "240" = Ok 240 -> py_int "264" = Ok 264 ->
  py_int "120" = Ok 120 -> py_int "132" = Ok 132 ->
  let a := Args input output true (240, 264) (120, 132) ("start", "end") 1
                "data" true "manifest.csv" None in
  (forall w, main_raw (default_args input output) data w = main a data w) /\
  Forall (fun t =>
    nd_rows (t_roi t) = 264%nat /\ nd_cols (t_roi t) = 240%nat /\
    d_xE (t_descr t) - d_xS (t_descr t) = 240 /\
    d_yE (t_descr t) - d_yS (t_descr t) = 264)
  (sink_log (main_raw (default_args input output) data (start_world files)).1).
Proof.
  intros H240 H264 H120 H132. cbv zeta.
  assert (Heq : forall w,
    main_raw (default_args input output) data w =
    main (Args input output true (240, 264) (120, 132) ("start", "end") 1
               "data" true "manifest.csv" None) data w).
  { intros w.
    apply (main_raw_parsed (default_args input output)
             data data 240 264 120 132 [] [] ("start", "end") w).
    - reflexivity.
    - unfold parse_ints. simpl. now rewrite H240, H264.
    - unfold parse_ints. simpl. now rewrite H120, H132.
    - reflexivity. }
  split; [exact Heq|]. rewrite Heq.
  eapply List.Forall_impl; [|apply padded_window_fits; simpl; lia].
  intros t (_ & Hx & _ & _ & Hy & _ & Hr & Hc). simpl in *. lia.
Qed.


(** ** X18: tile files and the manifest file are apart *)

Lemma string_app_assoc (s1 s2 s3 : string) :
  (s1 +:+ s2) +:+ s3 = s1 +:+ s2 +:+ s3.
Proof.
  induction s1 as [|c s1 IH]; [reflexivity|].
  change (String c ((s1 +:+ s2) +:+ s3) = String c (s1 +:+ s2 +:+ s3)).
  now rewrite IH.
Qed.

Lemma ends_with_app (p suf : string) : ends_with suf (p +:+ suf) = true.
Proof.
  induction p as [|c p IH]; simpl.
  - destruct suf; simpl; [reflexivity|].
    now rewrite Ascii.eqb_refl, String.eqb_refl.
  - rewrite IH. apply orb_true_r.
Qed.

Lemma ends_with_slash_has (o c : string) :
  ends_with_slash o = true -> has_char "/" (o +:+ c) = true.
Proof.
  induction o as [|x o IH]; [discriminate|].
  destruct o as [|y o].
  - simpl. now intros ->.
  - intros H. change (has_char "/" (String x (String y o +:+ c)) = true).
    cbn [has_char]. rewrite IH; [apply orb_true_r|exact H].
Qed.

Lemma ends_with_slash_snoc (o : string) : ends_with_slash (o +:+ "/") = true.
Proof.
  induction o as [|x o IH]; [reflexivity|].
  change (ends_with_slash (String x (o +:+ "/")) = true).
  destruct (o +:+ "/") eqn:E; [destruct o; discriminate|exact IH].
Qed.

(** A string that ends in [".png"], cut behind a directory part, ends in
    [".png"] behind the cut. *)
Lemma png_after_dir (O X c : string) :
  O = "" \/ ends_with_slash O = true ->
  X +:+ ".png" = O +:+ c -> ends_with ".png" c = true.
Proof.
  revert X. induction O as [|o O IH]; intros X HO H.
  - change (X +:+ ".png" = c) in H. subst c. apply ends_with_app.
  - destruct HO as [HO|HO]; [discriminate|].
    assert (HO' : O = "" \/ ends_with_slash O = true).
    { destruct O; [left; reflexivity|right; exact HO]. }
    change (X +:+ ".png" = String o (O +:+ c)) in H.
    destruct X as [|x X]; cbn in H; injection H as <- H.
    + exfalso. destruct HO' as [->|HO']; [discriminate|].
      apply (ends_with_slash_has O c) in HO'. rewrite <- H in HO'. discriminate.
    + now apply (IH X).
Qed.

Lemma tile_name_png (p : string) (z xS xE yS yE : Z) :
  exists Y, tile_name p z xS xE yS yE = Y +:+ ".png".
Proof.
  exists (p +:+ "_" +:+ pretty z +:+ "_" +:+ pretty xS +:+ "x" +:+ pretty xE
            +:+ "x" +:+ pretty yS +:+ "x" +:+ pretty yE).
  unfold tile_name. rewrite !string_app_assoc. reflexivity.
Qed.

Lemma name_not_manifest (out n c : string) :
  ends_with ".png" c = false ->
  (exists Y, n = Y +:+ ".png") ->
  path_join out n <> path_join out c.
Proof.
  intros Hc (Y & ->) Heq.
  assert (Hno : forall X, c <> X +:+ ".png").
  { intros X ->. rewrite ends_with_app in Hc. discriminate. }
  assert (Hdir : forall O X, O = "" \/ ends_with_slash O = true ->
                             X +:+ ".png" <> O +:+ c).
  { intros O X HO H. apply png_after_dir in H; [|exact HO]. congruence. }
  unfold path_join in Heq.
  destruct (starts_with_slash c).
  - destruct (starts_with_slash (Y +:+ ".png")); [now apply (Hno Y)|].
    destruct (_ || _).
    + rewrite <- string_app_assoc in Heq. now apply (Hno (out +:+ Y)).
    + rewrite <- !string_app_assoc in Heq. now apply (Hno ((out +:+ "/") +:+ Y)).
  - destruct (starts_with_slash (Y +:+ ".png")).
    + destruct (String.eqb_spec out "") as [->|Hne]; simpl in Heq.
      * now apply (Hno Y).
      * destruct (ends_with_slash out) eqn:Es.
        -- now apply (Hdir out Y); [right|].
        -- rewrite <- string_app_assoc in Heq.
           apply (Hdir (out +:+ "/") Y); [right; apply ends_with_slash_snoc|exact Heq].
    + destruct (_ || _); apply (inj (String.app out)) in Heq.
      * now apply (Hno Y).
      * simpl in Heq. injection Heq as Heq. now apply (Hno Y).
Qed.

(** X18.  When the manifest's name does not end in [".png"], no tile is
    written to the manifest's path, whatever the output directory and the
    prefix are.  So after a run the manifest file is the one the flush
    left: the earlier lines, or the header, followed by one row per tile
    of the run when the run ended normally with [fillcsv] set, and the
    file as it was before the run otherwise. *)
Theorem X18_tiles_never_replace_the_manifest (a : args) (data : ndarray3 F)
    (files : gmap string (list line)) :
  ends_with ".png" (csv_filename a) = false ->
  let w' := (main a data (start_world files)).1 in
  (forall t, In t (sink_log w') -> tile_path a t <> csv_path a) /\
  fs w' !! csv_path a =
    if is_ok (main a data (start_world files)).2 && fillcsv a
    then Some (match files !! csv_path a with
               | Some old => old ++ manifest_rows a (sink_log w')
               | None => CsvRow header_row :: manifest_rows a (sink_log w')
               end)
    else files !! csv_path a.
Proof.
  intros Hc. cbv zeta.
  assert (Hno : forall t, In t (sink_log (main a data (start_world files)).1) ->
                          tile_path a t <> csv_path a).
  { intros t Ht. apply main_tiles in Ht.
    destruct Ht as (zS & zE & d1 & ds & _ & _ & _ & _ & _ & Hn & _).
    unfold tile_path, csv_path. apply name_not_manifest; [exact Hc|].
    rewrite Hn. apply tile_name_png. }
  split; [exact Hno|].
  destruct (main_world a data files) as [_ Hfs]. cbv zeta in Hfs.
  assert (Hold : save_all a files (sink_log (main a data (start_world files)).1)
                   !! csv_path a = files !! csv_path a).
  { rewrite lookup_save_all.
    apply last_saved_None in Hno. now rewrite Hno. }
  rewrite Hfs. destruct (_ && _).
  - rewrite lookup_insert_eq, Hold. reflexivity.
  - exact Hold.
Qed.


(** X19.  With padding on, a negative overlap along either axis, or a
    volume without slices, ends the run with an exception before the
    loops start: no tile is rendered, no record is buffered and no file
    changes. *)
Theorem X19_padding_refuses (a : args) (data : ndarray3 F) (w : world) :
  pad a = true ->
  (overlap a).1 < 0 \/ (overlap a).2 < 0 \/ shape0 data = 0%nat ->
  exists e, main a data w = (w, Raise e).
Proof.
  intros Hpad Hbad.
  destruct (main_inv a data w) as [H|(zS & zE & data' & _ & _ & Hd & _)]; [exact H|].
  rewrite Hpad in Hd. apply pad_data_inv in Hd. lia.
Qed.

Lemma no_collision_spec (a : args) (ts : list tile) :
  no_collision a ts = true ->
  forall t, In t ts -> tile_path a t <> csv_path a.
Proof.
  unfold no_collision. rewrite forallb_forall. intros H t Ht Heq.
  specialize (H t Ht). rewrite Heq, String.eqb_refl in H. discriminate.
Qed.

End Model.

(** * The model on concrete inputs *)

Local Abbreviation ref_main :=
  (main Q Ref.of_Z Ref.to_int Ref.np_median Ref.img_as_ubyte Ref.py_int).
Local Abbreviation ref_tile_loop := (tile_loop Q Ref.img_as_ubyte).
Local Abbreviation ref_pad_data := (pad_data Q Ref.of_Z Ref.to_int Ref.np_median).
Local Abbreviation no_files := (start_world Q ∅).

(** ** C9: a clamped duplicate is emitted again *)

(** C9.  For an axis of extent 100, window 40 and overlap 10 the raw
    starts 0, 30, 60, 90 clamp to 0, 30, 60, 60.  A run on a volume of one
    slice, 40 rows and 100 columns renders the window at 60 twice, with
    the same coordinates and the same file name, and buffers the same
    manifest record twice; the manifest holds both rows. *)
Theorem C9_duplicate_window_emitted :
  let a := Ref.example_args false (40, 40) (10, 0) ("start", "end") 1 in
  let r := ref_main a (Ref.ramp 1 40 100) no_files in
  py_range 0 100 (40 - 10) = Ok [0; 30; 60; 90] /\
  axis_windows 100 40 10 = Ok [(0, 40); (30, 70); (60, 100); (60, 100)] /\
  r.2 = Ok tt /\
  map (t_descr Q) (sink_log Q r.1) =
    [Descr 0 0 40 0 40; Descr 0 30 70 0 40;
     Descr 0 60 100 0 40; Descr 0 60 100 0 40] /\
  map (t_name Q) (sink_log Q r.1) =
    ["data_0_0x40x0x40.png"; "data_0_30x70x0x40.png";
     "data_0_60x100x0x40.png"; "data_0_60x100x0x40.png"] /\
  csv_list Q r.1 !! 2%nat = csv_list Q r.1 !! 3%nat /\
  csv_list Q r.1 !! 3%nat =
    Some [CStr "data_0_60x100x0x40.png"; CStr "data"; CInt 0; CInt 60; CInt 100;
          CInt 0; CInt 40; CStr "vol.h5"; CNone] /\
  fs Q r.1 !! "out/manifest.csv" =
    Some (map (CsvRow Q) (to_csv true (csv_list Q r.1))) /\
  length (csv_list Q r.1) = 4%nat.
Proof. vm_compute. repeat split. Qed.

(** ** C1 on a volume of 10 rows and 10 columns, window 4x4, overlap 1x1 *)

Lemma C1_witness :
  let a := Ref.example_args false (4, 4) (1, 1) ("start", "end") 1 in
  let log := sink_log Q (ref_tile_loop a (Ref.ramp 1 10 10) 0 1 no_files).1 in
  4 <= Z.of_nat 10 /\
  length log = 16%nat /\
  Forall (fun t =>
    d_xE (t_descr Q t) - d_xS (t_descr Q t) = 4 /\
    d_yE (t_descr Q t) - d_yS (t_descr Q t) = 4 /\
    0 <= d_xS (t_descr Q t) /\ d_xE (t_descr Q t) <= 10 /\
    0 <= d_yS (t_descr Q t) /\ d_yE (t_descr Q t) <= 10 /\
    Z.of_nat (nd_cols Q (t_roi Q t)) = 4 /\
    Z.of_nat (nd_rows Q (t_roi Q t)) = 4) log.
Proof.
  cbv zeta. split; [simpl; lia|]. split; [vm_compute; reflexivity|].
  eapply List.Forall_impl;
    [|apply (C1_tile_has_window_size Q Ref.img_as_ubyte
               (Ref.example_args false (4, 4) (1, 1) ("start", "end") 1)
               (Ref.ramp 1 10 10) 0 1 ∅); simpl; lia].
  intros t (H1 & H2 & _ & _ & H3 & H4 & H5 & H6 & H7 & H8). simpl in *.
  repeat split; try assumption; [apply H7|apply H8]; lia.
Defined.

(** ** C2: the claim as stated fails for a negative overlap *)

Lemma C2_counterexample :
  let a := Ref.example_args false (5, 5) (-5, -5) ("start", "end") 1 in
  let r := ref_main a (Ref.ramp 1 5 20) no_files in
  5 <= Z.of_nat 20 /\ -5 < 5 /\
  axis_windows 20 5 (-5) = Ok [(0, 5); (10, 15)] /\
  ~ (exists win, In win [(0, 5); (10, 15)] /\ covers win 5) /\
  (List.last [(0, 5); (10, 15)] (0, 0)).2 <> 20 /\
  (* the same windows in a run without padding *)
  r.2 = Ok tt /\
  map (t_descr Q) (sink_log Q r.1) = [Descr 0 0 5 0 5; Descr 0 10 15 0 5].
Proof.
  cbv zeta. split; [simpl; lia|]. split; [lia|]. split; [reflexivity|].
  split; [|split; [|split]].
  - intros (win & [<-|[<-|[]]] & Hc); unfold covers in Hc; simpl in Hc; lia.
  - simpl. lia.
  - vm_compute. reflexivity.
  - vm_compute. reflexivity.
Qed.

Lemma C2_witness :
  0 <= 10 /\ 10 < 40 /\ 40 <= Z.of_nat 100 /\
  exists init lastw,
    axis_windows 100 40 10 = Ok (init ++ [lastw]) /\
    lastw.2 = Z.of_nat 100 /\
    (forall win, In win (init ++ [lastw]) ->
       0 <= win.1 /\ win.2 <= Z.of_nat 100) /\
    (forall p, 0 <= p < Z.of_nat 100 ->
       exists win, In win (init ++ [lastw]) /\ covers win p).
Proof.
  split; [lia|]. split; [lia|]. split; [simpl; lia|].
  apply (C2_axis_covered 100 40 10); simpl; lia.
Defined.

(** ** C3: a window larger than the volume is planned and rendered *)

Lemma C3_counterexample :
  let a := Ref.example_args false (40, 40) (10, 10) ("start", "end") 1 in
  let r := ref_main a (Ref.ramp 1 10 10) no_files in
  Z.of_nat (shape2 Q (Ref.ramp 1 10 10)) < (window a).1 /\
  r.2 = Ok tt /\
  map (t_descr Q) (sink_log Q r.1) = [Descr 0 (-30) 10 (-30) 10] /\
  map (t_name Q) (sink_log Q r.1) = ["data_0_-30x10x-30x10.png"] /\
  map (fun t => (nd_rows Q (t_img Q t), nd_cols Q (t_img Q t))) (sink_log Q r.1)
    = [(10%nat, 10%nat)] /\
  plan 10 10 (40, 40) (10, 10) 0 1 1 = Ok [Descr 0 (-30) 10 (-30) 10].
Proof. vm_compute. repeat split. Qed.

Lemma C3_witness :
  let a := Ref.example_args false (40, 40) (10, 10) ("start", "end") 1 in
  let data := Ref.ramp 1 10 10 in
  zskip a <> 0 /\
  0 < (window a).1 - (overlap a).1 /\
  0 < (window a).2 - (overlap a).2 /\
  exists ds,
    plan_of Q a data 0 1 = Ok ds /\
    (forall w, ref_tile_loop a data 0 1 w = for_ Q ds (render Q Ref.img_as_ubyte a data) w) /\
    length ds = 1%nat /\
    forall d, In d ds ->
      d_xS d = -30 /\ d_xE d = 10 /\ d_yS d = -30 /\ d_yE d = 10.
Proof.
  cbv zeta. split; [simpl; lia|]. split; [simpl; lia|]. split; [simpl; lia|].
  destruct (C3_oversized_window_is_planned Q Ref.img_as_ubyte
              (Ref.example_args false (40, 40) (10, 10) ("start", "end") 1)
              (Ref.ramp 1 10 10) 0 1)
    as (ds & Hp & Hrun & Hlen & Hd); [simpl; lia..|].
  exists ds. split; [exact Hp|]. split; [exact Hrun|]. split; [exact Hlen|].
  intros d Hin. destruct (Hd d Hin) as [Hx Hy].
  destruct Hx as [-> ->]; [simpl; lia|]. destruct Hy as [-> ->]; [simpl; lia|].
  simpl. auto.
Defined.

(** ** C4: a negative stride raises nothing and renders nothing *)

Lemma C4_counterexample :
  let a := Ref.example_args false (4, 4) (6, 6) ("start", "end") 1 in
  let r := ref_main a (Ref.ramp 1 12 12) no_files in
  (window a).1 - (overlap a).1 <= 0 /\
  (window a).2 - (overlap a).2 <= 0 /\
  r.2 = Ok tt /\
  length (sink_log Q r.1) = 0%nat /\
  plan 12 12 (4, 4) (6, 6) 0 1 1 = Ok [] /\
  fs Q r.1 !! "out/manifest.csv" = Some [CsvRow Q header_row].
Proof. vm_compute. repeat split; discriminate. Qed.

Lemma C4_witness :
  let data := Ref.ramp 1 12 12 in
  let zero_y := Ref.example_args false (4, 4) (1, 4) ("start", "end") 1 in
  let zero_x := Ref.example_args false (4, 4) (4, 1) ("start", "end") 1 in
  let neg_y := Ref.example_args false (4, 4) (1, 6) ("start", "end") 1 in
  let neg_x := Ref.example_args false (4, 4) (6, 1) ("start", "end") 1 in
  py_range 0 1 1 = Ok [0] /\
  ref_tile_loop zero_y data 0 1 no_files = (no_files, Raise ValueError) /\
  ref_tile_loop zero_x data 0 1 no_files = (no_files, Raise ValueError) /\
  ref_tile_loop neg_y data 0 1 no_files = (no_files, Ok tt) /\
  ref_tile_loop neg_x data 0 1 no_files = (no_files, Ok tt).
Proof.
  cbv zeta. split; [reflexivity|]. split; [|split; [|split]].
  - destruct (C4_nonpositive_stride Q Ref.img_as_ubyte
                (Ref.example_args false (4, 4) (1, 4) ("start", "end") 1)
                (Ref.ramp 1 12 12) 0 1 no_files 0 []) as (H & _);
      [reflexivity|]. apply H. reflexivity.
  - destruct (C4_nonpositive_stride Q Ref.img_as_ubyte
                (Ref.example_args false (4, 4) (4, 1) ("start", "end") 1)
                (Ref.ramp 1 12 12) 0 1 no_files 0 []) as (_ & H & _);
      [reflexivity|]. apply H; [simpl; lia|simpl; lia|reflexivity].
  - destruct (C4_nonpositive_stride Q Ref.img_as_ubyte
                (Ref.example_args false (4, 4) (1, 6) ("start", "end") 1)
                (Ref.ramp 1 12 12) 0 1 no_files 0 []) as (_ & _ & H & _);
      [reflexivity|]. apply H. simpl; lia.
  - destruct (C4_nonpositive_stride Q Ref.img_as_ubyte
                (Ref.example_args false (4, 4) (6, 1) ("start", "end") 1)
                (Ref.ramp 1 12 12) 0 1 no_files 0 []) as (_ & _ & _ & H);
      [reflexivity|]. apply H; simpl; lia.
Defined.

(** ** C5: where padding does not return the claimed volume *)

Lemma C5_counterexample :
  (* no slice: the median of slice 0 cannot be taken *)
  ref_pad_data (Ref.ramp 0 4 4) (1, 1) = Raise IndexError /\
  (* a negative overlap is refused *)
  ref_pad_data (Ref.ramp 1 4 4) (-1, -1) = Raise ValueError /\
  (* an integer slice 0 with the pixels 0 and 1: the median is 1/2, the
     border is 0 *)
  Ref.np_median (nd_plane Q (Ref.ramp 1 1 2) 0) = (1 # 2)%Q /\
  match ref_pad_data (Ref.ramp 1 1 2) (1, 1) with
  | Ok (FloatArr3 p) =>
      (dim0 p, dim1 p, dim2 p) = (1%nat, 3%nat, 4%nat) /\
      get3 p 0 1 1 = (0 # 1)%Q /\ get3 p 0 1 2 = (1 # 1)%Q /\
      get3 p 0 0 0 = (0 # 1)%Q /\ get3 p 0 2 3 = (0 # 1)%Q
  | _ => False
  end /\
  ~ ((0 # 1) == (1 # 2))%Q.
Proof. vm_compute. repeat split. discriminate. Qed.

Lemma C5_witness :
  let data := Ref.framp 1 2 2 in
  let ov := (1, 1) in
  (0 < shape0 Q data)%nat /\ 0 <= ov.1 /\ 0 <= ov.2 /\
  exists (p : arr3 Q) (fill : Q),
    ref_pad_data data ov = Ok (FloatArr3 p) /\
    dim0 p = shape0 Q data /\
    Z.of_nat (dim1 p) = Z.of_nat (shape1 Q data) + 2 * ov.2 /\
    Z.of_nat (dim2 p) = Z.of_nat (shape2 Q data) + 2 * ov.1 /\
    (forall i r c, (i < dim0 p)%nat -> (r < dim1 p)%nat -> (c < dim2 p)%nat ->
       get3 p i r c =
       if in_core (Z.to_nat ov.2) (Z.to_nat ov.1) (shape1 Q data) (shape2 Q data) r c
       then as_float Q Ref.of_Z data i (r - Z.to_nat ov.2) (c - Z.to_nat ov.1)
       else fill) /\
    (is_float3 Q data = true \/
     Ref.of_Z (Ref.to_int (Ref.np_median (nd_plane Q data 0)))
       = Ref.np_median (nd_plane Q data 0) ->
     fill = Ref.np_median (nd_plane Q data 0)).
Proof.
  cbv zeta. split; [simpl; lia|]. split; [simpl; lia|]. split; [simpl; lia|].
  apply (C5_padding Q Ref.of_Z Ref.to_int Ref.np_median (Ref.framp 1 2 2) (1, 1));
    simpl; lia.
Defined.

(** ** C6 on a padded run over two float slices *)

Lemma C6_witness :
  let a := Ref.example_args true (4, 4) (1, 1) ("start", "end") 1 in
  let data := Ref.framp 2 6 6 in
  1 <= zskip a /\
  length (sink_log Q (ref_main a data no_files).1) = 18%nat /\
  (exists zs yw xw rest,
     plan_list zs yw xw =
       map (t_descr Q) (sink_log Q (ref_main a data no_files).1) ++ rest /\
     (is_ok (ref_main a data no_files).2 = true -> rest = []) /\
     StronglySorted Z.lt zs /\
     StronglySorted (fun p q : Z * Z => p.1 <= q.1) yw /\
     StronglySorted (fun p q : Z * Z => p.1 <= q.1) xw) /\
  (forall files',
     sink_log Q (ref_main a data (start_world Q files')).1 =
     sink_log Q (ref_main a data no_files).1).
Proof.
  cbv zeta. split; [simpl; lia|]. split; [vm_compute; reflexivity|].
  apply (C6_enumeration_order Q Ref.of_Z Ref.to_int Ref.np_median
           Ref.img_as_ubyte Ref.py_int
           (Ref.example_args true (4, 4) (1, 1) ("start", "end") 1)
           (Ref.framp 2 6 6) ∅).
  simpl; lia.
Defined.

(** ** C7 on the selection 1-8 with skip 3, and on skip 0 *)

Lemma C7_witness :
  let a := Ref.example_args false (2, 2) (1, 1) ("1", "8") 3 in
  let a0 := Ref.example_args false (2, 2) (1, 1) ("1", "8") 0 in
  let data := Ref.ramp 10 2 2 in
  visited_slices Q Ref.py_int a data = Ok [1; 4; 7] /\
  (exists zs,
     visited_slices Q Ref.py_int a data = Ok zs /\
     (forall z, In z zs <->
        (exists i, 0 <= i /\ z = 1 + i * zskip a) /\ 1 <= z < 8) /\
     Forall (fun t => In (d_z (t_descr Q t)) zs)
            (sink_log Q (ref_main a data no_files).1) /\
     (is_ok (ref_main a data no_files).2 = true ->
      exists yw xw,
        map (t_descr Q) (sink_log Q (ref_main a data no_files).1)
        = plan_list zs yw xw)) /\
  is_ok (ref_main a data no_files).2 = true /\
  map (fun t => d_z (t_descr Q t)) (sink_log Q (ref_main a data no_files).1)
    = [1; 1; 1; 1; 4; 4; 4; 4; 7; 7; 7; 7] /\
  (exists e, ref_main a0 data no_files = (no_files, Raise e)).
Proof.
  cbv zeta. split; [reflexivity|]. split.
  - destruct (C7_slice_selection Q Ref.of_Z Ref.to_int Ref.np_median
                Ref.img_as_ubyte Ref.py_int
                (Ref.example_args false (2, 2) (1, 1) ("1", "8") 3)
                (Ref.ramp 10 2 2) ∅) as (_ & _ & H & _).
    apply (H 1 8); [simpl; lia|reflexivity|reflexivity].
  - split; [vm_compute; reflexivity|]. split; [vm_compute; reflexivity|].
    destruct (C7_slice_selection Q Ref.of_Z Ref.to_int Ref.np_median
                Ref.img_as_ubyte Ref.py_int
                (Ref.example_args false (2, 2) (1, 1) ("1", "8") 0)
                (Ref.ramp 10 2 2) ∅) as (_ & _ & _ & H).
    apply H. reflexivity.
Defined.

(** ** C8 on a buffer of two records, without and with a manifest file *)

Lemma C8_witness :
  let a := Ref.example_args false (2, 2) (1, 1) ("start", "end") 1 in
  let recs := [[CStr "data_0_0x2x0x2.png"]; [CStr "data_0_1x3x0x2.png"]] in
  let fresh := World Q ∅ recs [] in
  let existing :=
    World Q {[ "out/manifest.csv" := [CsvRow Q header_row; CsvRow Q [CInt 0]] ]}
          recs [] in
  fs Q (flush Q a fresh).1 !! "out/manifest.csv" =
    Some [CsvRow Q header_row;
          CsvRow Q [CInt 0; CStr "data_0_0x2x0x2.png"];
          CsvRow Q [CInt 1; CStr "data_0_1x3x0x2.png"]] /\
  fs Q (flush Q a existing).1 !! "out/manifest.csv" =
    Some [CsvRow Q header_row; CsvRow Q [CInt 0];
          CsvRow Q [CInt 0; CStr "data_0_0x2x0x2.png"];
          CsvRow Q [CInt 1; CStr "data_0_1x3x0x2.png"]].
Proof.
  cbv zeta. split.
  - destruct (C8_manifest_flush Q
                (Ref.example_args false (2, 2) (1, 1) ("start", "end") 1)
                (World Q ∅ [[CStr "data_0_0x2x0x2.png"]; [CStr "data_0_1x3x0x2.png"]] []))
      as (H & _).
    apply H. reflexivity.
  - destruct (C8_manifest_flush Q
                (Ref.example_args false (2, 2) (1, 1) ("start", "end") 1)
                (World Q {[ "out/manifest.csv" :=
                            [CsvRow Q header_row; CsvRow Q [CInt 0]] ]}
                   [[CStr "data_0_0x2x0x2.png"]; [CStr "data_0_1x3x0x2.png"]] []))
      as (_ & H & _).
    apply (H [CsvRow Q header_row; CsvRow Q [CInt 0]]). reflexivity.
Defined.

(** ** C10 on an integer volume of zeros and ones with padding enabled *)

Lemma C10_witness :
  let a := Ref.example_args true (3, 3) (1, 1) ("start", "end") 1 in
  let data := Ref.checker 1 4 4 in
  pad a = true /\
  is_float3 Q data = false /\
  length (sink_log Q (ref_main a data no_files).1) = 9%nat /\
  (forall d', ref_pad_data data (overlap a) = Ok d' -> is_float3 Q d' = true) /\
  Forall (fun t =>
    is_float2 Q (t_roi Q t) = true /\
    exists r u, t_roi Q t = FloatArr2 r /\ Ref.img_as_ubyte r = Ok u /\
                t_img Q t = IntArr2 u)
  (sink_log Q (ref_main a data no_files).1).
Proof.
  cbv zeta. split; [reflexivity|]. split; [reflexivity|].
  split; [vm_compute; reflexivity|].
  apply (C10_padded_tiles_are_converted Q Ref.of_Z Ref.to_int Ref.np_median
           Ref.img_as_ubyte Ref.py_int
           (Ref.example_args true (3, 3) (1, 1) ("start", "end") 1)
           (Ref.checker 1 4 4) ∅).
  reflexivity.
Defined.

(** With padding enabled an integer volume with a pixel above 1 is
    refused by the conversion of the first tile: nothing is rendered. *)
Example padded_integer_ramp_is_refused :
  let a := Ref.example_args true (3, 3) (1, 1) ("start", "end") 1 in
  let r := ref_main a (Ref.ramp 1 4 4) no_files in
  r.2 = Raise ValueError /\ length (sink_log Q r.1) = 0%nat.
Proof. vm_compute. split; reflexivity. Qed.

(** * The further properties on concrete inputs *)

Local Abbreviation ref_main_raw :=
  (main_raw Q Ref.of_Z Ref.to_int Ref.np_median Ref.img_as_ubyte Ref.py_int
            RefAxes.np_transpose).

(** ** X1-X5 on a volume of 6 rows and 6 columns, window 4x4, overlap 1x1 *)

Lemma X1_witness :
  let a := Ref.example_args false (4, 4) (1, 1) ("start", "end") 1 in
  let w' := (ref_main a (Ref.ramp 1 6 6) no_files).1 in
  fillcsv a = true /\
  length (sink_log Q w') = 4%nat /\
  length (csv_list Q w') = length (sink_log Q w') /\
  forall i t, sink_log Q w' !! i = Some t ->
    csv_list Q w' !! i =
    Some [CStr (t_name Q t); CStr (prefix a); CInt (d_z (t_descr Q t));
          CInt (d_xS (t_descr Q t)); CInt (d_xE (t_descr Q t));
          CInt (d_yS (t_descr Q t)); CInt (d_yE (t_descr Q t));
          CStr (input_file_path a); transpose_cell (transpose a)].
Proof.
  cbv zeta. split; [reflexivity|]. split; [vm_compute; reflexivity|].
  destruct (X1_one_record_per_tile Q Ref.of_Z Ref.to_int Ref.np_median
              Ref.img_as_ubyte Ref.py_int
              (Ref.example_args false (4, 4) (1, 1) ("start", "end") 1)
              (Ref.ramp 1 6 6) ∅) as [H _].
  apply H. reflexivity.
Defined.

Lemma X2_witness :
  let a := Ref.example_args false (4, 4) (1, 1) ("start", "end") 1 in
  let w' := (ref_main a (Ref.ramp 1 6 6) no_files).1 in
  "out/data_0_2x6x0x4.png" <> csv_path a /\
  "out/other.png" <> csv_path a /\
  (exists t, In t (sink_log Q w') /\
     tile_path Q a t = "out/data_0_2x6x0x4.png" /\
     fs Q w' !! "out/data_0_2x6x0x4.png" = Some [PngData Q (t_img Q t)]) /\
  fs Q w' !! "out/other.png" = None.
Proof.
  cbv zeta.
  assert (H1 : "out/data_0_2x6x0x4.png"
               <> csv_path (Ref.example_args false (4, 4) (1, 1) ("start", "end") 1))
    by (vm_compute; discriminate).
  assert (H2 : "out/other.png"
               <> csv_path (Ref.example_args false (4, 4) (1, 1) ("start", "end") 1))
    by (vm_compute; discriminate).
  split; [exact H1|]. split; [exact H2|]. split.
  - destruct (X2_tile_files Q Ref.of_Z Ref.to_int Ref.np_median
                Ref.img_as_ubyte Ref.py_int
                (Ref.example_args false (4, 4) (1, 1) ("start", "end") 1)
                (Ref.ramp 1 6 6) ∅ "out/data_0_2x6x0x4.png" H1) as [H _].
    destruct (last_saved Q (Ref.example_args false (4, 4) (1, 1) ("start", "end") 1)
                (sink_log Q (ref_main
                   (Ref.example_args false (4, 4) (1, 1) ("start", "end") 1)
                   (Ref.ramp 1 6 6) no_files).1)
                "out/data_0_2x6x0x4.png") as [t|] eqn:E.
    + exists t. apply H. reflexivity.
    + exfalso. vm_compute in E. discriminate E.
  - destruct (X2_tile_files Q Ref.of_Z Ref.to_int Ref.np_median
                Ref.img_as_ubyte Ref.py_int
                (Ref.example_args false (4, 4) (1, 1) ("start", "end") 1)
                (Ref.ramp 1 6 6) ∅ "out/other.png" H2) as [_ H].
    rewrite H; [reflexivity|].
    apply last_saved_None. vm_compute. reflexivity.
Defined.

Lemma X3_witness :
  let a := Ref.example_args false (4, 4) (1, 1) ("start", "end") 1 in
  let w' := (ref_main a (Ref.ramp 1 6 6) no_files).1 in
  (ref_main a (Ref.ramp 1 6 6) no_files).2 = Ok tt /\
  fillcsv a = true /\
  (∅ : gmap string (list (line Q))) !! csv_path a = None /\
  (forall t, In t (sink_log Q w') -> tile_path Q a t <> csv_path a) /\
  exists rows,
    fs Q w' !! csv_path a = Some (CsvRow Q header_row :: rows) /\
    length rows = length (sink_log Q w') /\
    forall i t, sink_log Q w' !! i = Some t ->
      rows !! i = Some (CsvRow Q (CInt (Z.of_nat i) :: record_of Q a t)).
Proof.
  cbv zeta.
  assert (Hno : forall t,
    In t (sink_log Q (ref_main
            (Ref.example_args false (4, 4) (1, 1) ("start", "end") 1)
            (Ref.ramp 1 6 6) no_files).1) ->
    tile_path Q (Ref.example_args false (4, 4) (1, 1) ("start", "end") 1) t
    <> csv_path (Ref.example_args false (4, 4) (1, 1) ("start", "end") 1)).
  { apply no_collision_spec. vm_compute. reflexivity. }
  split; [vm_compute; reflexivity|]. split; [reflexivity|].
  split; [reflexivity|]. split; [exact Hno|].
  apply (X3_fresh_manifest Q Ref.of_Z Ref.to_int Ref.np_median
           Ref.img_as_ubyte Ref.py_int
           (Ref.example_args false (4, 4) (1, 1) ("start", "end") 1)
           (Ref.ramp 1 6 6) ∅);
    [vm_compute; reflexivity|reflexivity|reflexivity|exact Hno].
Defined.

Lemma X4_witness :
  let a := Ref.example_args false (4, 4) (1, 1) ("start", "end") 0 in
  let w' := (ref_main a (Ref.ramp 1 6 6) no_files).1 in
  is_ok (ref_main a (Ref.ramp 1 6 6) no_files).2 = false /\
  (forall t, In t (sink_log Q w') -> tile_path Q a t <> csv_path a) /\
  fs Q w' !! csv_path a = None.
Proof.
  cbv zeta.
  assert (Hno : forall t,
    In t (sink_log Q (ref_main
            (Ref.example_args false (4, 4) (1, 1) ("start", "end") 0)
            (Ref.ramp 1 6 6) no_files).1) ->
    tile_path Q (Ref.example_args false (4, 4) (1, 1) ("start", "end") 0) t
    <> csv_path (Ref.example_args false (4, 4) (1, 1) ("start", "end") 0)).
  { apply no_collision_spec. vm_compute. reflexivity. }
  split; [vm_compute; reflexivity|]. split; [exact Hno|].
  rewrite (X4_no_manifest Q Ref.of_Z Ref.to_int Ref.np_median
             Ref.img_as_ubyte Ref.py_int
             (Ref.example_args false (4, 4) (1, 1) ("start", "end") 0)
             (Ref.ramp 1 6 6) ∅);
    [reflexivity|left; vm_compute; reflexivity|exact Hno].
Defined.


(** ** X6-X10 on concrete volumes *)

Lemma X6_witness :
  let a := Ref.example_args false (4, 4) (1, 1) ("start", "end") 1 in
  let data := Ref.ramp 1 6 6 in
  (window a).1 <= Z.of_nat (shape2 Q data) /\
  (window a).2 <= Z.of_nat (shape1 Q data) /\
  Forall (fun t =>
    (exists i, py_index (shape0 Q data) (d_z (t_descr Q t)) = Ok i /\
       forall r c,
         pixel2 Q (t_roi Q t) r c =
         pixel3 Q data i (Z.to_nat (d_yS (t_descr Q t)) + r)
                         (Z.to_nat (d_xS (t_descr Q t)) + c)) /\
    (is_float3 Q data = false -> t_img Q t = t_roi Q t))
  (sink_log Q (ref_tile_loop a data 0 1 no_files).1).
Proof.
  cbv zeta. split; [simpl; lia|]. split; [simpl; lia|].
  apply (X6_tile_region_verbatim Q Ref.img_as_ubyte
           (Ref.example_args false (4, 4) (1, 1) ("start", "end") 1)
           (Ref.ramp 1 6 6) 0 1 ∅); simpl; lia.
Defined.

Lemma X7_witness :
  let a := Ref.example_args true (4, 4) (1, 1) ("start", "end") 1 in
  let data := Ref.checker 1 4 4 in
  pad a = true /\
  (window a).1 <= Z.of_nat (shape2 Q data) + 2 * (overlap a).1 /\
  (window a).2 <= Z.of_nat (shape1 Q data) + 2 * (overlap a).2 /\
  length (sink_log Q (ref_main a data no_files).1) = 4%nat /\
  Forall (fun t =>
    exists i x,
      py_index (shape0 Q data) (d_z (t_descr Q t)) = Ok i /\
      t_roi Q t = FloatArr2 x /\
      forall r c,
        get2 x r c =
        if in_core (Z.to_nat (overlap a).2) (Z.to_nat (overlap a).1)
                   (shape1 Q data) (shape2 Q data)
                   (Z.to_nat (d_yS (t_descr Q t)) + r)
                   (Z.to_nat (d_xS (t_descr Q t)) + c)
        then as_float Q Ref.of_Z data i
               (Z.to_nat (d_yS (t_descr Q t)) + r - Z.to_nat (overlap a).2)
               (Z.to_nat (d_xS (t_descr Q t)) + c - Z.to_nat (overlap a).1)
        else border_value Q Ref.of_Z Ref.to_int Ref.np_median data)
  (sink_log Q (ref_main a data no_files).1).
Proof.
  cbv zeta. split; [reflexivity|]. split; [simpl; lia|]. split; [simpl; lia|].
  split; [vm_compute; reflexivity|].
  apply (X7_padded_tile_pixels Q Ref.of_Z Ref.to_int Ref.np_median
           Ref.img_as_ubyte Ref.py_int
           (Ref.example_args true (4, 4) (1, 1) ("start", "end") 1)
           (Ref.checker 1 4 4) ∅); [reflexivity|simpl; lia|simpl; lia].
Defined.

Lemma X8_witness :
  let a := Ref.example_args false (4, 4) (1, 1) ("start", "end") 1 in
  let data := Ref.ramp 1 6 6 in
  (ref_tile_loop a data 0 1 no_files).2 = Ok tt /\
  py_range 0 1 (zskip a) = Ok [0] /\
  exists t i,
    In t (sink_log Q (ref_tile_loop a data 0 1 no_files).1) /\
    d_z (t_descr Q t) = 0 /\
    d_yS (t_descr Q t) <= 5 < d_yE (t_descr Q t) /\
    d_xS (t_descr Q t) <= 3 < d_xE (t_descr Q t) /\
    py_index (shape0 Q data) 0 = Ok i /\
    pixel2 Q (t_roi Q t) (Z.to_nat (5 - d_yS (t_descr Q t)))
                         (Z.to_nat (3 - d_xS (t_descr Q t)))
    = pixel3 Q data i (Z.to_nat 5) (Z.to_nat 3).
Proof.
  cbv zeta. split; [vm_compute; reflexivity|]. split; [reflexivity|].
  apply (X8_every_pixel_in_a_tile Q Ref.img_as_ubyte
           (Ref.example_args false (4, 4) (1, 1) ("start", "end") 1)
           (Ref.ramp 1 6 6) 0 1 ∅ [0] 0 5 3);
    first [ left; reflexivity | vm_compute; reflexivity | simpl; lia
          | split; [discriminate | reflexivity] ].
Defined.

Lemma X9_witness :
  let a := Ref.example_args true (4, 4) (2, 2) ("start", "end") 1 in
  let data := Ref.checker 1 1 3 in
  pad a = true /\
  (window a).1 <= 2 * (overlap a).1 /\ (window a).2 <= 2 * (overlap a).2 /\
  length (sink_log Q (ref_main a data no_files).1) = 12%nat /\
  Forall (fun t =>
    0 <= d_xS (t_descr Q t) /\
    d_xE (t_descr Q t) = d_xS (t_descr Q t) + (window a).1 /\
    d_xE (t_descr Q t) <= Z.of_nat (shape2 Q data) + 2 * (overlap a).1 /\
    0 <= d_yS (t_descr Q t) /\
    d_yE (t_descr Q t) = d_yS (t_descr Q t) + (window a).2 /\
    d_yE (t_descr Q t) <= Z.of_nat (shape1 Q data) + 2 * (overlap a).2 /\
    Z.of_nat (nd_rows Q (t_roi Q t)) = (window a).2 /\
    Z.of_nat (nd_cols Q (t_roi Q t)) = (window a).1)
  (sink_log Q (ref_main a data no_files).1).
Proof.
  cbv zeta. split; [reflexivity|]. split; [simpl; lia|]. split; [simpl; lia|].
  split; [vm_compute; reflexivity|].
  apply (X9_padding_makes_the_window_fit Q Ref.of_Z Ref.to_int Ref.np_median
           Ref.img_as_ubyte Ref.py_int
           (Ref.example_args true (4, 4) (2, 2) ("start", "end") 1)
           (Ref.checker 1 1 3) ∅); [reflexivity|simpl; lia|simpl; lia].
Defined.

Lemma X10_witness :
  let a := Ref.example_args false (4, 4) (1, 1) ("start", "end") 1 in
  let w' := (ref_main a (Ref.ramp 1 6 6) no_files).1 in
  length (sink_log Q w') = 4%nat /\
  (forall t u, In t (sink_log Q w') -> In u (sink_log Q w') ->
     tile_path Q a t = tile_path Q a u -> t = u) /\
  Forall (fun t => fs Q w' !! tile_path Q a t = Some [PngData Q (t_img Q t)])
         (sink_log Q w').
Proof.
  cbv zeta.
  destruct (X10_file_name_determines_tile Q Ref.of_Z Ref.to_int Ref.np_median
              Ref.img_as_ubyte Ref.py_int
              (Ref.example_args false (4, 4) (1, 1) ("start", "end") 1)
              (Ref.ramp 1 6 6) ∅) as (_ & Hsame & Hfile).
  split; [vm_compute; reflexivity|]. split; [exact Hsame|].
  apply List.Forall_forall. intros t Ht. apply Hfile; [exact Ht|].
  revert t Ht. apply no_collision_spec. vm_compute. reflexivity.
Defined.

(** ** X11-X13 on concrete slice ranges *)

Lemma X11_witness :
  let a := Ref.example_args false (4, 4) (1, 1) ("0", "3") 1 in
  let data := Ref.ramp 2 6 6 in
  let w' := (ref_main a data no_files).1 in
  visited_slices Q Ref.py_int a data = Ok [0; 1; 2] /\
  is_ok (ref_main a data no_files).2 = false /\
  length (sink_log Q w') = 8%nat /\
  Forall (fun t => - Z.of_nat (shape0 Q data) <= d_z (t_descr Q t)
                   < Z.of_nat (shape0 Q data)) (sink_log Q w') /\
  fs Q w' !! csv_path a = None.
Proof.
  cbv zeta. split; [reflexivity|].
  assert (Hout : ~ (- Z.of_nat (shape0 Q (Ref.ramp 2 6 6)) <= 2
                      < Z.of_nat (shape0 Q (Ref.ramp 2 6 6)))) by (simpl; lia).
  assert (H1 : (0 < shape1 Q (Ref.ramp 2 6 6))%nat) by (simpl; lia).
  assert (H2 : (0 < shape2 Q (Ref.ramp 2 6 6))%nat) by (simpl; lia).
  destruct (X11_slice_outside_volume Q Ref.of_Z Ref.to_int Ref.np_median
              Ref.img_as_ubyte Ref.py_int
              (Ref.example_args false (4, 4) (1, 1) ("0", "3") 1)
              (Ref.ramp 2 6 6) ∅ 0 3 2 [0; 1; 2]
              eq_refl eq_refl eq_refl (or_intror (or_intror (or_introl eq_refl)))
              Hout eq_refl eq_refl H1 H2)
    as (Hfail & Hz & Hcsv).
  split; [exact Hfail|]. split; [vm_compute; reflexivity|]. split; [exact Hz|].
  rewrite Hcsv; [reflexivity|].
  apply no_collision_spec. vm_compute. reflexivity.
Defined.

Lemma X12_witness :
  let a := Ref.example_args false (4, 4) (1, 1) ("1", "0") (-1) in
  let data := Ref.ramp 2 6 6 in
  zskip a < 0 /\
  visited_slices Q Ref.py_int a data = Ok [1] /\
  length (sink_log Q (ref_main a data no_files).1) = 4%nat /\
  exists zs,
    visited_slices Q Ref.py_int a data = Ok zs /\
    StronglySorted Z.gt zs /\
    (forall z, In z zs <->
       (exists i, 0 <= i /\ z = 1 + i * zskip a) /\ 0 < z <= 1) /\
    Forall (fun t => In (d_z (t_descr Q t)) zs)
           (sink_log Q (ref_main a data no_files).1).
Proof.
  cbv zeta. split; [simpl; lia|]. split; [reflexivity|].
  split; [vm_compute; reflexivity|].
  destruct (X12_negative_skip Q Ref.of_Z Ref.to_int Ref.np_median
              Ref.img_as_ubyte Ref.py_int
              (Ref.example_args false (4, 4) (1, 1) ("1", "0") (-1))
              (Ref.ramp 2 6 6) ∅ 1 0 eq_refl eq_refl eq_refl)
    as (zs & Hv & Hs & Hin & Hlog & _).
  exists zs. auto.
Defined.


(** ** X14-X17 on concrete argument dictionaries *)

Lemma X14_witness :
  let r := RawArgs "vol.h5" "out" false "4x4" "1x1" "start-end" 1 "data" true
                   "manifest.csv" None in
  let r' := RawArgs "vol.h5" "out" false "4x4" "1x1" "0-1-2" 1 "data" true
                    "manifest.csv" None in
  (exists tS tE,
     unpack2 (split_on "-" (raw_zrange r)) = Ok (tS, tE) /\
     raw_zrange r = tS +:+ String "-" tE /\
     has_char "-" tS = false /\ has_char "-" tE = false) /\
  (unpack2 (split_on "-" (raw_zrange r')) = Raise ValueError /\
   exists e, ref_main_raw r' (Ref.ramp 1 6 6) no_files = (no_files, Raise e)).
Proof.
  cbv zeta. split.
  - apply (X14_zrange_needs_one_dash Q Ref.of_Z Ref.to_int Ref.np_median
             Ref.img_as_ubyte Ref.py_int RefAxes.np_transpose
             (RawArgs "vol.h5" "out" false "4x4" "1x1" "start-end" 1 "data" true
                      "manifest.csv" None) (Ref.ramp 1 6 6) no_files).
    reflexivity.
  - apply (X14_zrange_needs_one_dash Q Ref.of_Z Ref.to_int Ref.np_median
             Ref.img_as_ubyte Ref.py_int RefAxes.np_transpose
             (RawArgs "vol.h5" "out" false "4x4" "1x1" "0-1-2" 1 "data" true
                      "manifest.csv" None) (Ref.ramp 1 6 6) no_files).
    simpl. lia.
Defined.

Lemma X15_witness :
  let r := RawArgs "vol.h5" "out" false "4x4" "1x1" "start-end" 1 "data" true
                   "manifest.csv" (Some "2,0,1") in
  exists data1,
    RefAxes.np_transpose (Ref.ramp 6 1 6) [2; 0; 1] = Ok data1 /\
    shape0 Q data1 = 6%nat /\ shape1 Q data1 = 6%nat /\ shape2 Q data1 = 1%nat /\
    forall w,
      ref_main_raw r (Ref.ramp 6 1 6) w =
      ref_main (args_of r (4, 4) (1, 1) ("start", "end")) data1 w.
Proof.
  cbv zeta. eexists. split; [reflexivity|].
  split; [reflexivity|]. split; [reflexivity|]. split; [reflexivity|].
  intros w.
  apply (X15_dictionary_run_is_parsed_run Q Ref.of_Z Ref.to_int Ref.np_median
           Ref.img_as_ubyte Ref.py_int RefAxes.np_transpose
           (RawArgs "vol.h5" "out" false "4x4" "1x1" "start-end" 1 "data" true
                    "manifest.csv" (Some "2,0,1"))
           (Ref.ramp 6 1 6) _ 4 4 1 1 [] [] ("start", "end") w); reflexivity.
Defined.

Lemma X16_witness :
  let r := RawArgs "vol.h5" "out" false "4" "1x1" "start-end" 1 "data" true
                   "manifest.csv" None in
  parse_ints Ref.py_int "x" (raw_window r) = Ok [4] /\
  exists e, ref_main_raw r (Ref.ramp 1 6 6) no_files = (no_files, Raise e).
Proof.
  cbv zeta. split; [reflexivity|].
  apply (X16_short_size_fails_at_first_use Q Ref.of_Z Ref.to_int Ref.np_median
           Ref.img_as_ubyte Ref.py_int RefAxes.np_transpose
           (RawArgs "vol.h5" "out" false "4" "1x1" "start-end" 1 "data" true
                    "manifest.csv" None)
           (Ref.ramp 1 6 6) (Ref.ramp 1 6 6) [4] [1; 1] ("start", "end") 0 1 no_files);
    first [ reflexivity | left; simpl; lia | discriminate ].
Defined.

Lemma X17_witness :
  let data := Ref.checker 1 4 4 in
  let a := Args "vol.h5" "out" true (240, 264) (120, 132) ("start", "end") 1
                "data" true "manifest.csv" None in
  (forall w, ref_main_raw (default_args "vol.h5" "out") data w = ref_main a data w) /\
  Forall (fun t =>
    nd_rows Q (t_roi Q t) = 264%nat /\ nd_cols Q (t_roi Q t) = 240%nat /\
    d_xE (t_descr Q t) - d_xS (t_descr Q t) = 240 /\
    d_yE (t_descr Q t) - d_yS (t_descr Q t) = 264)
  (sink_log Q (ref_main_raw (default_args "vol.h5" "out") data no_files).1).
Proof.
  cbv zeta.
  apply (X17_default_run Q Ref.of_Z Ref.to_int Ref.np_median
           Ref.img_as_ubyte Ref.py_int RefAxes.np_transpose
           "vol.h5" "out" (Ref.checker 1 4 4) ∅); reflexivity.
Defined.

(** ** X18 on the default manifest name *)

Lemma X18_witness :
  let a := Ref.example_args false (4, 4) (1, 1) ("start", "end") 1 in
  let w' := (ref_main a (Ref.ramp 1 6 6) no_files).1 in
  ends_with ".png" (csv_filename a) = false /\
  (forall t, In t (sink_log Q w') -> tile_path Q a t <> csv_path a) /\
  fs Q w' !! csv_path a =
    Some (CsvRow Q header_row :: manifest_rows Q a (sink_log Q w')).
Proof.
  cbv zeta. split; [reflexivity|].
  destruct (X18_tiles_never_replace_the_manifest Q Ref.of_Z Ref.to_int
              Ref.np_median Ref.img_as_ubyte Ref.py_int
              (Ref.example_args false (4, 4) (1, 1) ("start", "end") 1)
              (Ref.ramp 1 6 6) ∅ eq_refl) as (Hno & Hfs).
  split; [exact Hno|]. rewrite Hfs.
  assert (Hok : is_ok (ref_main (Ref.example_args false (4, 4) (1, 1) ("start", "end") 1)
                                (Ref.ramp 1 6 6) no_files).2 = true)
    by (vm_compute; reflexivity).
  rewrite Hok. reflexivity.
Defined.

(** ** X19 on a negative overlap *)

Lemma X19_witness :
  let a := Ref.example_args true (4, 4) (-1, 1) ("start", "end") 1 in
  pad a = true /\ (overlap a).1 < 0 /\
  exists e, ref_main a (Ref.ramp 1 6 6) no_files = (no_files, Raise e).
Proof.
  cbv zeta. split; [reflexivity|]. split; [reflexivity|].
  apply (X19_padding_refuses Q Ref.of_Z Ref.to_int Ref.np_median
           Ref.img_as_ubyte Ref.py_int
           (Ref.example_args true (4, 4) (-1, 1) ("start", "end") 1)
           (Ref.ramp 1 6 6) no_files eq_refl (or_introl eq_refl)).
Defined.
